(** * Video ingestion pipeline: a shallow embedding of [handlerUploadVideo]

    The handler of [src/unnamed/part_000] is embedded as a function in a
    state-and-exception monad over an explicit [World]: the local staging
    directory, the durable object store, the metadata store, the position in
    the entropy stream and a log of the external effects performed so far.
    JavaScript numbers are IEEE-754 binary64 values ([float]); the external
    tools (ffprobe, ffmpeg), the authenticator, [JSON.parse], [path.join] and
    the object store's signer are collaborators and appear as section
    variables. *)

From Stdlib Require Import ZArith NArith List String Ascii Floats Lia Bool.
From Stdlib Require Import Init.Byte.
From stdpp Require Import base option gmap strings list pretty.

#[local] Set Warnings "-register-all,-inexact-float".

Local Open Scope Z_scope.
Local Open Scope string_scope.

(** ** Errors *)

(** Modelled from the spec: [./errors] is not part of the sources. The
    taxonomy has InvalidRequest, NotFound and Forbidden, which the module
    imports as [BadRequestError], [NotFoundError] and [UserForbiddenError];
    a ProcessingError is a plain [Error] thrown with the diagnostics in its
    message ([JsError]). [TypeError] and [SyntaxError] are the built-in errors
    of property access and [JSON.parse]; [OtherError] stands for anything a
    collaborator throws (authentication failures, system errors). *)
Inductive Error : Type :=
| BadRequestError (msg : string)
| NotFoundError (msg : string)
| UserForbiddenError (msg : string)
| JsError (msg : string)
| TypeError (msg : string)
| SyntaxError (msg : string)
| OtherError (name msg : string).

(** ** Request data *)

Record File : Type := mkFile {
  file_name : string;
  file_type : string;
  file_size : Z;
  file_bytes : list byte
}.

Inductive FormDataEntryValue : Type :=
| FormString (s : string)
| FormFile (f : File).

Record BunRequest : Type := mkRequest {
  params_videoId : option string;
  headers : list (string * string);
  formData : Error + list (string * FormDataEntryValue)
}.

(** Modelled from the spec: [../config] is not part of the sources. Of the
    recognised options the staging root, the signing key and the port are
    plain values; the database and the object-storage client are handles on
    state, which lives in the [World] below. *)
Record ApiConfig : Type := mkConfig {
  assetsRoot : string;
  jwtSecret : string;
  port : Z
}.

(** [formData.get(name)]: the first entry of that name, [null] when absent. *)
Fixpoint formData_get (fd : list (string * FormDataEntryValue)) (name : string)
  : option FormDataEntryValue :=
  match fd with
  | [] => None
  | (k, v) :: rest => if String.eqb k name then Some v else formData_get rest name
  end.

(** ** The metadata store

    Modelled from the spec: [../db/videos] is not part of the sources; the
    store is a key-based map with [get(id) -> Record | absent] and
    [update(record) -> void], a record carrying its identifier, its owning
    actor and a storage-location field that is initially unset. *)
Record Video : Type := mkVideo {
  id : string;
  userID : string;
  videoURL : option string;
  thumbnailURL : option string
}.

Record VideoRow : Type := mkRow {
  row_userID : string;
  row_videoURL : option string;
  row_thumbnailURL : option string
}.

Definition video_of_row (i : string) (r : VideoRow) : Video :=
  mkVideo i (row_userID r) (row_videoURL r) (row_thumbnailURL r).

Definition row_of_video (v : Video) : VideoRow :=
  mkRow (userID v) (videoURL v) (thumbnailURL v).

Definition set_videoURL (v : Video) (u : option string) : Video :=
  mkVideo (id v) (userID v) u (thumbnailURL v).

(** ** The world *)

Inductive Effect : Type :=
| LocalWrite (path : string)
| LocalDelete (path : string)
| Spawn (cmd : list string)
| S3Put (key : string) (source : string)
| DbUpdate (i : string)
| Presign (key : string) (expiresIn : Z).

(** [log] lists the effects performed, most recent first. [now] is the
    wall-clock reading the signer sees; the handler never advances it. *)
Record World : Type := mkWorld {
  fs : gmap string (list byte);
  s3 : gmap string (list byte);
  db : gmap string VideoRow;
  entropy : nat;
  now : Z;
  log : list Effect
}.

Definition with_fs (w : World) (f : gmap string (list byte)) (e : Effect) : World :=
  mkWorld f (s3 w) (db w) (entropy w) (now w) (e :: log w).

Definition with_s3 (w : World) (o : gmap string (list byte)) (e : Effect) : World :=
  mkWorld (fs w) o (db w) (entropy w) (now w) (e :: log w).

Definition with_db (w : World) (d : gmap string VideoRow) (e : Effect) : World :=
  mkWorld (fs w) (s3 w) d (entropy w) (now w) (e :: log w).

Definition with_entropy (w : World) (n : nat) : World :=
  mkWorld (fs w) (s3 w) (db w) n (now w) (log w).

Definition with_log (w : World) (e : Effect) : World :=
  mkWorld (fs w) (s3 w) (db w) (entropy w) (now w) (e :: log w).

(** ** The monad: state that survives a thrown error *)

Definition M (A : Type) : Type := World -> (Error + A) * World.

Definition ret {A} (a : A) : M A := fun w => (inr a, w).

Definition throw {A} (e : Error) : M A := fun w => (inl e, w).

Definition bind {A B} (m : M A) (k : A -> M B) : M B :=
  fun w => match m w with
           | (inl e, w') => (inl e, w')
           | (inr a, w') => k a w'
           end.

Definition lift {A} (r : Error + A) : M A :=
  match r with
  | inl e => throw e
  | inr a => ret a
  end.

Declare Scope js_scope.
Delimit Scope js_scope with js.
Notation "x <- c1 ;; c2" := (bind c1 (fun x => c2))
  (at level 100, c1 at next level, right associativity) : js_scope.
Notation "c1 ;;; c2" := (bind c1 (fun _ => c2))
  (at level 100, right associativity) : js_scope.
Local Open Scope js_scope.

(** ** JavaScript helpers *)

(** [!s] for [s : string | undefined]: the empty string and [undefined] are
    falsy. *)
Definition js_not (s : option string) : bool :=
  match s with
  | None => true
  | Some v => String.eqb v ""
  end.

(** 32-bit wrap-around of the shift operators. *)
Definition to_int32 (z : Z) : Z :=
  let m := z mod 2 ^ 32 in
  if (m <? 2 ^ 31)%Z then m else m - 2 ^ 32.

Definition js_shl (a b : Z) : Z :=
  to_int32 (Z.shiftl (to_int32 a) (b mod 32)).

(** [s.split(sep)] for a one-character separator. *)
Fixpoint js_split_aux (sep : ascii) (s : string) (cur : string) : list string :=
  match s with
  | EmptyString => [cur]
  | String c rest =>
      if Ascii.eqb c sep then cur :: js_split_aux sep rest ""
      else js_split_aux sep rest (cur +:+ String c "")
  end.

Definition js_split (sep : ascii) (s : string) : list string :=
  js_split_aux sep s "".

(** No ["/"] occurs in [s]. *)
Fixpoint no_slash (s : string) : bool :=
  match s with
  | EmptyString => true
  | String c rest => negb (Ascii.eqb c "/") && no_slash rest
  end.

(** [xs.at(-1)]. *)
Definition js_at_last (xs : list string) : option string := last xs.

(** A template-literal hole filled with a [string | undefined]. *)
Definition js_template (s : option string) : string :=
  match s with
  | Some v => v
  | None => "undefined"
  end.

Definition newline : string := String (ascii_of_nat 10) "".

(** ** base64url, as [Buffer.toString("base64url")] produces it (no padding) *)

Definition base64url_alphabet : string :=
  "ABCDEFGHIJKLMNOPQRSTUVWXYZabcdefghijklmnopqrstuvwxyz0123456789-_".

Definition b64char (n : N) : ascii :=
  match String.get (N.to_nat n) base64url_alphabet with
  | Some c => c
  | None => "="%char
  end.

Definition sextet (n : N) (k : N) : ascii :=
  b64char (N.land (N.shiftr n (6 * k)) 63).

Fixpoint base64url (bs : list byte) : string :=
  match bs with
  | [] => ""
  | [a] =>
      let n := N.shiftl (Byte.to_N a) 16 in
      String (sextet n 3) (String (sextet n 2) "")
  | [a; b] =>
      let n := N.lor (N.shiftl (Byte.to_N a) 16) (N.shiftl (Byte.to_N b) 8) in
      String (sextet n 3) (String (sextet n 2) (String (sextet n 1) ""))
  | a :: b :: c :: rest =>
      let n := N.lor (N.lor (N.shiftl (Byte.to_N a) 16) (N.shiftl (Byte.to_N b) 8))
                     (Byte.to_N c) in
      String (sextet n 3) (String (sextet n 2) (String (sextet n 1)
        (String (sextet n 0) (base64url rest))))
  end.

Definition is_urlsafe (c : ascii) : bool :=
  let n := N_of_ascii c in
  ((65 <=? n) && (n <=? 90) || (97 <=? n) && (n <=? 122)
   || (48 <=? n) && (n <=? 57) || (n =? 45) || (n =? 95))%N.

(** ** JavaScript values, as [JSON.parse] returns them *)

Inductive JSValue : Type :=
| JSUndefined
| JSNull
| JSBool (b : bool)
| JSNumber (x : float)
| JSString (s : string)
| JSArray (xs : list JSValue)
| JSObject (props : list (string * JSValue)).

Fixpoint assoc (k : string) (props : list (string * JSValue)) : option JSValue :=
  match props with
  | [] => None
  | (k', v) :: rest => if String.eqb k' k then Some v else assoc k rest
  end.

(** [v.name] for a name that no built-in prototype defines ([streams],
    [width] and [height] are such names): reading a property of [undefined]
    or [null] throws, an object answers with its own property, every other
    value answers [undefined]. *)
Definition js_get (v : JSValue) (name : string) : Error + JSValue :=
  match v with
  | JSUndefined | JSNull =>
      inl (TypeError ("Cannot read properties of undefined or null (reading '"
                        +:+ name +:+ "')"))
  | JSObject props => inr (default JSUndefined (assoc name props))
  | _ => inr JSUndefined
  end.

(** [v[0]]: the first element of an array, the first character of a string,
    the property ["0"] of an object. *)
Definition js_get0 (v : JSValue) : Error + JSValue :=
  match v with
  | JSUndefined | JSNull =>
      inl (TypeError "Cannot read properties of undefined or null (reading '0')")
  | JSArray xs => inr (default JSUndefined (head xs))
  | JSString (String c _) => inr (JSString (String c ""))
  | JSObject props => inr (default JSUndefined (assoc "0" props))
  | _ => inr JSUndefined
  end.

(** ** Geometry classification on binary64 numbers *)

(** The three comparisons of [getVideoAspectRatio], on the quotient. *)
Definition near_16_9 (aspectRatio : float) : bool :=
  (abs (aspectRatio - 16 / 9) <? 0.01)%float.

Definition near_9_16 (aspectRatio : float) : bool :=
  (abs (aspectRatio - 9 / 16) <? 0.01)%float.

Definition classifyRatio (aspectRatio : float) : string :=
  if near_16_9 aspectRatio then "landscape"
  else if near_9_16 aspectRatio then "portrait"
  else "other".

Definition classify (width height : float) : string :=
  classifyRatio (width / height)%float.

(** The two targets as binary64 numbers: sign, mantissa, exponent. *)
Definition nine_sixteenths : spec_float := S754_finite false 5066549580791808 (-53).
Definition sixteen_ninths : spec_float := S754_finite false 8006399337547548 (-52).

(** The exponent of [0.01] is [-59]: a number that is not zero and whose
    exponent is at least [-58] is not below the tolerance in magnitude. *)
Definition far (x : spec_float) : Prop :=
  match x with
  | S754_zero _ => False
  | S754_finite _ _ e => -58 <= e
  | _ => True
  end.

(** ** External processes *)

(** What a finished child process leaves behind: its exit code, its two
    output streams and the files it created or overwrote. *)
Record ProcResult : Type := mkProc {
  exitCode : Z;
  stdout : string;
  stderr : string;
  written : list (string * list byte)
}.

Definition apply_writes (ws : list (string * list byte)) (f : gmap string (list byte))
  : gmap string (list byte) :=
  fold_left (fun acc pb => <[pb.1 := pb.2]> acc) ws f.

(** ** Collaborators *)

Class Collaborators : Type := {
  (** [../auth] *)
  getBearerToken : list (string * string) -> Error + string;
  validateJWT : string -> string -> Error + string;
  (** the operating system running [cmd] against the staging directory *)
  spawn : list string -> gmap string (list byte) -> ProcResult;
  (** [JSON.parse], and [ToNumber] on strings, arrays and objects *)
  JSON_parse : string -> Error + JSValue;
  ToNumber_coerce : JSValue -> Error + float;
  (** [node:path] and [node:crypto] *)
  path_join : string -> string -> string;
  random_stream : nat -> byte;
  (** the object store's signer, reading the clock *)
  presign : Z -> string -> Z -> string
}.

Section Pipeline.
Context {C : Collaborators}.

(** [ToNumber], applied by [/] to each operand. *)
Definition ToNumber (v : JSValue) : Error + float :=
  match v with
  | JSUndefined => inr nan
  | JSNull => inr 0%float
  | JSBool true => inr 1%float
  | JSBool false => inr 0%float
  | JSNumber x => inr x
  | _ => ToNumber_coerce v
  end.

(** *** Primitive effects

    A local write, a spawn and the two stores' own operations are taken to
    succeed; deleting or uploading a local file that is not there throws.
    [console.log] leaves no trace in the world and is not modelled. *)

Definition Bun_write (path : string) (data : list byte) : M unit :=
  fun w => (inr tt, with_fs w (<[path := data]> (fs w)) (LocalWrite path)).

Definition Bun_file_delete (path : string) : M unit :=
  fun w => match fs w !! path with
           | Some _ => (inr tt, with_fs w (delete path (fs w)) (LocalDelete path))
           | None => (inl (OtherError "ENOENT" path), w)
           end.

Definition Bun_spawn (cmd : list string) : M ProcResult :=
  fun w => let r := spawn cmd (fs w) in
           (inr r, with_fs w (apply_writes (written r) (fs w)) (Spawn cmd)).

(** [s3Client.file(key).write(Bun.file(path))] *)
Definition s3_write (key : string) (path : string) : M unit :=
  fun w => match fs w !! path with
           | Some bytes => (inr tt, with_s3 w (<[key := bytes]> (s3 w)) (S3Put key path))
           | None => (inl (OtherError "ENOENT" path), w)
           end.

Definition s3_presign (key : string) (expiresIn : Z) : M string :=
  fun w => (inr (presign (now w) key expiresIn), with_log w (Presign key expiresIn)).

Definition randomBytes (n : nat) : M (list byte) :=
  fun w => (inr (map random_stream (seq (entropy w) n)),
            with_entropy w (entropy w + n)%nat).

(** Modelled from the spec: [get(id) -> Record | absent]. *)
Definition getVideo (videoId : string) : M (option Video) :=
  fun w => (inr (video_of_row videoId <$> db w !! videoId), w).

(** Modelled from the spec: [update(record) -> void]. The store is durable:
    it keeps the values the record's fields hold at the time of the call, not
    the caller's object. *)
Definition updateVideo (video : Video) : M unit :=
  fun w => (inr tt, with_db w (<[id video := row_of_video video]> (db w))
                      (DbUpdate (id video))).

(** Modelled from the spec: [./json] is not part of the sources. The
    response is a status and a JSON body mirroring the record's fields. *)
Record Response : Type := mkResponse {
  status : Z;
  payload : Video
}.

Definition respondWithJSON (code : Z) (v : Video) : Response := mkResponse code v.

(** *** The source functions *)

Definition generatePresignedURL (key : string) (expireTime : option Z) : M string :=
  s3_presign key (default 3600 expireTime).

(** The function assigns to [video.videoURL] and returns the same object:
    the value returned is the state of that object after the call. *)
Definition dbVideoToSignedVideo (video : Video) : M Video :=
  if js_not (videoURL video) then ret video
  else
    url <- generatePresignedURL (default "" (videoURL video)) None ;;
    ret (set_videoURL video (Some url)).

Definition ffprobe_cmd (filePath : string) : list string :=
  ["ffprobe"; "-v"; "error"; "-select_streams"; "v:0"; "-show_entries";
   "stream=width,height"; "-of"; "json"; filePath].

Definition getVideoAspectRatio (filePath : string) : M string :=
  subprocess <- Bun_spawn (ffprobe_cmd filePath) ;;
  let text := stdout subprocess in
  if negb (exitCode subprocess =? 0)%Z then
    throw (JsError ("Failed to read dimensions of " +:+ filePath +:+ ": "
                      +:+ newline +:+ stderr subprocess))
  else
    parsed <- lift (JSON_parse text) ;;
    streams <- lift (js_get parsed "streams") ;;
    obj <- lift (js_get0 streams) ;;
    width <- lift (js_get obj "width") ;;
    height <- lift (js_get obj "height") ;;
    w <- lift (ToNumber width) ;;
    h <- lift (ToNumber height) ;;
    ret (classify w h).

Definition ffmpeg_cmd (filePath outputFilePath : string) : list string :=
  ["ffmpeg"; "-i"; filePath; "-movflags"; "faststart"; "-map_metadata"; "0";
   "-codec"; "copy"; "-f"; "mp4"; outputFilePath].

Definition processVideoForFastStart (filePath : string) : M string :=
  let outputFilePath := filePath +:+ ".processed" in
  subprocess <- Bun_spawn (ffmpeg_cmd filePath outputFilePath) ;;
  if negb (exitCode subprocess =? 0)%Z then
    throw (JsError ("Failed to process video for fast start " +:+ filePath +:+ ": "
                      +:+ newline +:+ stderr subprocess))
  else ret outputFilePath.

Definition MAX_UPLOAD_SIZE : Z := js_shl 1 30.

Definition handlerUploadVideo (cfg : ApiConfig) (req : BunRequest) : M Response :=
  videoId <- (if js_not (params_videoId req)
              then throw (BadRequestError "Invalid video ID")
              else ret (default "" (params_videoId req))) ;;
  token <- lift (getBearerToken (headers req)) ;;
  userID' <- lift (validateJWT token (jwtSecret cfg)) ;;
  fd <- lift (formData req) ;;
  match formData_get fd "video" with
  | Some (FormFile videoData) =>
      if (file_size videoData >? MAX_UPLOAD_SIZE)%Z
      then throw (BadRequestError "Video is larger than 1GB")
      else
        found <- getVideo videoId ;;
        match found with
        | None => throw (NotFoundError "Video not found")
        | Some video =>
            if negb (String.eqb (userID video) userID')
            then throw (UserForbiddenError "Wrong user")
            else if negb (String.eqb (file_type videoData) "video/mp4")
            then throw (BadRequestError "Unsupported video format")
            else
              let extension := js_at_last (js_split "/" (file_type videoData)) in
              let data := file_bytes videoData in
              rnd <- randomBytes 32 ;;
              let fileName := base64url rnd +:+ "." +:+ js_template extension in
              let targetPath := path_join (assetsRoot cfg) fileName in
              Bun_write targetPath data ;;;
              prefix <- getVideoAspectRatio targetPath ;;
              processedFilePath <- processVideoForFastStart targetPath ;;
              Bun_file_delete targetPath ;;;
              let key := prefix +:+ "/" +:+ fileName in
              s3_write key processedFilePath ;;;
              Bun_file_delete processedFilePath ;;;
              let video := set_videoURL video (Some key) in
              updateVideo video ;;;
              signedVideo <- dbVideoToSignedVideo video ;;
              ret (respondWithJSON 200 signedVideo)
        end
  | _ => throw (BadRequestError "Video is not a file")
  end.

(** *** Names for the stages of one upload

    [rnd] is what [randomBytes(32)] returns in world [w]; the staged file is
    written, probed and remuxed in that order, each external process seeing
    the staging directory its predecessor left. *)

Definition entropy32 (w : World) : list byte :=
  map random_stream (seq (entropy w) 32).

Definition stagedName (w : World) (mime : string) : string :=
  base64url (entropy32 w) +:+ "." +:+ js_template (js_at_last (js_split "/" mime)).

Definition stagedPath (cfg : ApiConfig) (w : World) : string :=
  path_join (assetsRoot cfg) (stagedName w "video/mp4").

Definition processedPath (cfg : ApiConfig) (w : World) : string :=
  stagedPath cfg w +:+ ".processed".

Definition fsStaged (cfg : ApiConfig) (w : World) (data : list byte)
  : gmap string (list byte) :=
  <[stagedPath cfg w := data]> (fs w).

Definition probeRun (cfg : ApiConfig) (w : World) (data : list byte) : ProcResult :=
  spawn (ffprobe_cmd (stagedPath cfg w)) (fsStaged cfg w data).

Definition fsProbed (cfg : ApiConfig) (w : World) (data : list byte)
  : gmap string (list byte) :=
  apply_writes (written (probeRun cfg w data)) (fsStaged cfg w data).

Definition remuxRun (cfg : ApiConfig) (w : World) (data : list byte) : ProcResult :=
  spawn (ffmpeg_cmd (stagedPath cfg w) (processedPath cfg w)) (fsProbed cfg w data).

Definition fsRemuxed (cfg : ApiConfig) (w : World) (data : list byte)
  : gmap string (list byte) :=
  apply_writes (written (remuxRun cfg w data)) (fsProbed cfg w data).

(** The verdicts of the two tools, read off a finished process: what
    [getVideoAspectRatio] and [processVideoForFastStart] compute once the
    child has exited. *)
Definition probe_verdict (filePath : string) (subprocess : ProcResult)
  : Error + string :=
  if negb (exitCode subprocess =? 0)%Z then
    inl (JsError ("Failed to read dimensions of " +:+ filePath +:+ ": "
                    +:+ newline +:+ stderr subprocess))
  else
    match JSON_parse (stdout subprocess) with
    | inl e => inl e
    | inr parsed =>
    match js_get parsed "streams" with
    | inl e => inl e
    | inr streams =>
    match js_get0 streams with
    | inl e => inl e
    | inr obj =>
    match js_get obj "width" with
    | inl e => inl e
    | inr width =>
    match js_get obj "height" with
    | inl e => inl e
    | inr height =>
    match ToNumber width with
    | inl e => inl e
    | inr w =>
    match ToNumber height with
    | inl e => inl e
    | inr h => inr (classify w h)
    end end end end end end end.

Definition remux_verdict (filePath : string) (subprocess : ProcResult)
  : Error + string :=
  if negb (exitCode subprocess =? 0)%Z then
    inl (JsError ("Failed to process video for fast start " +:+ filePath +:+ ": "
                    +:+ newline +:+ stderr subprocess))
  else inr (filePath +:+ ".processed").

(** The worlds an upload passes through. *)
Definition afterStaging (cfg : ApiConfig) (w : World) (data : list byte) : World :=
  mkWorld (fsStaged cfg w data) (s3 w) (db w) (entropy w + 32)%nat (now w)
          (LocalWrite (stagedPath cfg w) :: log w).

Definition afterProbe (cfg : ApiConfig) (w : World) (data : list byte) : World :=
  mkWorld (fsProbed cfg w data) (s3 w) (db w) (entropy w + 32)%nat (now w)
          (Spawn (ffprobe_cmd (stagedPath cfg w)) :: LocalWrite (stagedPath cfg w) :: log w).

Definition afterRemux (cfg : ApiConfig) (w : World) (data : list byte) : World :=
  mkWorld (fsRemuxed cfg w data) (s3 w) (db w) (entropy w + 32)%nat (now w)
          (Spawn (ffmpeg_cmd (stagedPath cfg w) (processedPath cfg w))
             :: log (afterProbe cfg w data)).

Definition afterUnstaging (cfg : ApiConfig) (w : World) (data : list byte) : World :=
  mkWorld (delete (stagedPath cfg w) (fsRemuxed cfg w data)) (s3 w) (db w)
          (entropy w + 32)%nat (now w)
          (LocalDelete (stagedPath cfg w) :: log (afterRemux cfg w data)).

Definition storageKey (w : World) (prefix : string) : string :=
  prefix +:+ "/" +:+ stagedName w "video/mp4".

Definition afterUpload (cfg : ApiConfig) (w : World) (data : list byte)
    (video : Video) (prefix : string) (bytes : list byte) : World :=
  mkWorld (delete (processedPath cfg w) (delete (stagedPath cfg w) (fsRemuxed cfg w data)))
          (<[storageKey w prefix := bytes]> (s3 w))
          (<[id video := row_of_video (set_videoURL video (Some (storageKey w prefix)))]> (db w))
          (entropy w + 32)%nat (now w)
          (Presign (storageKey w prefix) 3600
             :: DbUpdate (id video)
             :: LocalDelete (processedPath cfg w)
             :: S3Put (storageKey w prefix) (processedPath cfg w)
             :: log (afterUnstaging cfg w data)).

(** The result of an upload that passed validation, in closed form. *)
Definition outcome (cfg : ApiConfig) (w : World) (videoData : File) (video : Video)
  : (Error + Response) * World :=
  let data := file_bytes videoData in
  match probe_verdict (stagedPath cfg w) (probeRun cfg w data) with
  | inl e => (inl e, afterProbe cfg w data)
  | inr prefix =>
      match remux_verdict (stagedPath cfg w) (remuxRun cfg w data) with
      | inl e => (inl e, afterRemux cfg w data)
      | inr _ =>
          match fsRemuxed cfg w data !! processedPath cfg w with
          | None => (inl (OtherError "ENOENT" (processedPath cfg w)),
                     afterUnstaging cfg w data)
          | Some bytes =>
              (inr (respondWithJSON 200
                      (set_videoURL video
                         (Some (presign (now w) (storageKey w prefix) 3600)))),
               afterUpload cfg w data video prefix bytes)
          end
      end
  end.

(** The token checks of the handler, as one step. *)
Definition authenticate (cfg : ApiConfig) (req : BunRequest) : Error + string :=
  match getBearerToken (headers req) with
  | inl e => inl e
  | inr token => validateJWT token (jwtSecret cfg)
  end.

(** The request passed every check of the handler for record [video], actor
    [actor] and file part [videoData]. *)
Definition validated (cfg : ApiConfig) (req : BunRequest) (w : World)
    (actor : string) (videoData : File) (video : Video) : Prop :=
  params_videoId req = Some (id video) /\ id video <> "" /\
  authenticate cfg req = inr actor /\
  (exists fd, formData req = inr fd /\
              formData_get fd "video" = Some (FormFile videoData)) /\
  (file_size videoData <= 2 ^ 30)%Z /\
  video_of_row (id video) <$> db w !! id video = Some video /\
  userID video = actor /\
  file_type videoData = "video/mp4".

(** A sequence of upload requests, each served to completion. *)
Definition serve (reqs : list (ApiConfig * BunRequest)) (w : World) : World :=
  fold_left (fun acc cr => (handlerUploadVideo cr.1 cr.2 acc).2) reqs w.

(** What the probe must print for the width and height to be read as
    numbers: a JSON object whose [streams] is a list with a first entry
    holding numeric [width] and [height]. *)
Definition probe_output_ok (text : string) : Prop :=
  exists props rest fields width height,
    JSON_parse text = inr (JSObject props) /\
    assoc "streams" props = Some (JSArray (JSObject fields :: rest)) /\
    assoc "width" fields = Some (JSNumber width) /\
    assoc "height" fields = Some (JSNumber height).

(** Record [i] names an object of durable storage whose bytes satisfy [good]. *)
Definition located (good : list byte -> Prop) (i : string) (w : World) : Prop :=
  exists key bytes,
    row_videoURL <$> db w !! i = Some (Some key) /\
    s3 w !! key = Some bytes /\
    good bytes.

(** [good] holds of whatever a successful remux leaves at its output path. *)
Definition remux_ensures (good : list byte -> Prop) : Prop :=
  forall (filePath : string) (files : gmap string (list byte)) (bytes : list byte),
    let r := spawn (ffmpeg_cmd filePath (filePath +:+ ".processed")) files in
    exitCode r = 0 ->
    apply_writes (written r) files !! (filePath +:+ ".processed") = Some bytes ->
    good bytes.

End Pipeline.

(** ** The preconditions as the specification lists them *)

Inductive Precondition : Type :=
| IdentifierPresent
| PayloadIsFile
| SizeWithinCeiling
| RecordExists
| ActorOwnsRecord
| MimeAccepted.

Inductive FailureClass : Type :=
| InvalidRequest
| NotFound
| Forbidden.

Definition failure_class (p : Precondition) : FailureClass :=
  match p with
  | IdentifierPresent | PayloadIsFile | SizeWithinCeiling | MimeAccepted => InvalidRequest
  | RecordExists => NotFound
  | ActorOwnsRecord => Forbidden
  end.

Definition class_of_error (e : Error) : option FailureClass :=
  match e with
  | BadRequestError _ => Some InvalidRequest
  | NotFoundError _ => Some NotFound
  | UserForbiddenError _ => Some Forbidden
  | _ => None
  end.

Definition error_of (p : Precondition) : Error :=
  match p with
  | IdentifierPresent => BadRequestError "Invalid video ID"
  | PayloadIsFile => BadRequestError "Video is not a file"
  | SizeWithinCeiling => BadRequestError "Video is larger than 1GB"
  | RecordExists => NotFoundError "Video not found"
  | ActorOwnsRecord => UserForbiddenError "Wrong user"
  | MimeAccepted => BadRequestError "Unsupported video format"
  end.

(** The first of the six preconditions that fails, in the order the
    specification lists them; [None] when all hold. *)
Definition first_failed (records : gmap string VideoRow) (videoId : option string)
    (actor : string) (part : option FormDataEntryValue) : option Precondition :=
  match videoId with
  | None => Some IdentifierPresent
  | Some i =>
      if String.eqb i "" then Some IdentifierPresent
      else match part with
           | Some (FormFile f) =>
               if (2 ^ 30 <? file_size f)%Z then Some SizeWithinCeiling
               else match records !! i with
                    | None => Some RecordExists
                    | Some r =>
                        if negb (String.eqb (row_userID r) actor) then Some ActorOwnsRecord
                        else if negb (String.eqb (file_type f) "video/mp4")
                             then Some MimeAccepted
                             else None
                    end
           | _ => Some PayloadIsFile
           end
  end.

(** ** A concrete environment

    One instance of the collaborators, small enough to run the handler on:
    tokens of the form [secret:user], a probe that prints a fixed text, a
    remuxer that prefixes its input with one marker byte, and a reader for
    the fragment of JSON the probe emits (objects, arrays, strings without
    escapes, integers and the three literals). *)

Module Demo.

Definition dq : ascii := ascii_of_nat 34.

Definition quoted (s : string) : string := String dq (s +:+ String dq "").

Definition is_space (c : ascii) : bool :=
  let n := N_of_ascii c in ((n =? 32) || (n =? 10) || (n =? 13) || (n =? 9))%N.

Fixpoint skip_ws (s : string) : string :=
  match s with
  | String c r => if is_space c then skip_ws r else s
  | EmptyString => s
  end.

Definition digit_of (c : ascii) : option Z :=
  let n := Z.of_N (N_of_ascii c) in
  if ((48 <=? n) && (n <=? 57))%Z then Some (n - 48) else None.

Fixpoint read_digits (s : string) (acc : Z) : Z * string :=
  match s with
  | String c r =>
      match digit_of c with
      | Some d => read_digits r (10 * acc + d)
      | None => (acc, s)
      end
  | EmptyString => (acc, s)
  end.

(** An integer as the binary64 number nearest to it. *)
Definition number_of_Z (z : Z) : float :=
  SF2Prim (binary_normalize prec emax z 0 false).

Definition starts_fraction (s : string) : bool :=
  match s with
  | String c _ => Ascii.eqb c "." || Ascii.eqb c "e" || Ascii.eqb c "E"
  | EmptyString => false
  end.

Definition read_number (s : string) : option (float * string) :=
  match s with
  | String c r =>
      match digit_of c with
      | Some d =>
          let '(z, rest) := read_digits s 0 in
          if starts_fraction rest then None
          else if (d =? 0)%Z && negb (String.eqb r rest) then None
          else Some (number_of_Z z, rest)
      | None => None
      end
  | EmptyString => None
  end.

Fixpoint read_string (s : string) (acc : string) : option (string * string) :=
  match s with
  | String c r =>
      if Ascii.eqb c dq then Some (acc, r)
      else if Ascii.eqb c "\" then None
      else read_string r (acc +:+ String c "")
  | EmptyString => None
  end.

(** A later duplicate of a key replaces the earlier one. *)
Definition add_member (k : string) (v : JSValue) (later : list (string * JSValue))
  : list (string * JSValue) :=
  match assoc k later with
  | Some _ => later
  | None => (k, v) :: later
  end.

Fixpoint parse_value (fuel : nat) (s : string) : option (JSValue * string) :=
  match fuel with
  | O => None
  | S fuel' =>
      match skip_ws s with
      | String "n" (String "u" (String "l" (String "l" r))) => Some (JSNull, r)
      | String "t" (String "r" (String "u" (String "e" r))) => Some (JSBool true, r)
      | String "f" (String "a" (String "l" (String "s" (String "e" r)))) =>
          Some (JSBool false, r)
      | String "[" r =>
          match skip_ws r with
          | String "]" r' => Some (JSArray [], r')
          | _ => match parse_elements fuel' r with
                 | Some (xs, r') => Some (JSArray xs, r')
                 | None => None
                 end
          end
      | String "{" r =>
          match skip_ws r with
          | String "}" r' => Some (JSObject [], r')
          | _ => match parse_members fuel' r with
                 | Some (ms, r') => Some (JSObject ms, r')
                 | None => None
                 end
          end
      | String "-" r =>
          match read_number r with
          | Some (x, r') => Some (JSNumber (- x)%float, r')
          | None => None
          end
      | String c r =>
          if Ascii.eqb c dq then
            match read_string r "" with
            | Some (str, r') => Some (JSString str, r')
            | None => None
            end
          else
            match read_number (String c r) with
            | Some (x, r') => Some (JSNumber x, r')
            | None => None
            end
      | EmptyString => None
      end
  end
with parse_elements (fuel : nat) (s : string) : option (list JSValue * string) :=
  match fuel with
  | O => None
  | S fuel' =>
      match parse_value fuel' s with
      | Some (v, r) =>
          match skip_ws r with
          | String "," r' =>
              match parse_elements fuel' r' with
              | Some (vs, r'') => Some (v :: vs, r'')
              | None => None
              end
          | String "]" r' => Some ([v], r')
          | _ => None
          end
      | None => None
      end
  end
with parse_members (fuel : nat) (s : string)
  : option (list (string * JSValue) * string) :=
  match fuel with
  | O => None
  | S fuel' =>
      match skip_ws s with
      | String c r =>
          if negb (Ascii.eqb c dq) then None
          else
            match read_string r "" with
            | Some (k, r1) =>
                match skip_ws r1 with
                | String ":" r2 =>
                    match parse_value fuel' r2 with
                    | Some (v, r3) =>
                        match skip_ws r3 with
                        | String "," r4 =>
                            match parse_members fuel' r4 with
                            | Some (ms, r5) => Some (add_member k v ms, r5)
                            | None => None
                            end
                        | String "}" r4 => Some ([(k, v)], r4)
                        | _ => None
                        end
                    | None => None
                    end
                | _ => None
                end
            | None => None
            end
      | EmptyString => None
      end
  end.

Definition read_json (text : string) : Error + JSValue :=
  match parse_value (S (String.length text)) text with
  | Some (v, rest) =>
      if String.eqb (skip_ws rest) "" then inr v
      else inl (SyntaxError "Unexpected non-whitespace character after JSON")
  | None => inl (SyntaxError "JSON Parse error")
  end.

Fixpoint string_drop (n : nat) (s : string) : string :=
  match n, s with
  | O, _ => s
  | S n', String _ rest => string_drop n' rest
  | S _, EmptyString => s
  end.

Definition bearer (hs : list (string * string)) : Error + string :=
  match List.find (fun kv => String.eqb kv.1 "Authorization") hs with
  | Some (_, v) =>
      if String.prefix "Bearer " v then inr (string_drop 7 v)
      else inl (BadRequestError "Malformed authorization header")
  | None => inl (BadRequestError "Malformed authorization header")
  end.

Definition jwt_subject (token secret : string) : Error + string :=
  if String.prefix (secret +:+ ":") token
  then inr (string_drop (String.length secret + 1) token)
  else inl (OtherError "UserNotAuthenticatedError" "Invalid token").

Definition marker : byte := x66.

(** The probe prints [probeOut] and exits with [probeExit]; the remuxer exits
    with [remuxExit] and, on success, writes the marked copy of its input to
    the path given last. *)
Definition tool (probeExit : Z) (probeOut : string) (remuxExit : Z)
    (cmd : list string) (files : gmap string (list byte)) : ProcResult :=
  match cmd with
  | "ffprobe" :: _ =>
      if (probeExit =? 0)%Z then mkProc 0 probeOut "" []
      else mkProc probeExit "" "Invalid data found when processing input" []
  | "ffmpeg" :: "-i" :: input :: rest =>
      match files !! input, last rest with
      | Some bytes, Some out =>
          if (remuxExit =? 0)%Z then mkProc 0 "" "" [(out, marker :: bytes)]
          else mkProc remuxExit "" "moov atom not found" []
      | _, _ => mkProc 1 "" "No such file or directory" []
      end
  | _ => mkProc 127 "" "command not found" []
  end.

Definition all_digits (s : string) : bool :=
  forallb (fun c => match digit_of c with Some _ => true | None => false end)
          (list_ascii_of_string s).

Definition coerce (v : JSValue) : Error + float :=
  match v with
  | JSString s =>
      if String.eqb s "" then inr 0%float
      else if all_digits s then inr (number_of_Z (read_digits s 0).1)
      else inr nan
  | JSArray [] => inr 0%float
  | _ => inr nan
  end.

Definition join (a b : string) : string := a +:+ "/" +:+ b.

Definition noise (n : nat) : byte :=
  default x00 (Byte.of_N ((N.of_nat n * 37 + 11) mod 256)).

Definition origin : string := "https://media.example/".

(** The signature is one character that varies with the clock and the
    validity; the signed link names the key after it. *)
Definition sign (clock : Z) (key : string) (expiresIn : Z) : string :=
  origin +:+ (if Z.even (clock + expiresIn) then "a" else "b") +:+ "/" +:+ key.

Definition resolve (url : string) : option string :=
  if String.prefix origin url then Some (string_drop 24 url) else None.

Definition env (probeExit : Z) (probeOut : string) (remuxExit : Z) : Collaborators :=
  {| getBearerToken := bearer;
     validateJWT := jwt_subject;
     spawn := tool probeExit probeOut remuxExit;
     JSON_parse := read_json;
     ToNumber_coerce := coerce;
     path_join := join;
     random_stream := noise;
     presign := sign |}.

Definition probe_text (fields : string) : string :=
  "{" +:+ quoted "streams" +:+ ":[{" +:+ fields +:+ "}]}".

Definition probe_720p : string :=
  probe_text (quoted "width" +:+ ":1280," +:+ quoted "height" +:+ ":720").

(** ffprobe and ffmpeg both succeed on a 1280x720 stream. *)
Definition healthy : Collaborators := env 0 probe_720p 0.

(** ffmpeg exits with status 1. *)
Definition remux_fails : Collaborators := env 0 probe_720p 1.

(** ffprobe succeeds and reports a stream entry without dimensions. *)
Definition probe_without_dimensions : Collaborators := env 0 (probe_text "") 0.

Definition cfg : ApiConfig := mkConfig "/var/assets" "s3cr3t" 8091.

Definition clip : File := mkFile "clip.mp4" "video/mp4" 4 [x00; x01; x02; x03].

Definition request (videoId : option string) (user : string) (part : FormDataEntryValue)
  : BunRequest :=
  mkRequest videoId [("Authorization", "Bearer s3cr3t:" +:+ user)] (inr [("video", part)]).

Definition upload : BunRequest := request (Some "v1") "alice" (FormFile clip).

(** The same clip, declared one byte above the ceiling. *)
Definition oversized : File := mkFile "clip.mp4" "video/mp4" (2 ^ 30 + 1) [x00; x01; x02; x03].

Definition record : Video := mkVideo "v1" "alice" None None.


Definition staged : string :=
  "/var/assets/CzBVep_E6Q4zWH2ix-wRNluApcrvFDleg6jN8hc8YYY.mp4".

Definition world : World :=
  mkWorld ∅ ∅ {[ "v1" := mkRow "alice" None None ]} 0 1000 [].

End Demo.

(** * The thumbnail handlers

    [handlerGetThumbnail] reads a map [videoThumbnails] that no module of
    the sources declares or imports: evaluating the identifier throws a
    [ReferenceError]. *)

(** ** base64 with padding, as [Buffer.toString("base64")] produces it *)

Definition base64_alphabet : string :=
  "ABCDEFGHIJKLMNOPQRSTUVWXYZabcdefghijklmnopqrstuvwxyz0123456789+/".

Definition b64std (n : N) : ascii :=
  match String.get (N.to_nat n) base64_alphabet with
  | Some c => c
  | None => "="%char
  end.

(** The six bits of [n] at position [6 * k]. *)
Definition sextet_index (n : N) (k : N) : N :=
  N.land (N.shiftr n (6 * k)) 63.

Definition sextet_std (n : N) (k : N) : ascii := b64std (sextet_index n k).

Fixpoint base64 (bs : list byte) : string :=
  match bs with
  | [] => ""
  | [a] =>
      let n := N.shiftl (Byte.to_N a) 16 in
      String (sextet_std n 3) (String (sextet_std n 2) "==")
  | [a; b] =>
      let n := N.lor (N.shiftl (Byte.to_N a) 16) (N.shiftl (Byte.to_N b) 8) in
      String (sextet_std n 3) (String (sextet_std n 2) (String (sextet_std n 1) "="))
  | a :: b :: c :: rest =>
      let n := N.lor (N.lor (N.shiftl (Byte.to_N a) 16) (N.shiftl (Byte.to_N b) 8))
                     (Byte.to_N c) in
      String (sextet_std n 3) (String (sextet_std n 2) (String (sextet_std n 1)
        (String (sextet_std n 0) (base64 rest))))
  end.

(** The code point of the character [b64char] gives to an index below 64,
    and of the one [b64std] gives. *)
Definition url_code (n : N) : N :=
  if (n <? 26)%N then n + 65
  else if (n <? 52)%N then n + 71
  else if (n <? 62)%N then n - 4
  else if (n =? 62)%N then 45 else 95.

Definition std_code (n : N) : N :=
  if (n <? 26)%N then n + 65
  else if (n <? 52)%N then n + 71
  else if (n <? 62)%N then n - 4
  else if (n =? 62)%N then 43 else 47.

Definition set_thumbnailURL (v : Video) (u : option string) : Video :=
  mkVideo (id v) (userID v) (videoURL v) u.

(** A dimension that is not a finite non-zero number. *)
Definition degenerate (x : float) : bool :=
  match Prim2SF x with
  | S754_finite _ _ _ => false
  | _ => true
  end.

Definition is_negative (x : float) : bool :=
  match Prim2SF x with
  | S754_finite s _ _ => s
  | _ => false
  end.

Module Thumbnails.

(** [type Thumbnail = { data: ArrayBuffer; mediaType: string }] *)
Record Thumbnail : Type := mkThumbnail {
  data : list byte;
  mediaType : string
}.

(** [new Response(body, { headers })]: the status defaults to 200. *)
Record BodyResponse : Type := mkBodyResponse {
  body_status : Z;
  body_headers : list (string * string);
  body : list byte
}.

(** The identifier [videoThumbnails] is bound nowhere: reading it throws a
    [ReferenceError], with a message in the wording of the engine. *)
Definition videoThumbnails : Error + gmap string Thumbnail :=
  inl (OtherError "ReferenceError" "videoThumbnails is not defined").

Section Handlers.
Context {C : Collaborators}.

(** The function of [src/src/api/thumbnails.ts]; the one in
    [src/unnamed/part_000] has the same text. *)
Definition handlerGetThumbnail (cfg : ApiConfig) (req : BunRequest) : M BodyResponse :=
  videoId <- (if js_not (params_videoId req)
              then throw (BadRequestError "Invalid video ID")
              else ret (default "" (params_videoId req))) ;;
  found <- getVideo videoId ;;
  match found with
  | None => throw (NotFoundError "Couldn't find video")
  | Some video =>
      thumbnails <- lift videoThumbnails ;;
      match thumbnails !! videoId with
      | None => throw (NotFoundError "Thumbnail not found")
      | Some thumbnail =>
          ret (mkBodyResponse 200
                 [("Content-Type", mediaType thumbnail); ("Cache-Control", "no-store")]
                 (data thumbnail))
      end
  end.

Definition MAX_UPLOAD_SIZE : Z := js_shl 10 20.

(** [handlerUploadThumbnail] of [src/src/api/thumbnails.ts]: the thumbnail
    is stored in the record as a data URL. *)
Definition handlerUploadThumbnail (cfg : ApiConfig) (req : BunRequest) : M Response :=
  videoId <- (if js_not (params_videoId req)
              then throw (BadRequestError "Invalid video ID")
              else ret (default "" (params_videoId req))) ;;
  token <- lift (getBearerToken (headers req)) ;;
  userID' <- lift (validateJWT token (jwtSecret cfg)) ;;
  fd <- lift (formData req) ;;
  match formData_get fd "thumbnail" with
  | Some (FormFile thumbnail) =>
      if (file_size thumbnail >? MAX_UPLOAD_SIZE)%Z
      then throw (BadRequestError "Thumbnail is larger than 10MB")
      else
        let mediaType := file_type thumbnail in
        let data := file_bytes thumbnail in
        let base64Data := base64 data in
        let dataURL := "data:" +:+ mediaType +:+ ";base64," +:+ base64Data in
        found <- getVideo videoId ;;
        match found with
        | None => throw (NotFoundError "Video not found")
        | Some video =>
            if negb (String.eqb (userID video) userID')
            then throw (UserForbiddenError "Wrong user")
            else
              let video := set_thumbnailURL video (Some dataURL) in
              updateVideo video ;;;
              ret (respondWithJSON 200 video)
        end
  | _ => throw (BadRequestError "Thumbnail is not a file")
  end.

End Handlers.

End Thumbnails.

Module AssetThumbnails.

Section Handlers.
Context {C : Collaborators}.

Definition MAX_UPLOAD_SIZE : Z := js_shl 10 20.

(** [handlerUploadThumbnail] of [src/unnamed/part_000]: the thumbnail is
    written to the assets directory and the record holds a link to it. *)
Definition handlerUploadThumbnail (cfg : ApiConfig) (req : BunRequest) : M Response :=
  videoId <- (if js_not (params_videoId req)
              then throw (BadRequestError "Invalid video ID")
              else ret (default "" (params_videoId req))) ;;
  token <- lift (getBearerToken (headers req)) ;;
  userID' <- lift (validateJWT token (jwtSecret cfg)) ;;
  fd <- lift (formData req) ;;
  match formData_get fd "thumbnail" with
  | Some (FormFile thumbnail) =>
      if (file_size thumbnail >? MAX_UPLOAD_SIZE)%Z
      then throw (BadRequestError "Thumbnail is larger than 10MB")
      else
        found <- getVideo videoId ;;
        match found with
        | None => throw (NotFoundError "Video not found")
        | Some video =>
            if negb (String.eqb (userID video) userID')
            then throw (UserForbiddenError "Wrong user")
            else if negb (String.eqb (file_type thumbnail) "image/png")
                    && negb (String.eqb (file_type thumbnail) "image/jpeg")
            then throw (BadRequestError "Unsupported thumbnail format")
            else
              let extension := js_at_last (js_split "/" (file_type thumbnail)) in
              let data := file_bytes thumbnail in
              rnd <- randomBytes 32 ;;
              let fileName := base64url rnd +:+ "." +:+ js_template extension in
              let targetPath := path_join (assetsRoot cfg) fileName in
              Bun_write targetPath data ;;;
              let video :=
                set_thumbnailURL video
                  (Some ("http://localhost:" +:+ pretty (port cfg) +:+ "/assets/"
                           +:+ fileName)) in
              updateVideo video ;;;
              ret (respondWithJSON 200 video)
        end
  | _ => throw (BadRequestError "Thumbnail is not a file")
  end.

End Handlers.

End AssetThumbnails.

Module Api.

(** The requests the three upload handlers and the reader serve. *)
Inductive Call : Type :=
| UploadVideo (cfg : ApiConfig) (req : BunRequest)
| UploadThumbnail (cfg : ApiConfig) (req : BunRequest)
| UploadThumbnailAsset (cfg : ApiConfig) (req : BunRequest)
| GetThumbnail (cfg : ApiConfig) (req : BunRequest).

Definition step {C : Collaborators} (c : Call) (w : World) : World :=
  match c with
  | UploadVideo cfg req => (handlerUploadVideo cfg req w).2
  | UploadThumbnail cfg req => (Thumbnails.handlerUploadThumbnail cfg req w).2
  | UploadThumbnailAsset cfg req => (AssetThumbnails.handlerUploadThumbnail cfg req w).2
  | GetThumbnail cfg req => (Thumbnails.handlerGetThumbnail cfg req w).2
  end.

(** The calls served one at a time, each to completion. *)
Definition serve_all {C : Collaborators} (calls : list Call) (w : World) : World :=
  fold_left (fun acc c => step c acc) calls w.

(** What one call may do to the records and to durable storage: nothing, or
    replace the record the request names, which the caller owns, by one of
    the same owner, keeping either its storage location (and durable
    storage) or its thumbnail. *)
Definition frame_of {C : Collaborators} (cfg : ApiConfig) (req : BunRequest) (w w' : World) : Prop :=
  (db w' = db w /\ s3 w' = s3 w) \/
  (exists videoId row row',
      params_videoId req = Some videoId /\
      authenticate cfg req = inr (row_userID row) /\
      db w !! videoId = Some row /\
      row_userID row' = row_userID row /\
      db w' = <[videoId := row']> (db w) /\
      ((s3 w' = s3 w /\ row_videoURL row' = row_videoURL row) \/
       (exists key bytes, s3 w' = <[key := bytes]> (s3 w)))).

End Api.

(** * Requests in flight

    The handlers are [async] functions. Between two [await]s a handler runs
    without interruption; at an [await] it is suspended, and other requests
    run before it is resumed. A suspended handler is a [Task]: what it does
    when resumed, from the world as it is by then. *)

Module Async.

Inductive Task (A : Type) : Type :=
| Finished (r : Error + A)
| Await (resume : World -> Task A * World).

Arguments Finished {A} r.
Arguments Await {A} resume.

(** Code of a handler from some point on: run from world [w], it goes on to
    the next [await] or to its end. *)
Definition Code (A : Type) : Type := World -> Task A * World.

Definition done {A} (a : A) : Code A := fun w => (Finished (inr a), w).

Definition fail {A} (e : Error) : Code A := fun w => (Finished (inl e), w).

(** Code without an [await] in it. *)
Definition sync {A} (m : M A) : Code A :=
  fun w => let (r, w') := m w in (Finished r, w').

(** The point of suspension of an [await]. *)
Definition pause : Code unit :=
  fun w => (Await (fun w' => (Finished (inr tt), w')), w).

Fixpoint next {A B} (t : Task A) (k : A -> Code B) : Code B :=
  fun w =>
    match t with
    | Finished (inl e) => (Finished (inl e), w)
    | Finished (inr a) => k a w
    | Await resume =>
        (Await (fun w1 => let (t', w1') := resume w1 in next t' k w1'), w)
    end.

Definition bind {A B} (c : Code A) (k : A -> Code B) : Code B :=
  fun w => let (t, w') := c w in next t k w'.

Declare Scope async_scope.
Delimit Scope async_scope with async.
Notation "x <- c1 ;; c2" := (bind c1 (fun x => c2))
  (at level 100, c1 at next level, right associativity) : async_scope.
Notation "c1 ;;; c2" := (bind c1 (fun _ => c2))
  (at level 100, right associativity) : async_scope.
Local Open Scope async_scope.

(** [await op] for an operation of the runtime that changes the world (a
    file written or deleted, an object uploaded): the operation takes effect
    while the handler is suspended, other requests running before it and
    after it. Such an [await] therefore counts for two suspensions, one
    before the effect and one after it. *)
Definition await {A} (op : M A) : Code A :=
  pause ;;; a <- sync op ;; pause ;;; done a.

(** [await f(...)] for an [async] function [f] of the module: the body of
    [f] runs up to its end, with its own suspensions, and the caller is
    suspended once more before it goes on with the result. *)
Definition called {A} (body : Code A) : Code A :=
  a <- body ;; pause ;;; done a.

(** ** Ways of running a task *)

(** Without interruption: no other request runs while the task is
    suspended. *)
Fixpoint complete {A} (t : Task A) (w : World) : (Error + A) * World :=
  match t with
  | Finished r => (r, w)
  | Await resume => let (t', w') := resume w in complete t' w'
  end.

Definition run {A} (c : Code A) (w : World) : (Error + A) * World :=
  let (t, w') := c w in complete t w'.

(** Among other requests: [others n] is what the other requests do to the
    world during the [n]-th suspension of the task. The result comes with
    the final world and the number of the next suspension. *)
Fixpoint resume_among {A} (t : Task A) (others : nat -> World -> World) (n : nat)
    (w : World) : (Error + A) * World * nat :=
  match t with
  | Finished r => (r, w, n)
  | Await resume =>
      let (t', w') := resume (others n w) in resume_among t' others (S n) w'
  end.

Definition run_among {A} (c : Code A) (others : nat -> World -> World) (n : nat)
    (w : World) : (Error + A) * World * nat :=
  let (t, w') := c w in resume_among t others n w'.

(** For each suspension of the task, the world it is suspended in and the
    world it is resumed in. *)
Fixpoint resumptions {A} (t : Task A) (others : nat -> World -> World) (n : nat)
    (w : World) : list (World * World) :=
  match t with
  | Finished _ => []
  | Await resume =>
      (w, others n w) ::
      (let (t', w') := resume (others n w) in resumptions t' others (S n) w')
  end.

Definition suspensions {A} (c : Code A) (others : nat -> World -> World) (w : World)
  : list (World * World) :=
  let (t, w') := c w in resumptions t others 0 w'.

(** ** The handlers, with their suspensions *)

Section Handlers.
Context {C : Collaborators}.

(** [Bun.spawn] starts the process, which is taken to run to its end at
    once ([Bun_spawn]); the function then waits for its output and its exit
    status. *)
Definition getVideoAspectRatio (filePath : string) : Code string :=
  subprocess <- sync (Bun_spawn (ffprobe_cmd filePath)) ;;
  pause ;;;
  let text := stdout subprocess in
  pause ;;;
  if negb (exitCode subprocess =? 0)%Z then
    pause ;;;
    fail (JsError ("Failed to read dimensions of " +:+ filePath +:+ ": "
                     +:+ newline +:+ stderr subprocess))
  else
    parsed <- sync (lift (JSON_parse text)) ;;
    streams <- sync (lift (js_get parsed "streams")) ;;
    obj <- sync (lift (js_get0 streams)) ;;
    width <- sync (lift (js_get obj "width")) ;;
    height <- sync (lift (js_get obj "height")) ;;
    w <- sync (lift (ToNumber width)) ;;
    h <- sync (lift (ToNumber height)) ;;
    done (classify w h).

Definition processVideoForFastStart (filePath : string) : Code string :=
  let outputFilePath := filePath +:+ ".processed" in
  subprocess <- sync (Bun_spawn (ffmpeg_cmd filePath outputFilePath)) ;;
  pause ;;;
  if negb (exitCode subprocess =? 0)%Z then
    pause ;;;
    fail (JsError ("Failed to process video for fast start " +:+ filePath +:+ ": "
                     +:+ newline +:+ stderr subprocess))
  else done outputFilePath.

(** [handlerUploadVideo] of [src/unnamed/part_000]. The record is read
    before [await videoData.arrayBuffer()] and written back after
    [await localFile.delete()]. *)
Definition handlerUploadVideo (cfg : ApiConfig) (req : BunRequest) : Code Response :=
  videoId <- (if js_not (params_videoId req)
              then fail (BadRequestError "Invalid video ID")
              else done (default "" (params_videoId req))) ;;
  token <- sync (lift (getBearerToken (headers req))) ;;
  userID' <- sync (lift (validateJWT token (jwtSecret cfg))) ;;
  pause ;;;
  fd <- sync (lift (formData req)) ;;
  match formData_get fd "video" with
  | Some (FormFile videoData) =>
      if (file_size videoData >? MAX_UPLOAD_SIZE)%Z
      then fail (BadRequestError "Video is larger than 1GB")
      else
        found <- sync (getVideo videoId) ;;
        match found with
        | None => fail (NotFoundError "Video not found")
        | Some video =>
            if negb (String.eqb (userID video) userID')
            then fail (UserForbiddenError "Wrong user")
            else if negb (String.eqb (file_type videoData) "video/mp4")
            then fail (BadRequestError "Unsupported video format")
            else
              let extension := js_at_last (js_split "/" (file_type videoData)) in
              pause ;;;
              let data := file_bytes videoData in
              rnd <- sync (randomBytes 32) ;;
              let fileName := base64url rnd +:+ "." +:+ js_template extension in
              let targetPath := path_join (assetsRoot cfg) fileName in
              await (Bun_write targetPath data) ;;;
              prefix <- called (getVideoAspectRatio targetPath) ;;
              processedFilePath <- called (processVideoForFastStart targetPath) ;;
              await (Bun_file_delete targetPath) ;;;
              let key := prefix +:+ "/" +:+ fileName in
              await (s3_write key processedFilePath) ;;;
              await (Bun_file_delete processedFilePath) ;;;
              let video := set_videoURL video (Some key) in
              sync (updateVideo video) ;;;
              signedVideo <- sync (dbVideoToSignedVideo video) ;;
              done (respondWithJSON 200 signedVideo)
        end
  | _ => fail (BadRequestError "Video is not a file")
  end.

(** [handlerUploadThumbnail] of [src/unnamed/part_000]. The record is read
    before [await thumbnail.arrayBuffer()] and written back after
    [await Bun.write(targetPath, data)]. *)
Definition handlerUploadThumbnail (cfg : ApiConfig) (req : BunRequest) : Code Response :=
  videoId <- (if js_not (params_videoId req)
              then fail (BadRequestError "Invalid video ID")
              else done (default "" (params_videoId req))) ;;
  token <- sync (lift (getBearerToken (headers req))) ;;
  userID' <- sync (lift (validateJWT token (jwtSecret cfg))) ;;
  pause ;;;
  fd <- sync (lift (formData req)) ;;
  match formData_get fd "thumbnail" with
  | Some (FormFile thumbnail) =>
      if (file_size thumbnail >? AssetThumbnails.MAX_UPLOAD_SIZE)%Z
      then fail (BadRequestError "Thumbnail is larger than 10MB")
      else
        found <- sync (getVideo videoId) ;;
        match found with
        | None => fail (NotFoundError "Video not found")
        | Some video =>
            if negb (String.eqb (userID video) userID')
            then fail (UserForbiddenError "Wrong user")
            else if negb (String.eqb (file_type thumbnail) "image/png")
                    && negb (String.eqb (file_type thumbnail) "image/jpeg")
            then fail (BadRequestError "Unsupported thumbnail format")
            else
              let extension := js_at_last (js_split "/" (file_type thumbnail)) in
              pause ;;;
              let data := file_bytes thumbnail in
              rnd <- sync (randomBytes 32) ;;
              let fileName := base64url rnd +:+ "." +:+ js_template extension in
              let targetPath := path_join (assetsRoot cfg) fileName in
              await (Bun_write targetPath data) ;;;
              let video :=
                set_thumbnailURL video
                  (Some ("http://localhost:" +:+ pretty (port cfg) +:+ "/assets/"
                           +:+ fileName)) in
              sync (updateVideo video) ;;;
              done (respondWithJSON 200 video)
        end
  | _ => fail (BadRequestError "Thumbnail is not a file")
  end.

End Handlers.

End Async.

(** ** Sample requests for the thumbnail handlers *)

Module Samples.

Definition cover : File := mkFile "cover.png" "image/png" 3 [x89; x50; x4e].

Definition animation : File := mkFile "cover.gif" "image/gif" 3 [x47; x49; x46].

(** The cover, declared one byte above the ceiling. *)
Definition poster : File := mkFile "cover.png" "image/png" 10485761 [x89; x50; x4e].

Definition thumbnail_request (videoId : option string) (user : string)
    (part : FormDataEntryValue) : BunRequest :=
  mkRequest videoId [("Authorization", "Bearer s3cr3t:" +:+ user)]
            (inr [("thumbnail", part)]).

Definition set_cover : BunRequest :=
  thumbnail_request (Some "v1") "alice" (FormFile cover).

(** A request without an [Authorization] header. *)
Definition anonymous : BunRequest :=
  mkRequest (Some "v1") [] (inr [("video", FormFile Demo.clip)]).


(** Suspension 3 of the assets handler is the second half of
    [await Bun.write(targetPath, data)]: the file is written and the handler
    has not been resumed yet. The example video upload is served then, from
    start to end; nothing else happens during the other suspensions. *)
Definition upload_meanwhile {C : Collaborators} (n : nat) (w : World) : World :=
  if (n =? 3)%nat then (handlerUploadVideo Demo.cfg Demo.upload w).2 else w.

(** Suspension 5 of the video upload is [await subprocess.exited] in
    [getVideoAspectRatio]. The owner sets a cover through the data-URL
    handler then. *)
Definition cover_meanwhile {C : Collaborators} (n : nat) (w : World) : World :=
  if (n =? 5)%nat then (Thumbnails.handlerUploadThumbnail Demo.cfg set_cover w).2 else w.

End Samples.

(** * Properties *)

(** ** Binary64 arithmetic of the classification *)

Section Binary64.

(** Number of binary digits. *)
Lemma digits2_size (p : positive) : digits2_pos p = Pos.size p.
Proof. induction p as [p IH|p IH|]; simpl; congruence. Qed.

Lemma digits_log2 (p : positive) : Z.pos (digits2_pos p) = Z.log2 (Z.pos p) + 1.
Proof.
  rewrite digits2_size. destruct p as [p|p|]; simpl; try lia.
Qed.

Lemma digits_lower (p : positive) (k : Z) :
  0 <= k -> 2 ^ k <= Z.pos p -> k + 1 <= Z.pos (digits2_pos p).
Proof.
  intros Hk Hp. rewrite digits_log2.
  apply Z.log2_le_pow2 in Hp; lia.
Qed.

Lemma digits_pow_le (p : positive) : 2 ^ (Z.pos (digits2_pos p) - 1) <= Z.pos p.
Proof.
  rewrite digits_log2. replace (Z.log2 (Z.pos p) + 1 - 1) with (Z.log2 (Z.pos p)) by lia.
  apply Z.log2_spec. lia.
Qed.

Lemma digits_pow_gt (p : positive) : Z.pos p < 2 ^ Z.pos (digits2_pos p).
Proof.
  rewrite digits_log2. apply Z.log2_spec. lia.
Qed.

Lemma iter_xO_value (p d : positive) :
  Z.pos (Pos.iter xO p d) = Z.pos p * 2 ^ Z.pos d.
Proof.
  change (Pos.iter xO p d) with (shift_pos d p).
  rewrite shift_pos_correct.
  rewrite Z.pow_pos_fold. lia.
Qed.

Lemma iter_xO_digits (p d : positive) :
  Z.pos (digits2_pos (Pos.iter xO p d)) = Z.pos (digits2_pos p) + Z.pos d.
Proof.
  rewrite !digits_log2, iter_xO_value, Z.log2_mul_pow2; lia.
Qed.

(** Right shifts of the rounding procedure. *)
Lemma shr_1_m (mrs : shr_record) :
  0 <= shr_m mrs -> shr_m (shr_1 mrs) = shr_m mrs / 2.
Proof.
  destruct mrs as [m r s]. simpl. intros Hm.
  rewrite <- Z.div2_div.
  destruct m as [|[p|p|]|p]; simpl; try reflexivity. lia.
Qed.

Lemma pow2_xO (n : positive) : 2 ^ Z.pos n~0 = 2 ^ Z.pos n * 2 ^ Z.pos n.
Proof.
  replace (Z.pos n~0) with (Z.pos n + Z.pos n) by lia.
  apply Z.pow_add_r; lia.
Qed.

Lemma pow2_xI (n : positive) : 2 ^ Z.pos n~1 = 2 * (2 ^ Z.pos n * 2 ^ Z.pos n).
Proof.
  replace (Z.pos n~1) with (1 + (Z.pos n + Z.pos n)) by lia.
  rewrite !Z.pow_add_r by lia. reflexivity.
Qed.

Lemma iter_shr_m (n : positive) (mrs : shr_record) :
  0 <= shr_m mrs ->
  shr_m (SpecFloat.iter_pos shr_1 n mrs) = shr_m mrs / 2 ^ Z.pos n.
Proof.
  revert mrs. induction n as [n IH|n IH|]; intros mrs Hm; simpl SpecFloat.iter_pos.
  - assert (Hp : 0 < 2 ^ Z.pos n) by (apply Z.pow_pos_nonneg; lia).
    assert (H1 : 0 <= shr_m (shr_1 mrs)).
    { rewrite shr_1_m by exact Hm. apply Z.div_pos; lia. }
    assert (H2 : 0 <= shr_m (SpecFloat.iter_pos shr_1 n (shr_1 mrs))).
    { rewrite IH by exact H1. apply Z.div_pos; lia. }
    rewrite IH by exact H2. rewrite IH by exact H1. rewrite shr_1_m by exact Hm.
    rewrite pow2_xI, !Z.div_div by lia. reflexivity.
  - assert (Hp : 0 < 2 ^ Z.pos n) by (apply Z.pow_pos_nonneg; lia).
    assert (H1 : 0 <= shr_m (SpecFloat.iter_pos shr_1 n mrs)).
    { rewrite IH by exact Hm. apply Z.div_pos; lia. }
    rewrite IH by exact H1. rewrite IH by exact Hm.
    rewrite pow2_xO, Z.div_div by lia. reflexivity.
  - rewrite shr_1_m by exact Hm. reflexivity.
Qed.

(** Shifting a positive mantissa by fewer places than it has digits leaves a
    positive mantissa, and never lowers the exponent. *)
Lemma shr_keeps_positive (q : positive) (l : location) (e n : Z) :
  n < Z.pos (digits2_pos q) ->
  exists q' e',
    shr (shr_record_of_loc (Z.pos q) l) e n = (q', e') /\
    0 < shr_m q' /\ e <= e' /\ e + n <= e'.
Proof.
  intros Hn. unfold shr.
  assert (Hm : shr_m (shr_record_of_loc (Z.pos q) l) = Z.pos q).
  { destruct l as [|[| |]]; reflexivity. }
  destruct n as [|p|p].
  - do 2 eexists. split; [reflexivity|]. rewrite Hm. lia.
  - do 2 eexists. split; [reflexivity|].
    rewrite iter_shr_m by (rewrite Hm; lia). rewrite Hm.
    split; [|lia].
    apply Z.div_str_pos. split; [apply Z.pow_pos_nonneg; lia|].
    pose proof (digits_pow_le q) as Hq.
    assert (2 ^ Z.pos p <= 2 ^ (Z.pos (digits2_pos q) - 1)); [|lia].
    apply Z.pow_le_mono_r; lia.
  - do 2 eexists. split; [reflexivity|]. rewrite Hm. lia.
Qed.

Lemma far_not_below_tolerance (x : spec_float) :
  far x -> SFltb (SFabs x) (Prim2SF 0.01) = false.
Proof.
  change (Prim2SF 0.01) with (S754_finite false 5764607523034235 (-59)).
  destruct x as [s|s| |s m e]; simpl; try contradiction; try reflexivity.
  intros He. unfold SFltb, SFcompare.
  destruct (Z.compare_spec e (-59)); first [reflexivity | lia].
Qed.

Lemma fexp_unclamped (k : Z) :
  -58 <= fexp prec emax k -> fexp prec emax k = k - 53.
Proof.
  unfold fexp, SpecFloat.emin, prec, emax. lia.
Qed.

Lemma round_nearest_even_ge (m : Z) (l : location) : m <= round_nearest_even m l.
Proof.
  unfold round_nearest_even. destruct l as [|[| |]]; try lia.
  destruct (Z.even m); lia.
Qed.

Lemma round_aux_far (sx : bool) (q : positive) (e : Z) :
  -58 <= fexp prec emax (Z.pos (digits2_pos q) + e) ->
  far (binary_round_aux prec emax sx (Z.pos q) e loc_Exact).
Proof.
  intros HE. pose proof (fexp_unclamped _ HE) as HE'.
  unfold binary_round_aux, shr_fexp.
  change (Zdigits2 (Z.pos q)) with (Z.pos (digits2_pos q)).
  destruct (shr_keeps_positive q loc_Exact e
              (fexp prec emax (Z.pos (digits2_pos q) + e) - e))
    as (mrs1 & e1 & -> & Hm1 & He1 & He1'); [lia|].
  pose proof (round_nearest_even_ge (shr_m mrs1) (loc_of_shr_record mrs1)) as Hr.
  destruct (round_nearest_even (shr_m mrs1) (loc_of_shr_record mrs1))
    as [|q2|q2] eqn:Hq2; try lia.
  change (Zdigits2 (Z.pos q2)) with (Z.pos (digits2_pos q2)).
  assert (He1'' : -58 <= e1) by lia.
  destruct (shr_keeps_positive q2 loc_Exact e1
              (fexp prec emax (Z.pos (digits2_pos q2) + e1) - e1))
    as (mrs2 & e2 & -> & Hm2 & He2 & _).
  { unfold fexp, SpecFloat.emin, prec, emax. lia. }
  destruct (shr_m mrs2) as [|m3|m3]; try lia.
  destruct (e2 <=? emax - prec)%Z; simpl; lia.
Qed.

Lemma round_far (sx : bool) (p : positive) (ez : Z) :
  -5 <= Z.pos (digits2_pos p) + ez ->
  far (binary_round prec emax sx p ez).
Proof.
  intros Hd. unfold binary_round, shl_align.
  assert (HE : -58 <= fexp prec emax (Z.pos (digits2_pos p) + ez)).
  { unfold fexp, SpecFloat.emin, prec, emax. lia. }
  destruct (fexp prec emax (Z.pos (digits2_pos p) + ez) - ez) as [|d|d] eqn:Hshift.
  - apply round_aux_far. exact HE.
  - apply round_aux_far. exact HE.
  - apply round_aux_far. rewrite iter_xO_digits.
    replace (Z.pos (digits2_pos p) + Z.pos d
             + fexp prec emax (Z.pos (digits2_pos p) + ez))
      with (Z.pos (digits2_pos p) + ez) by lia.
    exact HE.
Qed.

Lemma normalize_far (M ez : Z) :
  M <> 0 -> -6 - ez <= Z.log2 (Z.abs M) ->
  far (binary_normalize prec emax M ez false).
Proof.
  intros HM Hlog. unfold binary_normalize.
  destruct M as [|p|p]; [contradiction| |]; apply round_far;
    rewrite digits_log2;
    [change (Z.abs (Z.pos p)) with (Z.pos p) in Hlog
    |change (Z.abs (Z.neg p)) with (Z.pos p) in Hlog]; lia.
Qed.

Lemma shl_align_value (m : positive) (e ez : Z) :
  ez <= e -> Z.pos (shl_align m e ez).1 = Z.pos m * 2 ^ (e - ez).
Proof.
  intros Hle. unfold shl_align.
  destruct (ez - e) as [|d|d] eqn:Hd; try lia.
  - replace (e - ez) with 0 by lia. simpl fst. lia.
  - simpl fst. rewrite iter_xO_value. f_equal. f_equal. lia.
Qed.

Lemma log2_lower (M k : Z) : 0 <= k -> 2 ^ k <= M -> k <= Z.log2 M.
Proof.
  intros Hk HM. apply Z.log2_le_pow2; [|exact HM].
  pose proof (Z.pow_pos_nonneg 2 k). lia.
Qed.

(** A finite number minus a positive one, in terms of the exact difference
    of the aligned mantissas. *)
Lemma sub_far (s : bool) (m : positive) (e : Z) (mc : positive) (ec : Z) :
  let ez := Z.min e ec in
  let M := cond_Zopp s (Z.pos m * 2 ^ (e - ez)) - Z.pos mc * 2 ^ (ec - ez) in
  M <> 0 -> -6 - ez <= Z.log2 (Z.abs M) ->
  far (SFsub prec emax (S754_finite s m e) (S754_finite false mc ec)).
Proof.
  intros ez M HM Hlog. unfold SFsub. fold ez.
  rewrite !shl_align_value by (unfold ez; lia).
  simpl (cond_Zopp false _). apply normalize_far; assumption.
Qed.

(** What validity says about the mantissa. *)
Lemma valid_mantissa (s : bool) (m : positive) (e : Z) :
  SpecFloat.valid_binary prec emax (S754_finite s m e) = true ->
  Z.pos m < 2 ^ 53 /\ (-1074 < e -> 2 ^ 52 <= Z.pos m).
Proof.
  simpl. unfold bounded, canonical_mantissa. intros H.
  apply andb_prop in H as [H _]. apply Z.eqb_eq in H.
  unfold fexp, SpecFloat.emin, prec, emax in H.
  pose proof (digits_pow_le m) as Hlo. pose proof (digits_pow_gt m) as Hhi.
  split.
  - assert (Hd : Z.pos (digits2_pos m) <= 53) by lia.
    assert (2 ^ Z.pos (digits2_pos m) <= 2 ^ 53) by (apply Z.pow_le_mono_r; lia).
    lia.
  - intros He. assert (Hd : Z.pos (digits2_pos m) = 53) by lia.
    rewrite Hd in Hlo. exact Hlo.
Qed.

Lemma negative_far_from_9_16 (m : positive) (e : Z) :
  far (SFsub prec emax (S754_finite true m e) nine_sixteenths).
Proof.
  apply sub_far; cbv zeta; simpl cond_Zopp.
  - pose proof (Z.pow_pos_nonneg 2 (e - Z.min e (-53))).
    pose proof (Z.pow_pos_nonneg 2 (-53 - Z.min e (-53))). nia.
  - set (ez := Z.min e (-53)).
    assert (Hk : 0 <= -53 - ez) by (unfold ez; lia).
    assert (Hj : 0 <= e - ez) by (unfold ez; lia).
    pose proof (Z.pow_pos_nonneg 2 (e - ez)).
    pose proof (Z.pow_pos_nonneg 2 (-53 - ez)).
    transitivity (52 + (-53 - ez)); [lia|].
    apply log2_lower; [lia|].
    rewrite Z.pow_add_r by lia. change (2 ^ 52) with 4503599627370496. nia.
Qed.

Lemma large_far_from_9_16 (m : positive) (e : Z) :
  2 ^ 52 <= Z.pos m -> -52 <= e ->
  far (SFsub prec emax (S754_finite false m e) nine_sixteenths).
Proof.
  intros Hm He.
  assert (Hez : Z.min e (-53) = -53) by lia.
  assert (Hp : 2 <= 2 ^ (e - -53)).
  { change 2 with (2 ^ 1) at 1. apply Z.pow_le_mono_r; lia. }
  change (2 ^ 52) with 4503599627370496 in Hm.
  apply sub_far; cbv zeta; simpl cond_Zopp; rewrite Hez;
    change (2 ^ (-53 - -53)) with 1.
  - nia.
  - transitivity 51; [lia|]. apply log2_lower; [lia|].
    change (2 ^ 51) with 2251799813685248. nia.
Qed.

Lemma small_far_from_16_9 (m : positive) (e : Z) :
  Z.pos m < 2 ^ 53 -> e <= -53 ->
  far (SFsub prec emax (S754_finite false m e) sixteen_ninths).
Proof.
  intros Hm He.
  assert (Hez : Z.min e (-52) = e) by lia.
  assert (Hp : 2 <= 2 ^ (-52 - e)).
  { change 2 with (2 ^ 1) at 1. apply Z.pow_le_mono_r; lia. }
  change (2 ^ 53) with 9007199254740992 in Hm.
  apply sub_far; cbv zeta; simpl cond_Zopp; rewrite Hez;
    replace (e - e) with 0 by lia; change (2 ^ 0) with 1.
  - nia.
  - transitivity (51 + (-52 - e)); [lia|].
    rewrite Z.abs_neq by nia.
    apply log2_lower; [lia|].
    rewrite Z.pow_add_r by lia. change (2 ^ 51) with 2251799813685248. nia.
Qed.

Lemma near_9_16_spec (r : float) :
  near_9_16 r = SFltb (SFabs (SFsub prec emax (Prim2SF r) nine_sixteenths)) (Prim2SF 0.01).
Proof.
  unfold near_9_16. rewrite ltb_spec, abs_spec, sub_spec. reflexivity.
Qed.

Lemma near_16_9_spec (r : float) :
  near_16_9 r = SFltb (SFabs (SFsub prec emax (Prim2SF r) sixteen_ninths)) (Prim2SF 0.01).
Proof.
  unfold near_16_9. rewrite ltb_spec, abs_spec, sub_spec. reflexivity.
Qed.

(** No binary64 number is within the tolerance of both targets. *)
Lemma bands_disjoint (r : float) : near_9_16 r = false \/ near_16_9 r = false.
Proof.
  rewrite near_9_16_spec, near_16_9_spec.
  pose proof (Prim2SF_valid r) as Hvalid.
  destruct (Prim2SF r) as [s|s| |s m e].
  - left. destruct s; reflexivity.
  - left. destruct s; reflexivity.
  - left. reflexivity.
  - destruct (valid_mantissa s m e Hvalid) as [Hhi Hlo].
    destruct s.
    + left. apply far_not_below_tolerance, negative_far_from_9_16.
    + destruct (Z_le_gt_dec (-52) e) as [He|He].
      * left. apply far_not_below_tolerance, large_far_from_9_16; [apply Hlo|]; lia.
      * right. apply far_not_below_tolerance, small_far_from_16_9; [exact Hhi|lia].
Qed.


(** C3. For every width and height the class is [landscape] exactly when
    the ratio is within the tolerance of 16/9, [portrait] exactly when it is
    within the tolerance of 9/16, and [other] exactly when it is within
    neither; the quotient, the differences and the comparisons are those of
    binary64 arithmetic, as the code computes them. At 16/9 plus or minus
    0.0099 the class is [landscape], at 16/9 plus or minus 0.0101 it is
    [other]. *)
Theorem geometry_classification (width height : float) :
  let ratio := (width / height)%float in
  (classify width height = "landscape"
     <-> (abs (ratio - 16 / 9) <? 0.01)%float = true) /\
  (classify width height = "portrait"
     <-> (abs (ratio - 9 / 16) <? 0.01)%float = true) /\
  (classify width height = "other"
     <-> (abs (ratio - 16 / 9) <? 0.01)%float = false /\
         (abs (ratio - 9 / 16) <? 0.01)%float = false) /\
  classifyRatio (16 / 9 + 0.0099)%float = "landscape" /\
  classifyRatio (16 / 9 - 0.0099)%float = "landscape" /\
  classifyRatio (16 / 9 + 0.0101)%float = "other" /\
  classifyRatio (16 / 9 - 0.0101)%float = "other".
Proof.
  intros ratio. unfold classify. fold ratio. unfold classifyRatio at 1 2 3.
  change (abs (ratio - 16 / 9) <? 0.01)%float with (near_16_9 ratio).
  change (abs (ratio - 9 / 16) <? 0.01)%float with (near_9_16 ratio).
  pose proof (bands_disjoint ratio) as Hdisjoint.
  destruct (near_16_9 ratio), (near_9_16 ratio);
    repeat split; try reflexivity; try discriminate;
    try (destruct Hdisjoint; discriminate);
    try (intros [? ?]; discriminate).
Qed.

End Binary64.

Section PipelineFacts.
Context {C : Collaborators}.

(** ** Small facts about the helpers *)

Lemma js_not_false (o : option string) :
  js_not o = false -> exists s, o = Some s /\ s <> "".
Proof.
  destruct o as [s|]; simpl; [|discriminate].
  intros H. exists s. split; [reflexivity|].
  intros ->. discriminate.
Qed.

Lemma js_not_present (s : string) : s <> "" -> js_not (Some s) = false.
Proof.
  intros H. simpl. destruct (String.eqb_spec s ""); [contradiction|reflexivity].
Qed.

Lemma MAX_UPLOAD_SIZE_value : MAX_UPLOAD_SIZE = 2 ^ 30.
Proof. reflexivity. Qed.

Lemma append_cons (c : ascii) (a b : string) :
  String c a +:+ b = String c (a +:+ b).
Proof. reflexivity. Qed.

Lemma length_append (a b : string) :
  String.length (a +:+ b) = (String.length a + String.length b)%nat.
Proof.
  induction a as [|c a IH]; [reflexivity|].
  rewrite append_cons. simpl. now rewrite IH.
Qed.

Lemma processed_differs (p : string) : p +:+ ".processed" <> p.
Proof.
  intros H. apply (f_equal String.length) in H.
  rewrite length_append in H. simpl in H. lia.
Qed.

Lemma key_not_empty (prefix name : string) :
  String.eqb (prefix +:+ "/" +:+ name) "" = false.
Proof. destruct prefix; reflexivity. Qed.

Lemma apply_writes_keeps (ws : list (string * list byte))
    (f : gmap string (list byte)) (p : string) :
  is_Some (f !! p) -> is_Some (apply_writes ws f !! p).
Proof.
  unfold apply_writes. revert f.
  induction ws as [|[q b] ws IH]; intros f Hp; simpl; [exact Hp|].
  apply IH. destruct (decide (q = p)) as [->|Hne].
  - rewrite lookup_insert_eq. eauto.
  - rewrite lookup_insert_ne by exact Hne. exact Hp.
Qed.

Lemma staged_survives_tools (cfg : ApiConfig) (w : World) (data : list byte) :
  is_Some (fsRemuxed cfg w data !! stagedPath cfg w).
Proof.
  unfold fsRemuxed, fsProbed. do 2 apply apply_writes_keeps.
  unfold fsStaged. rewrite lookup_insert_eq. eauto.
Qed.

(** ** The source functions in closed form *)

Lemma getVideoAspectRatio_run (filePath : string) (w : World) :
  getVideoAspectRatio filePath w =
  (probe_verdict filePath (spawn (ffprobe_cmd filePath) (fs w)),
   with_fs w (apply_writes (written (spawn (ffprobe_cmd filePath) (fs w))) (fs w))
           (Spawn (ffprobe_cmd filePath))).
Proof.
  unfold getVideoAspectRatio, probe_verdict, bind, Bun_spawn. simpl.
  destruct (negb _); [reflexivity|].
  destruct (JSON_parse _) as [e|parsed]; simpl; [reflexivity|].
  destruct (js_get parsed "streams") as [e|streams]; simpl; [reflexivity|].
  destruct (js_get0 streams) as [e|obj]; simpl; [reflexivity|].
  destruct (js_get obj "width") as [e|width]; simpl; [reflexivity|].
  destruct (js_get obj "height") as [e|height]; simpl; [reflexivity|].
  destruct (ToNumber width) as [e|x]; simpl; [reflexivity|].
  destruct (ToNumber height) as [e|y]; simpl; reflexivity.
Qed.

Lemma processVideoForFastStart_run (filePath : string) (w : World) :
  let cmd := ffmpeg_cmd filePath (filePath +:+ ".processed") in
  processVideoForFastStart filePath w =
  (remux_verdict filePath (spawn cmd (fs w)),
   with_fs w (apply_writes (written (spawn cmd (fs w))) (fs w)) (Spawn cmd)).
Proof.
  unfold processVideoForFastStart, remux_verdict, bind, Bun_spawn. simpl.
  destruct (negb _); reflexivity.
Qed.

Lemma dbVideoToSignedVideo_present (video : Video) (key : string) (w : World) :
  videoURL video = Some key -> key <> "" ->
  dbVideoToSignedVideo video w =
  (inr (set_videoURL video (Some (presign (now w) key 3600))),
   with_log w (Presign key 3600)).
Proof.
  intros Hk Hne. unfold dbVideoToSignedVideo.
  rewrite Hk, (js_not_present _ Hne). reflexivity.
Qed.

Lemma handler_validated (cfg : ApiConfig) (req : BunRequest) (w : World)
    (actor : string) (videoData : File) (video : Video) :
  validated cfg req w actor videoData video ->
  handlerUploadVideo cfg req w = outcome cfg w videoData video.
Proof.
  intros (Hid & Hne & Hauth & (fd & Hfd & Hpart) & Hsize & Hrec & Hown & Hmime).
  unfold handlerUploadVideo, authenticate in *.
  rewrite Hid, (js_not_present _ Hne). unfold bind at 1. simpl.
  destruct (getBearerToken (headers req)) as [e|token]; [discriminate|].
  unfold bind at 1. simpl. rewrite Hauth. unfold bind at 1. simpl.
  rewrite Hfd. unfold bind at 1. simpl. rewrite Hpart.
  rewrite MAX_UPLOAD_SIZE_value.
  destruct (Z.gtb_spec (file_size videoData) (2 ^ 30)); [lia|].
  unfold bind at 1. unfold getVideo at 1. rewrite Hrec.
  rewrite Hown, String.eqb_refl, Hmime, String.eqb_refl. cbn [negb]. cbv iota beta.
  unfold bind at 1. unfold randomBytes at 1.
  unfold bind at 1. unfold Bun_write at 1.
  unfold bind at 1. rewrite getVideoAspectRatio_run.
  cbn [fs s3 db entropy now log with_fs with_entropy with_s3 with_db with_log].
  unfold outcome, afterUpload, afterUnstaging, afterRemux, afterProbe, afterStaging,
    storageKey.
  unfold fsRemuxed, remuxRun, fsProbed, probeRun, fsStaged, processedPath, stagedPath,
    stagedName, entropy32.
  set (name := base64url _ +:+ "." +:+ _).
  set (p := path_join _ name).
  set (f1 := <[p := _]> (fs w)).
  set (r1 := spawn (ffprobe_cmd p) f1).
  set (f2 := apply_writes (written r1) f1).
  destruct (probe_verdict p r1) as [e|prefix]; [reflexivity|].
  unfold bind at 1. rewrite processVideoForFastStart_run.
  cbn [fs s3 db entropy now log with_fs with_entropy with_s3 with_db with_log].
  set (r2 := spawn (ffmpeg_cmd p (p +:+ ".processed")) f2).
  set (f3 := apply_writes (written r2) f2).
  assert (Hp : is_Some (f3 !! p)).
  { unfold f3, f2. do 2 apply apply_writes_keeps.
    unfold f1. rewrite lookup_insert_eq. eauto. }
  unfold remux_verdict.
  destruct (negb (exitCode r2 =? 0)%Z); [reflexivity|].
  unfold bind at 1. unfold Bun_file_delete at 1.
  cbn [fs s3 db entropy now log with_fs with_entropy with_s3 with_db with_log].
  destruct Hp as [old Hp]. rewrite Hp.
  unfold bind at 1. unfold s3_write at 1.
  cbn [fs s3 db entropy now log with_fs with_entropy with_s3 with_db with_log].
  rewrite lookup_delete_ne by (apply not_eq_sym, processed_differs).
  destruct (f3 !! (p +:+ ".processed")) as [bytes|] eqn:Hout; [|reflexivity].
  unfold bind at 1. unfold Bun_file_delete at 1.
  cbn [fs s3 db entropy now log with_fs with_entropy with_s3 with_db with_log].
  rewrite lookup_delete_ne by (apply not_eq_sym, processed_differs).
  rewrite Hout.
  unfold bind at 1. unfold updateVideo at 1.
  unfold bind at 1.
  rewrite (dbVideoToSignedVideo_present _ (prefix +:+ "/" +:+ name)).
  - reflexivity.
  - reflexivity.
  - intros Hk. pose proof (key_not_empty prefix name) as Hk'.
    rewrite Hk in Hk'. discriminate.
Qed.

(** ** Rejections *)

Lemma handler_missing_id (cfg : ApiConfig) (req : BunRequest) (w : World) :
  js_not (params_videoId req) = true ->
  handlerUploadVideo cfg req w = (inl (BadRequestError "Invalid video ID"), w).
Proof.
  intros H. unfold handlerUploadVideo. rewrite H. reflexivity.
Qed.

Lemma handler_auth_fails (cfg : ApiConfig) (req : BunRequest) (w : World) (e : Error) :
  js_not (params_videoId req) = false ->
  authenticate cfg req = inl e ->
  handlerUploadVideo cfg req w = (inl e, w).
Proof.
  intros Hid Hauth. unfold handlerUploadVideo, authenticate in *. rewrite Hid.
  unfold bind at 1. simpl.
  destruct (getBearerToken (headers req)) as [e'|token].
  - injection Hauth as ->. reflexivity.
  - unfold bind at 1. simpl. rewrite Hauth. reflexivity.
Qed.

Lemma handler_form_fails (cfg : ApiConfig) (req : BunRequest) (w : World)
    (actor : string) (e : Error) :
  js_not (params_videoId req) = false ->
  authenticate cfg req = inr actor ->
  formData req = inl e ->
  handlerUploadVideo cfg req w = (inl e, w).
Proof.
  intros Hid Hauth Hfd. unfold handlerUploadVideo, authenticate in *. rewrite Hid.
  unfold bind at 1. simpl.
  destruct (getBearerToken (headers req)) as [e'|token]; [discriminate|].
  unfold bind at 1. simpl. rewrite Hauth. unfold bind at 1. simpl.
  rewrite Hfd. reflexivity.
Qed.

Lemma handler_rejects (cfg : ApiConfig) (req : BunRequest) (w : World)
    (actor : string) (fd : list (string * FormDataEntryValue)) (p : Precondition) :
  authenticate cfg req = inr actor ->
  formData req = inr fd ->
  first_failed (db w) (params_videoId req) actor (formData_get fd "video") = Some p ->
  handlerUploadVideo cfg req w = (inl (error_of p), w).
Proof.
  intros Hauth Hfd Hp. unfold first_failed in Hp.
  destruct (params_videoId req) as [i|] eqn:Hid.
  2:{ injection Hp as <-. apply handler_missing_id. now rewrite Hid. }
  destruct (String.eqb_spec i "") as [->|Hne].
  { injection Hp as <-. apply handler_missing_id. now rewrite Hid. }
  unfold handlerUploadVideo, authenticate in *.
  rewrite Hid, (js_not_present _ Hne). unfold bind at 1. simpl.
  destruct (getBearerToken (headers req)) as [e|token]; [discriminate|].
  unfold bind at 1. simpl. rewrite Hauth. unfold bind at 1. simpl.
  rewrite Hfd. unfold bind at 1. simpl.
  destruct (formData_get fd "video") as [[s|f]|].
  1,3: injection Hp as <-; reflexivity.
  rewrite MAX_UPLOAD_SIZE_value, Z.gtb_ltb.
  destruct (2 ^ 30 <? file_size f)%Z.
  { injection Hp as <-. reflexivity. }
  unfold bind at 1. unfold getVideo at 1.
  destruct (db w !! i) as [r|]; simpl.
  2:{ injection Hp as <-. reflexivity. }
  destruct (negb (String.eqb (row_userID r) actor)).
  { injection Hp as <-. reflexivity. }
  destruct (negb (String.eqb (file_type f) "video/mp4")).
  { injection Hp as <-. reflexivity. }
  discriminate.
Qed.

Lemma handler_accepts (cfg : ApiConfig) (req : BunRequest) (w : World)
    (actor : string) (fd : list (string * FormDataEntryValue)) :
  authenticate cfg req = inr actor ->
  formData req = inr fd ->
  first_failed (db w) (params_videoId req) actor (formData_get fd "video") = None ->
  exists videoData video, validated cfg req w actor videoData video.
Proof.
  intros Hauth Hfd Hp. unfold first_failed in Hp.
  destruct (params_videoId req) as [i|] eqn:Hid; [|discriminate].
  destruct (String.eqb_spec i "") as [->|Hne]; [discriminate|].
  destruct (formData_get fd "video") as [[s|f]|] eqn:Hpart; try discriminate.
  destruct (Z.ltb_spec (2 ^ 30) (file_size f)); [discriminate|].
  destruct (db w !! i) as [r|] eqn:Hrec; [|discriminate].
  destruct (String.eqb_spec (row_userID r) actor) as [Hown|]; [|discriminate].
  destruct (String.eqb_spec (file_type f) "video/mp4") as [Hmime|]; [|discriminate].
  exists f, (video_of_row i r). unfold validated. simpl.
  rewrite Hrec. simpl. repeat split; eauto.
Qed.

(** Every run either stops at a check, leaving the world as it found it, or
    is the run of a validated upload. *)
Lemma handler_cases (cfg : ApiConfig) (req : BunRequest) (w : World) :
  (exists e, handlerUploadVideo cfg req w = (inl e, w)) \/
  (exists actor videoData video, validated cfg req w actor videoData video).
Proof.
  destruct (js_not (params_videoId req)) eqn:Hid.
  { left. eexists. now apply handler_missing_id. }
  destruct (authenticate cfg req) as [e|actor] eqn:Hauth.
  { left. eexists. apply handler_auth_fails; eassumption. }
  destruct (formData req) as [e|fd] eqn:Hfd.
  { left. eexists. apply (handler_form_fails _ _ _ actor); eassumption. }
  destruct (first_failed (db w) (params_videoId req) actor (formData_get fd "video"))
    as [p|] eqn:Hp.
  - left. eexists. apply (handler_rejects _ _ _ actor fd); eassumption.
  - right. exists actor. apply (handler_accepts _ _ _ _ fd); assumption.
Qed.

(** ** Runs of a validated upload *)

Lemma class_is_one_of_three (x y : float) :
  classify x y = "landscape" \/ classify x y = "portrait" \/ classify x y = "other".
Proof.
  unfold classify, classifyRatio.
  destruct (near_16_9 _); [now left|].
  destruct (near_9_16 _); [right; now left | right; now right].
Qed.

Lemma probe_verdict_class (filePath : string) (r : ProcResult) (prefix : string) :
  probe_verdict filePath r = inr prefix ->
  prefix = "landscape" \/ prefix = "portrait" \/ prefix = "other".
Proof.
  unfold probe_verdict. destruct (negb _); [discriminate|].
  destruct (JSON_parse _) as [|parsed]; [discriminate|].
  destruct (js_get parsed "streams") as [|streams]; [discriminate|].
  destruct (js_get0 streams) as [|obj]; [discriminate|].
  destruct (js_get obj "width") as [|width]; [discriminate|].
  destruct (js_get obj "height") as [|height]; [discriminate|].
  destruct (ToNumber width) as [|x]; [discriminate|].
  destruct (ToNumber height) as [|y]; [discriminate|].
  intros [= <-]. apply class_is_one_of_three.
Qed.

Lemma remux_verdict_ok (filePath : string) (r : ProcResult) (out : string) :
  remux_verdict filePath r = inr out ->
  exitCode r = 0 /\ out = filePath +:+ ".processed".
Proof.
  unfold remux_verdict. destruct (Z.eqb_spec (exitCode r) 0); simpl; [|discriminate].
  intros [= <-]. split; [assumption|reflexivity].
Qed.

(** A successful run is the run of a validated upload whose probe and remux
    both succeeded and whose remux left a file at the processed path. *)
Lemma handler_success_inv (cfg : ApiConfig) (req : BunRequest) (w w' : World)
    (resp : Response) :
  handlerUploadVideo cfg req w = (inr resp, w') ->
  exists actor videoData video prefix bytes,
    validated cfg req w actor videoData video /\
    probe_verdict (stagedPath cfg w) (probeRun cfg w (file_bytes videoData)) = inr prefix /\
    exitCode (remuxRun cfg w (file_bytes videoData)) = 0 /\
    fsRemuxed cfg w (file_bytes videoData) !! processedPath cfg w = Some bytes /\
    resp = respondWithJSON 200
             (set_videoURL video (Some (presign (now w) (storageKey w prefix) 3600))) /\
    w' = afterUpload cfg w (file_bytes videoData) video prefix bytes.
Proof.
  intros Hrun.
  destruct (handler_cases cfg req w) as [[e He]|(actor & f & video & Hv)].
  { rewrite He in Hrun. discriminate. }
  rewrite (handler_validated _ _ _ _ _ _ Hv) in Hrun.
  exists actor, f, video. unfold outcome in Hrun.
  destruct (probe_verdict _ _) as [|prefix] eqn:Hprobe; [discriminate|].
  destruct (remux_verdict _ _) as [|out] eqn:Hremux; [discriminate|].
  destruct (fsRemuxed _ _ _ !! _) as [bytes|] eqn:Hout; [|discriminate].
  injection Hrun as <- <-. exists prefix, bytes.
  apply remux_verdict_ok in Hremux as [Hexit _].
  exact (conj Hv (conj eq_refl (conj Hexit (conj eq_refl (conj eq_refl eq_refl))))).
Qed.

(** Whatever happens after validation, the staged file was written first. *)
Lemma outcome_log (cfg : ApiConfig) (w : World) (videoData : File) (video : Video) :
  exists later,
    log (outcome cfg w videoData video).2 =
    (later ++ LocalWrite (stagedPath cfg w) :: log w)%list.
Proof.
  unfold outcome.
  destruct (probe_verdict _ _) as [|prefix].
  { now exists [Spawn (ffprobe_cmd (stagedPath cfg w))]. }
  destruct (remux_verdict _ _) as [|out].
  { now exists [Spawn (ffmpeg_cmd (stagedPath cfg w) (processedPath cfg w));
                Spawn (ffprobe_cmd (stagedPath cfg w))]. }
  destruct (fsRemuxed _ _ _ !! _) as [bytes|].
  - now exists [Presign (storageKey w prefix) 3600; DbUpdate (id video);
                LocalDelete (processedPath cfg w);
                S3Put (storageKey w prefix) (processedPath cfg w);
                LocalDelete (stagedPath cfg w);
                Spawn (ffmpeg_cmd (stagedPath cfg w) (processedPath cfg w));
                Spawn (ffprobe_cmd (stagedPath cfg w))].
  - now exists [LocalDelete (stagedPath cfg w);
                Spawn (ffmpeg_cmd (stagedPath cfg w) (processedPath cfg w));
                Spawn (ffprobe_cmd (stagedPath cfg w))].
Qed.

Lemma outcome_changes_world (cfg : ApiConfig) (w : World) (videoData : File)
    (video : Video) :
  (outcome cfg w videoData video).2 <> w.
Proof.
  intros H. destruct (outcome_log cfg w videoData video) as [later Hlog].
  rewrite H in Hlog. apply (f_equal (@length Effect)) in Hlog.
  rewrite length_app in Hlog. simpl in Hlog. lia.
Qed.

(** ** The staged file's name *)

Lemma list_ind3 {A} (P : list A -> Prop) :
  P [] -> (forall a, P [a]) -> (forall a b, P [a; b]) ->
  (forall a b c l, P l -> P (a :: b :: c :: l)) ->
  forall l, P l.
Proof.
  intros H0 H1 H2 H3.
  fix IH 1. intros [|a [|b [|c l]]]; [apply H0|apply H1|apply H2|apply H3, IH].
Qed.

Lemma base64url_length (bs : list byte) :
  Z.of_nat (String.length (base64url bs)) = (4 * Z.of_nat (length bs) + 2) / 3.
Proof.
  induction bs as [|a|a b|a b c l IH] using list_ind3; try reflexivity.
  cbn [base64url String.length length].
  rewrite !Nat2Z.inj_succ, IH.
  replace (4 * Z.succ (Z.succ (Z.succ (Z.of_nat (length l)))) + 2)
    with ((4 * Z.of_nat (length l) + 2) + 4 * 3) by lia.
  rewrite Z.div_add by lia. lia.
Qed.

Lemma b64char_urlsafe (n : N) : (n < 64)%N -> is_urlsafe (b64char n) = true.
Proof.
  intros H. destruct n as [|p]; [reflexivity|].
  do 6 (destruct p as [p|p|]; try reflexivity); exfalso; lia.
Qed.

Lemma sextet_urlsafe (n k : N) : is_urlsafe (sextet n k) = true.
Proof.
  unfold sextet. apply b64char_urlsafe.
  change 63%N with (N.ones 6). rewrite N.land_ones.
  apply N.mod_lt. discriminate.
Qed.

Lemma base64url_urlsafe (bs : list byte) :
  forallb is_urlsafe (list_ascii_of_string (base64url bs)) = true.
Proof.
  induction bs as [|a|a b|a b c l IH] using list_ind3;
    cbn [base64url list_ascii_of_string forallb];
    rewrite ?sextet_urlsafe; auto.
Qed.

Lemma entropy32_length (w : World) : length (entropy32 w) = 32%nat.
Proof. unfold entropy32. now rewrite length_map, length_seq. Qed.

(** Splitting at ["/"] and taking the last piece yields the subtype. *)
Lemma append_empty (s : string) : s +:+ "" = s.
Proof. induction s as [|c s IH]; [reflexivity|]. now rewrite append_cons, IH. Qed.

Lemma append_snoc (cur s : string) (c : ascii) :
  (cur +:+ String c "") +:+ s = cur +:+ String c s.
Proof. induction cur as [|d cur IH]; [reflexivity|]. now rewrite !append_cons, IH. Qed.

Lemma js_split_aux_no_slash (s cur : string) :
  no_slash s = true -> js_split_aux "/" s cur = [cur +:+ s].
Proof.
  revert cur. induction s as [|c s IH]; intros cur H; simpl in *.
  - now rewrite append_empty.
  - apply andb_prop in H as [Hc Hs].
    destruct (Ascii.eqb c "/"); [discriminate|].
    rewrite IH by assumption. now rewrite append_snoc.
Qed.



(** ** The handler *)

(** C2. The six preconditions are checked in the order the specification
    lists them: for an authenticated request whose form was read, the first
    precondition that fails decides the error raised (a missing or empty
    identifier, a payload that is not a file, an oversized payload and a media
    type other than video/mp4 raise [BadRequestError], an absent record raises
    [NotFoundError], a foreign actor raises [UserForbiddenError]) and the
    world, effect log included, is exactly as before: nothing was written
    locally or durably. *)
Theorem preconditions_checked_in_order (cfg : ApiConfig) (req : BunRequest)
    (w : World) (actor : string) (fd : list (string * FormDataEntryValue))
    (p : Precondition) :
  authenticate cfg req = inr actor ->
  formData req = inr fd ->
  first_failed (db w) (params_videoId req) actor (formData_get fd "video") = Some p ->
  handlerUploadVideo cfg req w = (inl (error_of p), w) /\
  class_of_error (error_of p) = Some (failure_class p).
Proof.
  intros Hauth Hfd Hp. split.
  - exact (handler_rejects cfg req w actor fd p Hauth Hfd Hp).
  - destruct p; reflexivity.
Qed.

(** C7. The size check accepts exactly the payloads of at most 2^30 bytes:
    once the identifier, the token and the file part are in order, the handler
    raises the size error, leaving the world untouched (no staged file), if
    and only if the declared size exceeds [MAX_UPLOAD_SIZE = 2^30]; a payload
    of exactly 2^30 bytes passes the check. *)
Theorem size_ceiling (cfg : ApiConfig) (req : BunRequest) (w : World)
    (actor : string) (fd : list (string * FormDataEntryValue)) (videoData : File) :
  js_not (params_videoId req) = false ->
  authenticate cfg req = inr actor ->
  formData req = inr fd ->
  formData_get fd "video" = Some (FormFile videoData) ->
  MAX_UPLOAD_SIZE = 2 ^ 30 /\
  (handlerUploadVideo cfg req w = (inl (BadRequestError "Video is larger than 1GB"), w)
   <-> MAX_UPLOAD_SIZE < file_size videoData).
Proof.
  intros Hid Hauth Hfd Hpart. split; [reflexivity|].
  rewrite MAX_UPLOAD_SIZE_value.
  apply js_not_false in Hid as (i & Hi & Hne).
  assert (Hnb : String.eqb i "" = false) by now apply String.eqb_neq.
  destruct (first_failed (db w) (params_videoId req) actor (formData_get fd "video"))
    as [p|] eqn:Hp.
  - rewrite (handler_rejects cfg req w actor fd p Hauth Hfd Hp).
    unfold first_failed in Hp. rewrite Hi, Hnb, Hpart in Hp.
    destruct (Z.ltb_spec (2 ^ 30) (file_size videoData)) as [Hbig|Hsmall].
    + injection Hp as <-. split; [intros _; exact Hbig | reflexivity].
    + split; [|lia]. intros Heq. exfalso.
      destruct (db w !! i) as [r|]; [|injection Hp as <-; discriminate].
      destruct (negb (String.eqb (row_userID r) actor));
        [injection Hp as <-; discriminate|].
      destruct (negb (String.eqb (file_type videoData) "video/mp4"));
        [injection Hp as <-; discriminate | discriminate].
  - destruct (handler_accepts cfg req w actor fd Hauth Hfd Hp) as (f & video & Hv).
    rewrite (handler_validated _ _ _ _ _ _ Hv).
    unfold first_failed in Hp. rewrite Hi, Hnb, Hpart in Hp.
    destruct (Z.ltb_spec (2 ^ 30) (file_size videoData)) as [Hbig|Hsmall];
      [discriminate|].
    split; [|lia]. intros Heq. exfalso.
    apply (outcome_changes_world cfg w f video). now rewrite Heq.
Qed.


(** *** Storage locations stay valid *)

Lemma located_step (good : list byte -> Prop) (cfg : ApiConfig) (req : BunRequest)
    (w : World) (i : string) :
  remux_ensures good ->
  located good i w ->
  located good i (handlerUploadVideo cfg req w).2.
Proof.
  intros Hgood Hloc.
  destruct (handler_cases cfg req w) as [[e He]|(actor & f & video & Hv)].
  { now rewrite He. }
  rewrite (handler_validated _ _ _ _ _ _ Hv). unfold outcome.
  destruct (probe_verdict _ _) as [|prefix]; [exact Hloc|].
  destruct (remux_verdict _ _) as [|out] eqn:Hremux; [exact Hloc|].
  destruct (fsRemuxed _ _ _ !! _) as [bytes|] eqn:Hout; [|exact Hloc].
  apply remux_verdict_ok in Hremux as [Hexit _].
  assert (Hb : good bytes).
  { exact (Hgood (stagedPath cfg w) (fsProbed cfg w (file_bytes f)) bytes Hexit Hout). }
  destruct Hloc as (key0 & bytes0 & Hrow & Hobj & Hb0).
  unfold located, afterUpload. cbn [snd db s3].
  destruct (decide (id video = i)) as [->|Hne].
  - exists (storageKey w prefix), bytes.
    rewrite !lookup_insert_eq. auto.
  - rewrite lookup_insert_ne by exact Hne.
    destruct (decide (storageKey w prefix = key0)) as [<-|Hk].
    + exists (storageKey w prefix), bytes. rewrite lookup_insert_eq. auto.
    + exists key0, bytes0. rewrite lookup_insert_ne by exact Hk. auto.
Qed.

Lemma located_serve (good : list byte -> Prop) (i : string)
    (reqs : list (ApiConfig * BunRequest)) (w : World) :
  remux_ensures good ->
  located good i w ->
  located good i (serve reqs w).
Proof.
  intros Hgood. revert w. unfold serve.
  induction reqs as [|[cfg req] reqs IH]; intros w Hloc; simpl; [exact Hloc|].
  apply IH. now apply located_step.
Qed.

(** C4, as amended. When the remuxer exits with a non-zero status the run
    fails with an error whose message carries the remuxer's diagnostic
    stream; the record and durable storage are unchanged; the staged file is
    still in the staging directory, and nothing was deleted: the effects of
    the run are exactly the write of the staged file and the two spawns. *)
Theorem remux_failure_keeps_staged_file (cfg : ApiConfig) (req : BunRequest)
    (w : World) (actor : string) (videoData : File) (video : Video) (prefix : string) :
  validated cfg req w actor videoData video ->
  probe_verdict (stagedPath cfg w) (probeRun cfg w (file_bytes videoData)) = inr prefix ->
  exitCode (remuxRun cfg w (file_bytes videoData)) <> 0 ->
  let w' := (handlerUploadVideo cfg req w).2 in
  (handlerUploadVideo cfg req w).1 =
    inl (JsError ("Failed to process video for fast start " +:+ stagedPath cfg w
                    +:+ ": " +:+ newline
                    +:+ stderr (remuxRun cfg w (file_bytes videoData)))) /\
  is_Some (fs w' !! stagedPath cfg w) /\
  db w' = db w /\
  s3 w' = s3 w /\
  log w' = Spawn (ffmpeg_cmd (stagedPath cfg w) (stagedPath cfg w +:+ ".processed"))
             :: Spawn (ffprobe_cmd (stagedPath cfg w))
             :: LocalWrite (stagedPath cfg w) :: log w.
Proof.
  intros Hv Hprobe Hexit w'. unfold w'.
  rewrite (handler_validated _ _ _ _ _ _ Hv). unfold outcome.
  rewrite Hprobe. unfold remux_verdict.
  destruct (Z.eqb_spec (exitCode (remuxRun cfg w (file_bytes videoData))) 0);
    [contradiction|].
  cbn [negb fst snd afterRemux fs db s3 log afterProbe].
  split; [reflexivity|]. split; [apply staged_survives_tools|].
  repeat split.
Qed.

(** C5. On success the response has status 200 and carries the record with
    its storage location replaced by the link the signer produced for the
    raw key with validity 3600 seconds; the signing is the last effect of the
    run, it follows the update of the metadata store, and what the store
    holds is the raw key. *)
Theorem response_is_signed_store_is_raw (cfg : ApiConfig) (req : BunRequest)
    (w w' : World) (resp : Response) :
  handlerUploadVideo cfg req w = (inr resp, w') ->
  exists video prefix,
    let key := prefix +:+ "/" +:+ stagedName w "video/mp4" in
    status resp = 200 /\
    payload resp = set_videoURL video (Some (presign (now w) key 3600)) /\
    params_videoId req = Some (id video) /\
    db w' !! id video = Some (row_of_video (set_videoURL video (Some key))) /\
    row_videoURL <$> db w' !! id video = Some (Some key) /\
    log w' = Presign key 3600
               :: DbUpdate (id video)
               :: LocalDelete (stagedPath cfg w +:+ ".processed")
               :: S3Put key (stagedPath cfg w +:+ ".processed")
               :: LocalDelete (stagedPath cfg w)
               :: Spawn (ffmpeg_cmd (stagedPath cfg w) (stagedPath cfg w +:+ ".processed"))
               :: Spawn (ffprobe_cmd (stagedPath cfg w))
               :: LocalWrite (stagedPath cfg w)
               :: log w.
Proof.
  intros Hrun.
  destruct (handler_success_inv _ _ _ _ _ Hrun)
    as (actor & f & video & prefix & bytes & Hv & Hprobe & Hexit & Hout & -> & ->).
  assert (Hid : params_videoId req = Some (id video)) by apply Hv.
  exists video, prefix. cbv zeta. unfold afterUpload.
  cbn [db s3 log status payload respondWithJSON].
  rewrite !lookup_insert_eq. repeat split. exact Hid.
Qed.

(** C9. [dbVideoToSignedVideo] hands the record back as it is, in a world it
    has not touched (no link was requested from the signer), exactly when the
    storage location is unset or empty; otherwise it asks the signer once, for
    the stored location with validity 3600, and puts the link in its place. *)
Theorem unset_location_is_not_signed (video : Video) (w : World) :
  (dbVideoToSignedVideo video w = (inr video, w) <-> js_not (videoURL video) = true) /\
  (forall key, videoURL video = Some key -> key <> "" ->
     dbVideoToSignedVideo video w =
     (inr (set_videoURL video (Some (presign (now w) key 3600))),
      with_log w (Presign key 3600))).
Proof.
  split.
  - split.
    + intros Hrun. destruct (js_not (videoURL video)) eqn:Hnot; [reflexivity|].
      apply js_not_false in Hnot as (key & Hkey & Hne).
      rewrite (dbVideoToSignedVideo_present _ _ _ Hkey Hne) in Hrun.
      injection Hrun as _ Hw. apply (f_equal log) in Hw.
      apply (f_equal (@length Effect)) in Hw. simpl in Hw. lia.
    + intros Hnot. unfold dbVideoToSignedVideo. now rewrite Hnot.
  - intros key Hkey Hne. now apply dbVideoToSignedVideo_present.
Qed.

(** C6. Under the signer's contract (a link it issues for a key resolves to
    the object stored under that key) signing the same stored location twice,
    in whatever worlds and at whatever clock readings, yields two links that
    resolve to that same object. *)
Theorem signing_twice_same_target (resolve : string -> option string)
    (video1 video2 : Video) (key : string) (w1 w2 : World) :
  (forall clock k expiresIn, resolve (presign clock k expiresIn) = Some k) ->
  videoURL video1 = Some key ->
  videoURL video2 = Some key ->
  key <> "" ->
  exists signed1 signed2 url1 url2,
    (dbVideoToSignedVideo video1 w1).1 = inr signed1 /\
    (dbVideoToSignedVideo video2 w2).1 = inr signed2 /\
    videoURL signed1 = Some url1 /\
    videoURL signed2 = Some url2 /\
    resolve url1 = Some key /\
    resolve url2 = Some key.
Proof.
  intros Hres H1 H2 Hne.
  rewrite (dbVideoToSignedVideo_present _ _ _ H1 Hne).
  rewrite (dbVideoToSignedVideo_present _ _ _ H2 Hne).
  do 4 eexists. simpl. repeat split; apply Hres.
Qed.

(** The function signs whatever the location field holds: applied to its own
    result it asks the signer for a link to the link. *)
Lemma resigning_signs_the_link (video signed : Video) (key : string) (w w' : World) :
  videoURL video = Some key -> key <> "" ->
  dbVideoToSignedVideo video w = (inr signed, w') ->
  presign (now w) key 3600 <> "" ->
  log (dbVideoToSignedVideo signed w').2 =
  Presign (presign (now w) key 3600) 3600 :: Presign key 3600 :: log w.
Proof.
  intros Hkey Hne Hrun Hurl.
  rewrite (dbVideoToSignedVideo_present _ _ _ Hkey Hne) in Hrun.
  injection Hrun as <- <-.
  rewrite (dbVideoToSignedVideo_present _ (presign (now w) key 3600));
    [reflexivity|reflexivity|exact Hurl].
Qed.

(** ** Reading the probe *)

Lemma div_nan_l (y : float) : (nan / y)%float = nan.
Proof.
  apply Prim2SF_inj. rewrite div_spec. change (Prim2SF nan) with S754_nan.
  destruct (Prim2SF y); reflexivity.
Qed.

Lemma div_nan_r (x : float) : (x / nan)%float = nan.
Proof.
  apply Prim2SF_inj. rewrite div_spec. change (Prim2SF nan) with S754_nan.
  destruct (Prim2SF x); reflexivity.
Qed.

Lemma classify_nan_l (y : float) : classify nan y = "other".
Proof. unfold classify. now rewrite div_nan_l. Qed.

Lemma classify_nan_r (x : float) : classify x nan = "other".
Proof. unfold classify. now rewrite div_nan_r. Qed.

(** C10, as amended. The first stream entry and its two fields are read
    without any presence check. With a zero exit status the function returns
    a class whenever the output is a JSON object whose [streams] list starts
    with an entry holding numeric [width] and [height]. It fails when the
    output is not JSON, when the object has no [streams] and when [streams] is
    an empty list. It does not fail when the first entry is an object that
    merely lacks a dimension, the other being absent or a number: the missing
    field reads as [undefined], the ratio is NaN and the class is [other]. *)
Theorem probe_reading (filePath : string) (w : World) :
  let r := spawn (ffprobe_cmd filePath) (fs w) in
  let result := (getVideoAspectRatio filePath w).1 in
  exitCode r = 0 ->
  (probe_output_ok (stdout r) -> exists width height, result = inr (classify width height)) /\
  (forall e, JSON_parse (stdout r) = inl e -> result = inl e) /\
  (forall props, JSON_parse (stdout r) = inr (JSObject props) ->
     assoc "streams" props = None \/ assoc "streams" props = Some (JSArray []) ->
     exists msg, result = inl (TypeError msg)) /\
  (forall props rest fields,
     JSON_parse (stdout r) = inr (JSObject props) ->
     assoc "streams" props = Some (JSArray (JSObject fields :: rest)) ->
     (assoc "width" fields = None /\
      (assoc "height" fields = None \/ exists h, assoc "height" fields = Some (JSNumber h)))
     \/ (assoc "height" fields = None /\
         exists x, assoc "width" fields = Some (JSNumber x)) ->
     result = inr "other").
Proof.
  intros r result Hexit. unfold result. rewrite getVideoAspectRatio_run.
  cbn [fst]. fold r. unfold probe_verdict. rewrite Hexit. cbn [Z.eqb negb].
  split; [|split; [|split]].
  - intros (props & rest & fields & width & height & -> & Hs & Hw & Hh).
    simpl. rewrite Hs. simpl. rewrite Hw, Hh. simpl. eauto.
  - intros e ->. reflexivity.
  - intros props -> [Hs|Hs]; simpl; rewrite Hs; simpl; eexists; reflexivity.
  - intros props rest fields -> Hs Hdims.
    simpl. rewrite Hs. simpl.
    destruct Hdims as [[Hw [Hh|[h Hh]]]|[Hh [x Hw]]]; rewrite Hw, Hh;
      simpl; f_equal;
      first [apply classify_nan_l | apply classify_nan_r].
Qed.

End PipelineFacts.

(** * Concrete runs *)

Lemma demo_validated (probeExit : Z) (probeOut : string) (remuxExit : Z) :
  @validated (Demo.env probeExit probeOut remuxExit) Demo.cfg Demo.upload Demo.world
             "alice" Demo.clip Demo.record.
Proof.
  unfold validated. split; [reflexivity|]. split; [discriminate|].
  split; [reflexivity|]. split.
  { exists [("video", FormFile Demo.clip)]. split; reflexivity. }
  split; [vm_compute; discriminate|]. repeat split.
Qed.


Lemma demo_signer_contract (clock : Z) (k : string) (expiresIn : Z) :
  Demo.resolve (Demo.sign clock k expiresIn) = Some k.
Proof.
  unfold Demo.resolve, Demo.sign. destruct (Z.even _); reflexivity.
Qed.

(** A request by an actor who does not own the record is refused with
    [UserForbiddenError], the world untouched. *)
Lemma foreign_actor_is_refused :
  @handlerUploadVideo Demo.healthy Demo.cfg
     (Demo.request (Some "v1") "mallory" (FormFile Demo.clip)) Demo.world
  = (inl (UserForbiddenError "Wrong user"), Demo.world)
  /\ class_of_error (UserForbiddenError "Wrong user") = Some Forbidden.
Proof.
  apply (@preconditions_checked_in_order Demo.healthy Demo.cfg
           (Demo.request (Some "v1") "mallory" (FormFile Demo.clip)) Demo.world
           "mallory" [("video", FormFile Demo.clip)] ActorOwnsRecord);
    vm_compute; reflexivity.
Defined.

(** A payload declared one byte above the ceiling is refused. *)
Lemma oversized_is_refused :
  MAX_UPLOAD_SIZE = 2 ^ 30 /\
  (@handlerUploadVideo Demo.healthy Demo.cfg
      (Demo.request (Some "v1") "alice" (FormFile Demo.oversized)) Demo.world
   = (inl (BadRequestError "Video is larger than 1GB"), Demo.world)
   <-> MAX_UPLOAD_SIZE < 2 ^ 30 + 1).
Proof.
  apply (@size_ceiling Demo.healthy Demo.cfg
           (Demo.request (Some "v1") "alice" (FormFile Demo.oversized)) Demo.world
           "alice" [("video", FormFile Demo.oversized)] Demo.oversized);
    reflexivity.
Defined.


(** C4, the claim as stated fails: the remuxer exits with status 1, the
    request fails, and the staged file is still in the staging directory
    with the bytes of the upload. *)
Lemma failed_remux_leaves_staged_file :
  exitCode (@remuxRun Demo.remux_fails Demo.cfg Demo.world (file_bytes Demo.clip)) = 1
  /\ (exists msg,
        (@handlerUploadVideo Demo.remux_fails Demo.cfg Demo.upload Demo.world).1
        = inl (JsError msg))
  /\ @stagedPath Demo.remux_fails Demo.cfg Demo.world = Demo.staged
  /\ fs (@handlerUploadVideo Demo.remux_fails Demo.cfg Demo.upload Demo.world).2
       !! Demo.staged = Some (file_bytes Demo.clip)
  /\ ~ In (LocalDelete Demo.staged)
          (log (@handlerUploadVideo Demo.remux_fails Demo.cfg Demo.upload Demo.world).2).
Proof.
  split; [vm_compute; reflexivity|].
  split; [eexists; vm_compute; reflexivity|].
  split; [vm_compute; reflexivity|].
  split; [vm_compute; reflexivity|].
  vm_compute. intros [H|[H|[H|[]]]]; discriminate H.
Defined.

(** The amended statement at the same run. *)
Lemma failed_remux_example :
  is_Some (fs (@handlerUploadVideo Demo.remux_fails Demo.cfg Demo.upload Demo.world).2
             !! @stagedPath Demo.remux_fails Demo.cfg Demo.world)
  /\ db (@handlerUploadVideo Demo.remux_fails Demo.cfg Demo.upload Demo.world).2
     = db Demo.world
  /\ s3 (@handlerUploadVideo Demo.remux_fails Demo.cfg Demo.upload Demo.world).2
     = s3 Demo.world.
Proof.
  pose proof (@remux_failure_keeps_staged_file Demo.remux_fails Demo.cfg Demo.upload
                Demo.world "alice" Demo.clip Demo.record "landscape"
                (demo_validated 0 Demo.probe_720p 1)) as H.
  destruct H as (_ & Hfile & Hdb & Hs3 & _).
  - vm_compute. reflexivity.
  - vm_compute. discriminate.
  - exact (conj Hfile (conj Hdb Hs3)).
Defined.

(** The example upload answers with a signed link and stores the raw key. *)
Lemma example_response_is_signed :
  exists resp video prefix,
    (@handlerUploadVideo Demo.healthy Demo.cfg Demo.upload Demo.world).1 = inr resp /\
    status resp = 200 /\
    payload resp
    = set_videoURL video
        (Some (Demo.sign 1000
                 (prefix +:+ "/" +:+ @stagedName Demo.healthy Demo.world "video/mp4") 3600)) /\
    row_videoURL <$>
      db (@handlerUploadVideo Demo.healthy Demo.cfg Demo.upload Demo.world).2 !! id video
    = Some (Some (prefix +:+ "/" +:+ @stagedName Demo.healthy Demo.world "video/mp4")).
Proof.
  destruct (@handlerUploadVideo Demo.healthy Demo.cfg Demo.upload Demo.world)
    as [[e|resp] w'] eqn:Hrun.
  - vm_compute in Hrun. discriminate Hrun.
  - destruct (@response_is_signed_store_is_raw Demo.healthy Demo.cfg Demo.upload
                Demo.world w' resp Hrun)
      as (video & prefix & Hstatus & Hpayload & _ & _ & Hrow & _).
    exists resp, video, prefix.
    exact (conj eq_refl (conj Hstatus (conj Hpayload Hrow))).
Defined.

(** Two signings of one key at different clock readings give different links
    to the same object. *)
Lemma two_signings_of_one_key :
  exists signed1 signed2 url1 url2,
    (@dbVideoToSignedVideo Demo.healthy
        (mkVideo "v1" "alice" (Some "landscape/a.mp4") None) Demo.world).1 = inr signed1 /\
    (@dbVideoToSignedVideo Demo.healthy
        (mkVideo "v1" "alice" (Some "landscape/a.mp4") None)
        (mkWorld ∅ ∅ ∅ 0 1001 [])).1 = inr signed2 /\
    videoURL signed1 = Some url1 /\
    videoURL signed2 = Some url2 /\
    Demo.resolve url1 = Some "landscape/a.mp4" /\
    Demo.resolve url2 = Some "landscape/a.mp4".
Proof.
  apply (@signing_twice_same_target Demo.healthy Demo.resolve
           (mkVideo "v1" "alice" (Some "landscape/a.mp4") None)
           (mkVideo "v1" "alice" (Some "landscape/a.mp4") None)
           "landscape/a.mp4" Demo.world (mkWorld ∅ ∅ ∅ 0 1001 [])
           demo_signer_contract); [reflexivity| reflexivity | discriminate].
Defined.

(** C10, the claim as stated fails: the probe exits with status 0 and
    prints an object whose first stream entry has no dimensions; the output
    is not of the expected shape, yet the function returns the class
    [other] instead of failing. *)
Lemma probe_without_dimensions_returns_other :
  exitCode (@spawn Demo.probe_without_dimensions (ffprobe_cmd Demo.staged) (fs Demo.world)) = 0
  /\ Demo.read_json
       (stdout (@spawn Demo.probe_without_dimensions (ffprobe_cmd Demo.staged) (fs Demo.world)))
     = inr (JSObject [("streams", JSArray [JSObject []])])
  /\ ~ @probe_output_ok Demo.probe_without_dimensions
         (stdout (@spawn Demo.probe_without_dimensions (ffprobe_cmd Demo.staged) (fs Demo.world)))
  /\ (@getVideoAspectRatio Demo.probe_without_dimensions Demo.staged Demo.world).1
     = inr "other".
Proof.
  split; [reflexivity|]. split; [vm_compute; reflexivity|]. split.
  - intros (props & rest & fields & width & height & Hp & Hs & Hw & Hh).
    vm_compute in Hp. injection Hp as <-.
    vm_compute in Hs. injection Hs as <- <-.
    discriminate Hw.
  - vm_compute. reflexivity.
Defined.

(** The amended statement at the same probe output. *)
Lemma probe_reading_example :
  (@getVideoAspectRatio Demo.probe_without_dimensions Demo.staged Demo.world).1
  = inr "other".
Proof.
  pose proof (@probe_reading Demo.probe_without_dimensions Demo.staged Demo.world) as H.
  cbv zeta in H. destruct H as (_ & _ & _ & H); [reflexivity|].
  apply (H [("streams", JSArray [JSObject []])] [] []).
  - vm_compute. reflexivity.
  - reflexivity.
  - left. split; [reflexivity|]. left. reflexivity.
Defined.

(** * Further properties of the upload handler *)

Section UploadFacts.
Context {C : Collaborators}.

Lemma validated_row (cfg : ApiConfig) (req : BunRequest) (w : World)
    (actor : string) (videoData : File) (video : Video) :
  validated cfg req w actor videoData video ->
  exists r, db w !! id video = Some r /\ video = video_of_row (id video) r.
Proof.
  intros (_ & _ & _ & _ & _ & Hrec & _).
  destruct (db w !! id video) as [r|]; [|discriminate].
  exists r. split; [reflexivity|]. injection Hrec as <-. reflexivity.
Qed.

(** A successful upload leaves neither the staged file nor the remuxed file
    in the staging directory, and every other path is as the two tools left
    it. When the probe writes nothing, the remuxer writes its output file
    only, and neither path was in use before, the directory is exactly as
    the upload found it. *)
Theorem success_leaves_no_temporaries (cfg : ApiConfig) (req : BunRequest)
    (w w' : World) (resp : Response) :
  handlerUploadVideo cfg req w = (inr resp, w') ->
  exists videoData,
    let staged := stagedPath cfg w in
    let processed := stagedPath cfg w +:+ ".processed" in
    fs w' !! staged = None /\
    fs w' !! processed = None /\
    (forall p, p <> staged -> p <> processed ->
       fs w' !! p = fsRemuxed cfg w (file_bytes videoData) !! p) /\
    (written (probeRun cfg w (file_bytes videoData)) = [] ->
     (exists bytes, written (remuxRun cfg w (file_bytes videoData)) = [(processed, bytes)]) ->
     fs w !! staged = None -> fs w !! processed = None ->
     fs w' = fs w).
Proof.
  intros Hrun.
  destruct (handler_success_inv _ _ _ _ _ Hrun)
    as (actor & f & video & prefix & bytes & Hv & Hprobe & Hexit & Hout & _ & ->).
  exists f. cbv zeta. unfold afterUpload. cbn [fs]. unfold processedPath.
  pose proof (processed_differs (stagedPath cfg w)) as Hne.
  split.
  { rewrite lookup_delete_ne by exact Hne. apply lookup_delete_eq. }
  split; [apply lookup_delete_eq|]. split.
  { intros p Hp1 Hp2. rewrite !lookup_delete_ne by congruence. reflexivity. }
  intros Hw1 [out Hw2] Hs Hp.
  unfold fsRemuxed, fsProbed, processedPath. rewrite Hw2, Hw1. unfold fsStaged.
  cbn [apply_writes fold_left fst snd].
  apply map_eq. intros p.
  destruct (decide (p = stagedPath cfg w +:+ ".processed")) as [->|Hp2].
  { rewrite lookup_delete_eq. symmetry. exact Hp. }
  rewrite lookup_delete_ne by congruence.
  destruct (decide (p = stagedPath cfg w)) as [->|Hp1].
  { rewrite lookup_delete_eq. symmetry. exact Hs. }
  rewrite lookup_delete_ne by congruence.
  rewrite !lookup_insert_ne by congruence. reflexivity.
Qed.

(** When the probe cannot be read (it exits with a non-zero status, prints
    no JSON, or has no first stream entry) the upload stops there: the
    remuxer is never started, nothing reaches durable storage or the
    metadata store, and the staged file stays in the staging directory. A
    non-zero exit status is reported with the probe's diagnostic stream. *)
Theorem probe_failure_stops_the_pipeline (cfg : ApiConfig) (req : BunRequest)
    (w : World) (actor : string) (videoData : File) (video : Video) (e : Error) :
  validated cfg req w actor videoData video ->
  probe_verdict (stagedPath cfg w) (probeRun cfg w (file_bytes videoData)) = inl e ->
  let w' := (handlerUploadVideo cfg req w).2 in
  (handlerUploadVideo cfg req w).1 = inl e /\
  log w' = Spawn (ffprobe_cmd (stagedPath cfg w)) :: LocalWrite (stagedPath cfg w) :: log w /\
  is_Some (fs w' !! stagedPath cfg w) /\
  s3 w' = s3 w /\ db w' = db w /\
  (exitCode (probeRun cfg w (file_bytes videoData)) <> 0 ->
   e = JsError ("Failed to read dimensions of " +:+ stagedPath cfg w +:+ ": "
                  +:+ newline +:+ stderr (probeRun cfg w (file_bytes videoData)))).
Proof.
  intros Hv Hprobe w'. unfold w'.
  rewrite (handler_validated _ _ _ _ _ _ Hv). unfold outcome. rewrite Hprobe.
  cbn [fst snd afterProbe log fs s3 db].
  split; [reflexivity|]. split; [reflexivity|]. split.
  { unfold fsProbed. apply apply_writes_keeps. unfold fsStaged.
    rewrite lookup_insert_eq. eauto. }
  split; [reflexivity|]. split; [reflexivity|].
  intros Hexit. unfold probe_verdict in Hprobe.
  destruct (Z.eqb_spec (exitCode (probeRun cfg w (file_bytes videoData))) 0);
    [contradiction|].
  simpl in Hprobe. injection Hprobe as <-. reflexivity.
Qed.

(** A request whose token is refused changes nothing and is answered with
    the authenticator's error, whatever its payload; only a missing
    identifier is reported first. *)
Theorem unauthenticated_request_changes_nothing (cfg : ApiConfig) (req : BunRequest)
    (w : World) (e : Error) :
  authenticate cfg req = inl e ->
  handlerUploadVideo cfg req w =
  (inl (if js_not (params_videoId req) then BadRequestError "Invalid video ID" else e), w).
Proof.
  intros Hauth. destruct (js_not (params_videoId req)) eqn:Hid.
  - now apply handler_missing_id.
  - now apply handler_auth_fails.
Qed.

(** An actor who does not own the record is refused with
    [UserForbiddenError] whatever the declared media type, but an oversized
    payload is reported first: the size is checked before the record is
    looked up. *)
Theorem ownership_checked_after_size_before_type (cfg : ApiConfig) (req : BunRequest)
    (w : World) (actor i : string) (fd : list (string * FormDataEntryValue))
    (videoData : File) (r : VideoRow) :
  params_videoId req = Some i -> i <> "" ->
  authenticate cfg req = inr actor ->
  formData req = inr fd ->
  formData_get fd "video" = Some (FormFile videoData) ->
  db w !! i = Some r ->
  row_userID r <> actor ->
  handlerUploadVideo cfg req w =
  (inl (if (2 ^ 30 <? file_size videoData)%Z
        then BadRequestError "Video is larger than 1GB"
        else UserForbiddenError "Wrong user"), w).
Proof.
  intros Hid Hne Hauth Hfd Hpart Hrec Hown.
  assert (Hnb : String.eqb i "" = false) by now apply String.eqb_neq.
  assert (Hob : String.eqb (row_userID r) actor = false) by now apply String.eqb_neq.
  destruct (2 ^ 30 <? file_size videoData)%Z eqn:Hsize.
  - apply (handler_rejects cfg req w actor fd SizeWithinCeiling Hauth Hfd).
    unfold first_failed. now rewrite Hid, Hnb, Hpart, Hsize.
  - apply (handler_rejects cfg req w actor fd ActorOwnsRecord Hauth Hfd).
    unfold first_failed. now rewrite Hid, Hnb, Hpart, Hsize, Hrec, Hob.
Qed.

End UploadFacts.

(** * The encodings *)

Section Encoding.

Lemma below_64_cases (P : N -> Prop) :
  (forall k : nat, (k < 64)%nat -> P (N.of_nat k)) ->
  forall n, (n < 64)%N -> P n.
Proof.
  intros H n Hn. rewrite <- (N2Nat.id n). apply H. lia.
Qed.

Lemma b64char_code (n : N) : (n < 64)%N -> N_of_ascii (b64char n) = url_code n.
Proof.
  revert n. apply below_64_cases. intros k Hk.
  do 64 (destruct k as [|k]; [reflexivity|]). lia.
Qed.

Lemma b64std_code (n : N) : (n < 64)%N -> N_of_ascii (b64std n) = std_code n.
Proof.
  revert n. apply below_64_cases. intros k Hk.
  do 64 (destruct k as [|k]; [reflexivity|]). lia.
Qed.

Lemma url_code_inj (n m : N) :
  (n < 64)%N -> (m < 64)%N -> url_code n = url_code m -> n = m.
Proof.
  unfold url_code. intros Hn Hm.
  repeat match goal with
         | |- context [(?a <? ?b)%N] => destruct (N.ltb_spec a b)
         | |- context [(?a =? ?b)%N] => destruct (N.eqb_spec a b)
         end; lia.
Qed.

Lemma std_code_inj (n m : N) :
  (n < 64)%N -> (m < 64)%N -> std_code n = std_code m -> n = m.
Proof.
  unfold std_code. intros Hn Hm.
  repeat match goal with
         | |- context [(?a <? ?b)%N] => destruct (N.ltb_spec a b)
         | |- context [(?a =? ?b)%N] => destruct (N.eqb_spec a b)
         end; lia.
Qed.

Lemma std_code_not_pad (n : N) : (n < 64)%N -> b64std n <> "="%char.
Proof.
  intros Hn Heq. apply (f_equal N_of_ascii) in Heq.
  rewrite b64std_code in Heq by exact Hn. unfold std_code in Heq.
  change (N_of_ascii "=") with 61%N in Heq.
  repeat match type of Heq with
         | context [(?a <? ?b)%N] => destruct (N.ltb_spec a b)
         | context [(?a =? ?b)%N] => destruct (N.eqb_spec a b)
         end; lia.
Qed.

Lemma sextet_index_bound (n k : N) : (sextet_index n k < 64)%N.
Proof.
  unfold sextet_index. change 63%N with (N.ones 6). rewrite N.land_ones.
  apply N.mod_lt. discriminate.
Qed.

Lemma sextet_index_div (n k : N) :
  sextet_index n k = ((n / 2 ^ (6 * k)) mod 64)%N.
Proof.
  unfold sextet_index. change 63%N with (N.ones 6).
  now rewrite N.land_ones, N.shiftr_div_pow2.
Qed.

Lemma sextet_inj (n m k : N) : sextet n k = sextet m k -> sextet_index n k = sextet_index m k.
Proof.
  intros H. change (b64char (sextet_index n k) = b64char (sextet_index m k)) in H.
  apply (f_equal N_of_ascii) in H.
  rewrite !b64char_code in H by apply sextet_index_bound.
  now apply url_code_inj in H; try apply sextet_index_bound.
Qed.

Lemma sextet_std_inj (n m k : N) :
  sextet_std n k = sextet_std m k -> sextet_index n k = sextet_index m k.
Proof.
  unfold sextet_std. intros H. apply (f_equal N_of_ascii) in H.
  rewrite !b64std_code in H by apply sextet_index_bound.
  now apply std_code_inj in H; try apply sextet_index_bound.
Qed.

(** Bytes packed side by side do not overlap. *)
Lemma lor_low (x y k : N) : (y < 2 ^ k)%N -> N.lor (N.shiftl x k) y = (x * 2 ^ k + y)%N.
Proof.
  intros Hy. rewrite <- N.shiftl_mul_pow2.
  assert (Hland : N.land (N.shiftl x k) y = 0%N).
  { apply N.bits_inj. intros m. rewrite N.land_spec, N.bits_0.
    destruct (N.lt_ge_cases m k) as [Hm|Hm].
    - now rewrite N.shiftl_spec_low.
    - rewrite <- (N.mod_small y (2 ^ k)) by exact Hy.
      rewrite N.mod_pow2_bits_high by exact Hm. apply andb_false_r. }
  now rewrite N.add_nocarry_lxor, N.lxor_lor.
Qed.

Lemma byte_bound (a : byte) : (Byte.to_N a < 256)%N.
Proof. pose proof (Byte.to_N_bounded a). lia. Qed.

Lemma byte_inj (a b : byte) : Byte.to_N a = Byte.to_N b -> a = b.
Proof.
  intros H. pose proof (Byte.of_to_N a) as Ha. rewrite H, Byte.of_to_N in Ha.
  now injection Ha.
Qed.

Lemma pack1 (a : byte) : N.shiftl (Byte.to_N a) 16 = (Byte.to_N a * 65536)%N.
Proof. now rewrite N.shiftl_mul_pow2. Qed.

Lemma pack2 (a b : byte) :
  N.lor (N.shiftl (Byte.to_N a) 16) (N.shiftl (Byte.to_N b) 8)
  = (Byte.to_N a * 65536 + Byte.to_N b * 256)%N.
Proof.
  pose proof (byte_bound b).
  rewrite (N.shiftl_mul_pow2 _ 8), lor_low; [reflexivity|].
  change (2 ^ 8)%N with 256%N. change (2 ^ 16)%N with 65536%N. lia.
Qed.

Lemma pack3 (a b c : byte) :
  N.lor (N.lor (N.shiftl (Byte.to_N a) 16) (N.shiftl (Byte.to_N b) 8)) (Byte.to_N c)
  = (Byte.to_N a * 65536 + Byte.to_N b * 256 + Byte.to_N c)%N.
Proof.
  pose proof (byte_bound c). rewrite pack2.
  replace (Byte.to_N a * 65536 + Byte.to_N b * 256)%N
    with ((Byte.to_N a * 256 + Byte.to_N b) * 2 ^ 8)%N
    by (change (2 ^ 8)%N with 256%N; lia).
  rewrite <- N.shiftl_mul_pow2, lor_low by exact H.
  rewrite !N.shiftl_mul_pow2. change (2 ^ 8)%N with 256%N. lia.
Qed.

Lemma digits64 (n : N) :
  (n < 16777216)%N ->
  n = (sextet_index n 3 * 262144 + sextet_index n 2 * 4096
       + sextet_index n 1 * 64 + sextet_index n 0)%N.
Proof.
  intros Hn. rewrite !sextet_index_div.
  change (2 ^ (6 * 3))%N with 262144%N. change (2 ^ (6 * 2))%N with 4096%N.
  change (2 ^ (6 * 1))%N with 64%N. change (2 ^ (6 * 0))%N with 1%N.
  zify. Z.to_euclidean_division_equations. lia.
Qed.

Lemma packed_bound (a b c : N) :
  (a < 256 -> b < 256 -> c < 256 -> a * 65536 + b * 256 + c < 16777216)%N.
Proof. lia. Qed.

(** Equal sextets, equal bytes: the three group sizes. *)
Lemma group3_inj (a b c a' b' c' : byte) :
  let n := N.lor (N.lor (N.shiftl (Byte.to_N a) 16) (N.shiftl (Byte.to_N b) 8)) (Byte.to_N c) in
  let n' := N.lor (N.lor (N.shiftl (Byte.to_N a') 16) (N.shiftl (Byte.to_N b') 8)) (Byte.to_N c') in
  sextet_index n 3 = sextet_index n' 3 -> sextet_index n 2 = sextet_index n' 2 ->
  sextet_index n 1 = sextet_index n' 1 -> sextet_index n 0 = sextet_index n' 0 ->
  a = a' /\ b = b' /\ c = c'.
Proof.
  intros n n' H3 H2 H1 H0.
  pose proof (byte_bound a). pose proof (byte_bound b). pose proof (byte_bound c).
  pose proof (byte_bound a'). pose proof (byte_bound b'). pose proof (byte_bound c').
  assert (Hn : n = n').
  { rewrite (digits64 n), (digits64 n'), H3, H2, H1, H0; [reflexivity| |];
      unfold n, n'; rewrite pack3; now apply packed_bound. }
  unfold n, n' in Hn. rewrite !pack3 in Hn.
  repeat split; apply byte_inj; lia.
Qed.

Lemma group2_inj (a b a' b' : byte) :
  let n := N.lor (N.shiftl (Byte.to_N a) 16) (N.shiftl (Byte.to_N b) 8) in
  let n' := N.lor (N.shiftl (Byte.to_N a') 16) (N.shiftl (Byte.to_N b') 8) in
  sextet_index n 3 = sextet_index n' 3 -> sextet_index n 2 = sextet_index n' 2 ->
  sextet_index n 1 = sextet_index n' 1 ->
  a = a' /\ b = b'.
Proof.
  intros n n' H3 H2 H1.
  pose proof (byte_bound a). pose proof (byte_bound b).
  pose proof (byte_bound a'). pose proof (byte_bound b').
  assert (Hn : (n / 64 = n' / 64)%N).
  { unfold n, n' in *. rewrite !pack2 in *. rewrite !sextet_index_div in *.
    change (2 ^ (6 * 3))%N with 262144%N in *. change (2 ^ (6 * 2))%N with 4096%N in *.
    change (2 ^ (6 * 1))%N with 64%N in *.
    zify. Z.to_euclidean_division_equations. lia. }
  unfold n, n' in Hn. rewrite !pack2 in Hn.
  split; apply byte_inj; zify; Z.to_euclidean_division_equations; lia.
Qed.

Lemma group1_inj (a a' : byte) :
  let n := N.shiftl (Byte.to_N a) 16 in
  let n' := N.shiftl (Byte.to_N a') 16 in
  sextet_index n 3 = sextet_index n' 3 -> sextet_index n 2 = sextet_index n' 2 ->
  a = a'.
Proof.
  intros n n' H3 H2.
  pose proof (byte_bound a). pose proof (byte_bound a').
  unfold n, n' in *. rewrite !pack1 in *. rewrite !sextet_index_div in *.
  change (2 ^ (6 * 3))%N with 262144%N in *. change (2 ^ (6 * 2))%N with 4096%N in *.
  apply byte_inj. zify. Z.to_euclidean_division_equations. lia.
Qed.

End Encoding.

Section Names.
Context {C : Collaborators}.

Lemma base64url_inj (l1 l2 : list byte) : base64url l1 = base64url l2 -> l1 = l2.
Proof.
  revert l2. induction l1 as [|a|a b|a b c l IH] using list_ind3;
    intros [|a' [|b' [|c' l']]] H; cbn [base64url] in H;
    try discriminate H; try reflexivity.
  - injection H as H3 H2. apply sextet_inj in H3, H2.
    now rewrite (group1_inj a a' H3 H2).
  - injection H as H3 H2 H1. apply sextet_inj in H3, H2, H1.
    destruct (group2_inj a b a' b' H3 H2 H1) as [-> ->]. reflexivity.
  - injection H as H3 H2 H1 H0 Hrest. apply sextet_inj in H3, H2, H1, H0.
    destruct (group3_inj a b c a' b' c' H3 H2 H1 H0) as (-> & -> & ->).
    now rewrite (IH l' Hrest).
Qed.

Lemma append_inj_same_length (a b x y : string) :
  String.length a = String.length b -> a +:+ x = b +:+ y -> a = b /\ x = y.
Proof.
  revert b. induction a as [|c a IH]; intros [|d b] Hlen H; try discriminate Hlen.
  - split; [reflexivity|exact H].
  - rewrite !append_cons in H. injection H as -> H. injection Hlen as Hlen.
    destruct (IH b Hlen H) as [-> ->]. split; reflexivity.
Qed.

Lemma base64url_length32 (bs : list byte) :
  length bs = 32%nat -> String.length (base64url bs) = 43%nat.
Proof.
  intros H. apply Nat2Z.inj. rewrite base64url_length, H. reflexivity.
Qed.

(** Two uploads are given the same staged file name exactly when the random
    source hands them the same 32 bytes: the encoding loses nothing. *)
Theorem staged_names_collide_only_on_equal_entropy (w1 w2 : World) (mime : string) :
  stagedName w1 mime = stagedName w2 mime <-> entropy32 w1 = entropy32 w2.
Proof.
  unfold stagedName. split; [|now intros ->].
  intros H. apply append_inj_same_length in H as [H _].
  - now apply base64url_inj.
  - now rewrite !base64url_length32 by apply entropy32_length.
Qed.

(** Every validated upload, however it ends, advances the random stream by
    32 bytes: the next one reads the 32 bytes that follow, and gets the same
    name only if the stream repeats itself there. *)
Theorem successive_uploads_read_fresh_entropy (cfg : ApiConfig) (req : BunRequest)
    (w : World) (actor : string) (videoData : File) (video : Video) (mime : string) :
  validated cfg req w actor videoData video ->
  let w' := (handlerUploadVideo cfg req w).2 in
  entropy w' = (entropy w + 32)%nat /\
  entropy32 w' = map random_stream (seq (entropy w + 32) 32) /\
  (stagedName w' mime = stagedName w mime ->
   forall k, (k < 32)%nat ->
     random_stream (entropy w + 32 + k) = random_stream (entropy w + k)).
Proof.
  intros Hv w'.
  assert (He : entropy w' = (entropy w + 32)%nat).
  { unfold w'. rewrite (handler_validated _ _ _ _ _ _ Hv). unfold outcome.
    destruct (probe_verdict _ _); [reflexivity|].
    destruct (remux_verdict _ _); [reflexivity|].
    destruct (fsRemuxed _ _ _ !! _); reflexivity. }
  split; [exact He|]. split; [unfold entropy32; now rewrite He|].
  intros Hname k Hk.
  apply staged_names_collide_only_on_equal_entropy in Hname.
  unfold entropy32 in Hname. rewrite He in Hname.
  apply (f_equal (fun l => nth k l (random_stream 0))) in Hname.
  rewrite !map_nth, !seq_nth in Hname by lia.
  exact Hname.
Qed.

Lemma urlsafe_not_slash (c : ascii) : is_urlsafe c = true -> Ascii.eqb c "/" = false.
Proof.
  destruct c as [[] [] [] [] [] [] [] []]; intros H;
    first [reflexivity | discriminate H].
Qed.

Lemma urlsafe_no_slash (s : string) :
  forallb is_urlsafe (list_ascii_of_string s) = true -> no_slash s = true.
Proof.
  induction s as [|c s IH]; simpl; [reflexivity|].
  intros H. apply andb_prop in H as [Hc Hs].
  now rewrite (urlsafe_not_slash c Hc), IH.
Qed.

Lemma no_slash_append (a b : string) :
  no_slash (a +:+ b) = no_slash a && no_slash b.
Proof.
  induction a as [|c a IH]; [reflexivity|].
  rewrite append_cons. simpl. rewrite IH. now rewrite andb_assoc.
Qed.

Lemma js_split_aux_two (a b cur : string) :
  no_slash a = true -> no_slash b = true ->
  js_split_aux "/" (a +:+ "/" +:+ b) cur = [cur +:+ a; b].
Proof.
  intros Ha Hb. revert cur. induction a as [|c a IH]; intros cur.
  - change ("" +:+ "/" +:+ b) with (String "/" b). simpl.
    now rewrite (js_split_aux_no_slash b "" Hb), append_empty.
  - simpl in Ha. apply andb_prop in Ha as [Hc Ha].
    rewrite append_cons. simpl. destruct (Ascii.eqb c "/"); [discriminate|].
    rewrite (IH Ha). now rewrite append_snoc.
Qed.

Lemma stagedName_no_slash (w : World) : no_slash (stagedName w "video/mp4") = true.
Proof.
  unfold stagedName. rewrite no_slash_append.
  rewrite (urlsafe_no_slash _ (base64url_urlsafe _)). reflexivity.
Qed.

(** After a successful upload the stored location has exactly one ["/"]:
    splitting it there gives the geometry class and the staged file's name,
    so the class can be read back from the key. *)
Theorem storage_key_splits_into_class_and_name (cfg : ApiConfig) (req : BunRequest)
    (w w' : World) (resp : Response) :
  handlerUploadVideo cfg req w = (inr resp, w') ->
  exists video key prefix,
    params_videoId req = Some (id video) /\
    row_videoURL <$> db w' !! id video = Some (Some key) /\
    (prefix = "landscape" \/ prefix = "portrait" \/ prefix = "other") /\
    js_split "/" key = [prefix; stagedName w "video/mp4"].
Proof.
  intros Hrun.
  destruct (handler_success_inv _ _ _ _ _ Hrun)
    as (actor & f & video & prefix & bytes & Hv & Hprobe & _ & _ & _ & ->).
  exists video, (storageKey w prefix), prefix.
  split; [apply Hv|]. split.
  { unfold afterUpload. cbn [db]. now rewrite lookup_insert_eq. }
  pose proof (probe_verdict_class _ _ _ Hprobe) as Hclass.
  split; [exact Hclass|].
  unfold js_split, storageKey. rewrite js_split_aux_two.
  - reflexivity.
  - destruct Hclass as [-> | [-> | ->]]; reflexivity.
  - apply stagedName_no_slash.
Qed.

End Names.

(** * Dimensions that are not positive numbers *)

Section Degenerate.

Lemma ratio_other (r : float) :
  near_16_9 r = false -> near_9_16 r = false -> classifyRatio r = "other".
Proof. unfold classifyRatio. now intros -> ->. Qed.

Lemma not_finite_ratio_other (r : float) :
  match Prim2SF r with S754_finite _ _ _ => False | _ => True end ->
  classifyRatio r = "other".
Proof.
  intros H. apply ratio_other; rewrite ?near_16_9_spec, ?near_9_16_spec;
    destruct (Prim2SF r) as [[]|[]| |s m e]; try contradiction; reflexivity.
Qed.

Lemma negative_far_from_16_9 (m : positive) (e : Z) :
  far (SFsub prec emax (S754_finite true m e) sixteen_ninths).
Proof.
  apply sub_far; cbv zeta; simpl cond_Zopp.
  - pose proof (Z.pow_pos_nonneg 2 (e - Z.min e (-52))).
    pose proof (Z.pow_pos_nonneg 2 (-52 - Z.min e (-52))). nia.
  - set (ez := Z.min e (-52)).
    assert (Hk : 0 <= -52 - ez) by (unfold ez; lia).
    assert (Hj : 0 <= e - ez) by (unfold ez; lia).
    pose proof (Z.pow_pos_nonneg 2 (e - ez)).
    pose proof (Z.pow_pos_nonneg 2 (-52 - ez)).
    transitivity (52 + (-52 - ez)); [lia|].
    apply log2_lower; [lia|].
    rewrite Z.pow_add_r by lia. change (2 ^ 52) with 4503599627370496. nia.
Qed.

Lemma negative_ratio_other (r : float) :
  match Prim2SF r with S754_finite s _ _ => s = true | _ => True end ->
  classifyRatio r = "other".
Proof.
  intros H. destruct (Prim2SF r) as [s|s| |s m e] eqn:Hr.
  1-3: apply not_finite_ratio_other; now rewrite Hr.
  subst s. apply ratio_other.
  - rewrite near_16_9_spec, Hr.
    apply far_not_below_tolerance, negative_far_from_16_9.
  - rewrite near_9_16_spec, Hr.
    apply far_not_below_tolerance, negative_far_from_9_16.
Qed.

Lemma round_aux_sign (s : bool) (m e : Z) (l : location) :
  match binary_round_aux prec emax s m e l with
  | S754_finite s' _ _ => s' = s
  | _ => True
  end.
Proof.
  unfold binary_round_aux.
  destruct (shr_fexp prec emax m e l) as [mrs1 e1].
  destruct (shr_fexp prec emax _ e1 loc_Exact) as [mrs2 e2].
  destruct (shr_m mrs2); [exact I| |exact I].
  destruct (e2 <=? emax - prec)%Z; [reflexivity|exact I].
Qed.

(** A width or height that is zero, infinite or not a number never makes
    the classification fail and never yields [landscape] or [portrait]: a
    zero height gives an infinite or undefined ratio, and the class is
    [other]. *)
Theorem degenerate_dimensions_are_other (width height : float) :
  degenerate width = true \/ degenerate height = true ->
  classify width height = "other".
Proof.
  intros H. unfold classify. apply not_finite_ratio_other.
  rewrite div_spec. unfold degenerate in H.
  destruct (Prim2SF width) as [sw|sw| |sw mw ew], (Prim2SF height) as [sh|sh| |sh mh eh];
    try exact I; destruct H; discriminate.
Qed.

(** Dimensions of opposite sign give a negative ratio, which is in neither
    band: the class is [other]. *)
Theorem opposite_signs_are_other (width height : float) :
  is_negative width <> is_negative height ->
  classify width height = "other".
Proof.
  intros H. unfold classify. apply negative_ratio_other.
  rewrite div_spec. unfold is_negative in H.
  destruct (Prim2SF width) as [sw|sw| |sw mw ew], (Prim2SF height) as [sh|sh| |sh mh eh];
    try exact I; try (now destruct sw); try (now destruct sh); try (now destruct sw, sh).
  unfold SF64div, SFdiv.
  destruct (SFdiv_core_binary prec emax (Z.pos mw) ew (Z.pos mh) eh) as [[mz ez] lz].
  pose proof (round_aux_sign (xorb sw sh) mz ez lz) as Hs.
  destruct (binary_round_aux prec emax (xorb sw sh) mz ez lz); try exact I.
  subst. destruct sw, sh; try reflexivity; now elim H.
Qed.

End Degenerate.

(** * The thumbnail handlers *)

Section ThumbnailFacts.
Context {C : Collaborators}.

Lemma thumbnail_ceiling_value : Thumbnails.MAX_UPLOAD_SIZE = 10485760.
Proof. reflexivity. Qed.

Lemma asset_ceiling_value : AssetThumbnails.MAX_UPLOAD_SIZE = 10485760.
Proof. reflexivity. Qed.

(** The data URL the inline handler stores for a file part. *)
Lemma inline_cases (cfg : ApiConfig) (req : BunRequest) (w : World) :
  (exists e, Thumbnails.handlerUploadThumbnail cfg req w = (inl e, w)) \/
  (exists videoId actor fd f row,
      params_videoId req = Some videoId /\ videoId <> "" /\
      authenticate cfg req = inr actor /\
      formData req = inr fd /\
      formData_get fd "thumbnail" = Some (FormFile f) /\
      (file_size f <= 10485760)%Z /\
      db w !! videoId = Some row /\
      row_userID row = actor /\
      let row' := mkRow (row_userID row) (row_videoURL row)
                    (Some ("data:" +:+ file_type f +:+ ";base64,"
                             +:+ base64 (file_bytes f))) in
      Thumbnails.handlerUploadThumbnail cfg req w =
        (inr (respondWithJSON 200 (video_of_row videoId row')),
         with_db w (<[videoId := row']> (db w)) (DbUpdate videoId))).
Proof.
  unfold Thumbnails.handlerUploadThumbnail, authenticate.
  destruct (params_videoId req) as [videoId|] eqn:Hid; cbn [js_not];
    [|left; eexists; reflexivity].
  destruct (String.eqb videoId "") eqn:Hne; [left; eexists; reflexivity|].
  apply String.eqb_neq in Hne.
  change (default "" (Some videoId)) with videoId.
  unfold bind at 1. cbn [ret].
  destruct (getBearerToken (headers req)) as [e|token] eqn:Htok;
    [left; eexists; reflexivity|].
  unfold bind at 1. cbn [lift ret].
  destruct (validateJWT token (jwtSecret cfg)) as [e|actor] eqn:Hjwt;
    [left; eexists; reflexivity|].
  unfold bind at 1. cbn [lift ret].
  destruct (formData req) as [e|fd]; [left; eexists; reflexivity|].
  unfold bind at 1. cbn [lift ret].
  destruct (formData_get fd "thumbnail") as [[s|f]|] eqn:Hpart;
    try (left; eexists; reflexivity).
  rewrite thumbnail_ceiling_value.
  destruct (file_size f >? 10485760)%Z eqn:Hsize; [left; eexists; reflexivity|].
  unfold bind at 1, getVideo.
  destruct (db w !! videoId) as [row|] eqn:Hrow; cbn [fmap option_fmap option_map];
    [|left; eexists; reflexivity].
  cbn [video_of_row userID].
  destruct (String.eqb (row_userID row) actor) eqn:Hown; cbn [negb];
    [|left; eexists; reflexivity].
  right. exists videoId, actor, fd, f, row.
  repeat (split; [first [reflexivity | assumption | lia
                        | now apply String.eqb_eq]|]).
  cbv beta iota zeta delta [bind lift ret getVideo updateVideo].
  rewrite Hjwt. cbv beta iota.
  rewrite Hpart. cbv beta iota. rewrite Hsize. cbv beta iota. rewrite Hrow.
  cbn [fmap option_fmap option_map video_of_row userID].
  rewrite Hown. reflexivity.
Qed.

Lemma asset_cases (cfg : ApiConfig) (req : BunRequest) (w : World) :
  (exists e, AssetThumbnails.handlerUploadThumbnail cfg req w = (inl e, w)) \/
  (exists videoId actor fd f row ext,
      params_videoId req = Some videoId /\ videoId <> "" /\
      authenticate cfg req = inr actor /\
      formData req = inr fd /\
      formData_get fd "thumbnail" = Some (FormFile f) /\
      (file_size f <= 10485760)%Z /\
      db w !! videoId = Some row /\
      row_userID row = actor /\
      (file_type f = "image/png" /\ ext = "png" \/
       file_type f = "image/jpeg" /\ ext = "jpeg") /\
      let fileName := base64url (entropy32 w) +:+ "." +:+ ext in
      let targetPath := path_join (assetsRoot cfg) fileName in
      let row' := mkRow (row_userID row) (row_videoURL row)
                    (Some ("http://localhost:" +:+ pretty (port cfg) +:+ "/assets/"
                             +:+ fileName)) in
      AssetThumbnails.handlerUploadThumbnail cfg req w =
        (inr (respondWithJSON 200 (video_of_row videoId row')),
         mkWorld (<[targetPath := file_bytes f]> (fs w)) (s3 w)
                 (<[videoId := row']> (db w)) (entropy w + 32) (now w)
                 (DbUpdate videoId :: LocalWrite targetPath :: log w))).
Proof.
  unfold AssetThumbnails.handlerUploadThumbnail, authenticate.
  destruct (params_videoId req) as [videoId|] eqn:Hid; cbn [js_not];
    [|left; eexists; reflexivity].
  destruct (String.eqb videoId "") eqn:Hne; [left; eexists; reflexivity|].
  apply String.eqb_neq in Hne.
  change (default "" (Some videoId)) with videoId.
  unfold bind at 1. cbn [ret].
  destruct (getBearerToken (headers req)) as [e|token] eqn:Htok;
    [left; eexists; reflexivity|].
  unfold bind at 1. cbn [lift ret].
  destruct (validateJWT token (jwtSecret cfg)) as [e|actor] eqn:Hjwt;
    [left; eexists; reflexivity|].
  unfold bind at 1. cbn [lift ret].
  destruct (formData req) as [e|fd]; [left; eexists; reflexivity|].
  unfold bind at 1. cbn [lift ret].
  destruct (formData_get fd "thumbnail") as [[s|f]|] eqn:Hpart;
    try (left; eexists; reflexivity).
  rewrite asset_ceiling_value.
  destruct (file_size f >? 10485760)%Z eqn:Hsize; [left; eexists; reflexivity|].
  unfold bind at 1, getVideo.
  destruct (db w !! videoId) as [row|] eqn:Hrow; cbn [fmap option_fmap option_map];
    [|left; eexists; reflexivity].
  cbn [video_of_row userID].
  destruct (String.eqb (row_userID row) actor) eqn:Hown; cbn [negb];
    [|left; eexists; reflexivity].
  destruct (String.eqb (file_type f) "image/png") eqn:Hpng; cbn [negb andb].
  - right. exists videoId, actor, fd, f, row, "png".
    repeat (split; [first [reflexivity | assumption | lia
                          | now apply String.eqb_eq]|]).
    split; [left; split; [now apply String.eqb_eq|reflexivity]|].
    cbv beta iota zeta delta [bind lift ret getVideo updateVideo randomBytes Bun_write].
    rewrite Hjwt. cbv beta iota.
    rewrite Hpart. cbv beta iota. rewrite Hsize. cbv beta iota. rewrite Hrow.
    cbn [fmap option_fmap option_map video_of_row userID].
    rewrite Hown, Hpng. cbn [negb andb].
    apply String.eqb_eq in Hpng. rewrite Hpng. reflexivity.
  - destruct (String.eqb (file_type f) "image/jpeg") eqn:Hjpeg; cbn [negb];
      [|left; eexists; reflexivity].
    right. exists videoId, actor, fd, f, row, "jpeg".
    repeat (split; [first [reflexivity | assumption | lia
                          | now apply String.eqb_eq]|]).
    split; [right; split; [now apply String.eqb_eq|reflexivity]|].
    cbv beta iota zeta delta [bind lift ret getVideo updateVideo randomBytes Bun_write].
    rewrite Hjwt. cbv beta iota.
    rewrite Hpart. cbv beta iota. rewrite Hsize. cbv beta iota. rewrite Hrow.
    cbn [fmap option_fmap option_map video_of_row userID].
    rewrite Hown, Hpng, Hjpeg. cbn [negb andb].
    apply String.eqb_eq in Hjpeg. rewrite Hjpeg. reflexivity.
Qed.

Lemma reader_cases (cfg : ApiConfig) (req : BunRequest) (w : World) :
  Thumbnails.handlerGetThumbnail cfg req w =
  (inl (if js_not (params_videoId req) then BadRequestError "Invalid video ID"
        else match db w !! default "" (params_videoId req) with
             | None => NotFoundError "Couldn't find video"
             | Some _ => OtherError "ReferenceError" "videoThumbnails is not defined"
             end), w).
Proof.
  unfold Thumbnails.handlerGetThumbnail.
  destruct (js_not (params_videoId req)); [reflexivity|].
  cbv beta iota delta [bind ret getVideo].
  destruct (db w !! default "" (params_videoId req)) as [row|];
    cbn [fmap option_fmap option_map]; reflexivity.
Qed.

Lemma reader_world (cfg : ApiConfig) (req : BunRequest) (w : World) :
  (Thumbnails.handlerGetThumbnail cfg req w).2 = w.
Proof. now rewrite reader_cases. Qed.

(** The reader never answers. It throws for every request: the identifier
    error when the path names no record, the lookup error when the record
    does not exist, and for every existing record a [ReferenceError], since
    the map it reads is bound nowhere; the code after that read is never
    reached. The world is left as it was. *)
Theorem thumbnail_reader_never_answers
    (cfg : ApiConfig) (req : BunRequest) (w : World) :
  exists e,
    Thumbnails.handlerGetThumbnail cfg req w = (inl e, w) /\
    (js_not (params_videoId req) = true -> e = BadRequestError "Invalid video ID") /\
    (forall videoId, params_videoId req = Some videoId -> videoId <> "" ->
       (db w !! videoId = None -> e = NotFoundError "Couldn't find video") /\
       (is_Some (db w !! videoId) -> exists msg, e = OtherError "ReferenceError" msg)).
Proof.
  eexists. split; [apply reader_cases|]. split.
  - now intros ->.
  - intros videoId Hid Hne. rewrite Hid. cbn [js_not default from_option Datatypes.id].
    apply String.eqb_neq in Hne. rewrite Hne. split.
    + now intros ->.
    + intros [row ->]. eauto.
Qed.

(** A thumbnail upload that is refused by the inline handler leaves the
    world as it found it: every check comes before the only write. *)
Theorem refused_inline_thumbnail_changes_nothing
    (cfg : ApiConfig) (req : BunRequest) (w : World) (e : Error) :
  (Thumbnails.handlerUploadThumbnail cfg req w).1 = inl e ->
  (Thumbnails.handlerUploadThumbnail cfg req w).2 = w.
Proof.
  destruct (inline_cases cfg req w)
    as [[e' He]|(videoId & actor & fd & f & row & _ & _ & _ & _ & _ & _ & _ & _ & Hrun)].
  - now rewrite He.
  - cbv zeta in Hrun. rewrite Hrun. discriminate.
Qed.

(** The same for the handler that writes the thumbnail to the assets
    directory: a refused request has drawn no random bytes, written no file
    and updated no record. *)
Theorem refused_asset_thumbnail_changes_nothing
    (cfg : ApiConfig) (req : BunRequest) (w : World) (e : Error) :
  (AssetThumbnails.handlerUploadThumbnail cfg req w).1 = inl e ->
  (AssetThumbnails.handlerUploadThumbnail cfg req w).2 = w.
Proof.
  destruct (asset_cases cfg req w)
    as [[e' He]|(videoId & actor & fd & f & row & ext
                 & _ & _ & _ & _ & _ & _ & _ & _ & _ & Hrun)].
  - now rewrite He.
  - cbv zeta in Hrun. rewrite Hrun. discriminate.
Qed.

(** A successful inline upload answers 200 with the updated record and
    changes one field of one record: the thumbnail link of the record named
    by the request becomes the data URL of the uploaded part, of whatever
    media type the part declares; owner and storage location of that record,
    every other record, the local files, durable storage and the entropy
    stay as they were. *)
Theorem inline_thumbnail_changes_one_field
    (cfg : ApiConfig) (req : BunRequest) (w : World) (r : Response) :
  (Thumbnails.handlerUploadThumbnail cfg req w).1 = inr r ->
  let w' := (Thumbnails.handlerUploadThumbnail cfg req w).2 in
  exists videoId fd f row,
    params_videoId req = Some videoId /\
    formData req = inr fd /\
    formData_get fd "thumbnail" = Some (FormFile f) /\
    db w !! videoId = Some row /\
    let link := "data:" +:+ file_type f +:+ ";base64," +:+ base64 (file_bytes f) in
    status r = 200 /\
    payload r = mkVideo videoId (row_userID row) (row_videoURL row) (Some link) /\
    db w' = <[videoId := mkRow (row_userID row) (row_videoURL row) (Some link)]> (db w) /\
    fs w' = fs w /\ s3 w' = s3 w /\ entropy w' = entropy w.
Proof.
  intros Hr w'. unfold w'. clear w'.
  destruct (inline_cases cfg req w)
    as [[e' He]|(videoId & actor & fd & f & row
                 & Hid & _ & _ & Hfd & Hpart & _ & Hrow & _ & Hrun)].
  { rewrite He in Hr. discriminate. }
  cbv zeta in Hrun. rewrite Hrun in Hr |- *. cbn [fst snd] in Hr |- *.
  injection Hr as <-.
  exists videoId, fd, f, row. cbv zeta.
  repeat (split; [first [reflexivity | assumption]|]). reflexivity.
Qed.

(** A successful upload through the assets handler: the part is a PNG or a
    JPEG image; its bytes are in the assets directory under a fresh name,
    [base64url] of 32 random bytes with the extension [png] or [jpeg]; the
    thumbnail link in the answer and in the record named by the request is
    the local URL ending in that name; durable storage is untouched and 32
    bytes of entropy are consumed. *)
Theorem asset_thumbnail_link_names_the_written_file
    (cfg : ApiConfig) (req : BunRequest) (w : World) (r : Response) :
  (AssetThumbnails.handlerUploadThumbnail cfg req w).1 = inr r ->
  let w' := (AssetThumbnails.handlerUploadThumbnail cfg req w).2 in
  exists videoId fd f ext,
    params_videoId req = Some videoId /\
    formData req = inr fd /\
    formData_get fd "thumbnail" = Some (FormFile f) /\
    (file_type f = "image/png" /\ ext = "png" \/
     file_type f = "image/jpeg" /\ ext = "jpeg") /\
    let fileName := base64url (entropy32 w) +:+ "." +:+ ext in
    let link := "http://localhost:" +:+ pretty (port cfg) +:+ "/assets/" +:+ fileName in
    fs w' !! path_join (assetsRoot cfg) fileName = Some (file_bytes f) /\
    status r = 200 /\
    id (payload r) = videoId /\
    thumbnailURL (payload r) = Some link /\
    row_thumbnailURL <$> db w' !! videoId = Some (Some link) /\
    s3 w' = s3 w /\ entropy w' = (entropy w + 32)%nat.
Proof.
  intros Hr w'. unfold w'. clear w'.
  destruct (asset_cases cfg req w)
    as [[e' He]|(videoId & actor & fd & f & row & ext
                 & Hid & _ & _ & Hfd & Hpart & _ & Hrow & _ & Hext & Hrun)].
  { rewrite He in Hr. discriminate. }
  cbv zeta in Hrun. rewrite Hrun in Hr |- *. cbn [fst snd] in Hr |- *.
  injection Hr as <-.
  exists videoId, fd, f, ext. cbv zeta. cbn [fs db s3 entropy].
  repeat (split; [first [reflexivity | assumption]|]).
  rewrite !lookup_insert_eq. repeat split; reflexivity.
Qed.

(** The ceiling on a thumbnail is [10 << 20 = 10485760] bytes, compared with
    [>], and in both handlers the comparison comes before the record is
    looked up: for an authenticated request with a file part, the answer is
    the size error exactly when the part is larger than the ceiling,
    whether or not the record exists or belongs to the caller. *)
Theorem thumbnail_ceiling
    (cfg : ApiConfig) (req : BunRequest) (w : World)
    (videoId actor : string) (fd : list (string * FormDataEntryValue)) (f : File) :
  params_videoId req = Some videoId -> videoId <> "" ->
  authenticate cfg req = inr actor ->
  formData req = inr fd ->
  formData_get fd "thumbnail" = Some (FormFile f) ->
  let refusal : Error := BadRequestError "Thumbnail is larger than 10MB" in
  ((Thumbnails.handlerUploadThumbnail cfg req w).1 = inl refusal
     <-> (10485760 < file_size f)%Z) /\
  ((AssetThumbnails.handlerUploadThumbnail cfg req w).1 = inl refusal
     <-> (10485760 < file_size f)%Z).
Proof.
  intros Hid Hne Hauth Hfd Hpart refusal. unfold refusal. clear refusal.
  unfold authenticate in Hauth.
  destruct (getBearerToken (headers req)) as [e|token] eqn:Htok; [discriminate|].
  apply String.eqb_neq in Hne.
  split.
  - unfold Thumbnails.handlerUploadThumbnail.
    rewrite Hid. cbn [js_not]. rewrite Hne, Htok, Hfd.
    change (default "" (Some videoId)) with videoId.
    cbv beta iota delta [bind lift ret getVideo updateVideo].
    rewrite Hauth. cbv beta iota. rewrite Hpart. cbv beta iota.
    rewrite thumbnail_ceiling_value.
    destruct (file_size f >? 10485760)%Z eqn:Hsize.
    + split; [lia|reflexivity].
    + split; [|lia].
      destruct (db w !! videoId) as [row|]; cbn [fmap option_fmap option_map];
        [|discriminate].
      destruct (negb _); discriminate.
  - unfold AssetThumbnails.handlerUploadThumbnail.
    rewrite Hid. cbn [js_not]. rewrite Hne, Htok, Hfd.
    change (default "" (Some videoId)) with videoId.
    cbv beta iota delta [bind lift ret getVideo updateVideo randomBytes Bun_write].
    rewrite Hauth. cbv beta iota. rewrite Hpart. cbv beta iota.
    rewrite asset_ceiling_value.
    destruct (file_size f >? 10485760)%Z eqn:Hsize.
    + split; [lia|reflexivity].
    + split; [|lia].
      destruct (db w !! videoId) as [row|]; cbn [fmap option_fmap option_map];
        [|discriminate].
      destruct (negb _); [discriminate|].
      destruct (_ && _); discriminate.
Qed.

End ThumbnailFacts.

(** * All handlers together *)

Section ApiFacts.
Context {C : Collaborators}.

Lemma upload_frame (cfg : ApiConfig) (req : BunRequest) (w : World) :
  Api.frame_of cfg req w (handlerUploadVideo cfg req w).2.
Proof.
  destruct (handler_cases cfg req w) as [[e He]|(actor & f & video & Hv)].
  { rewrite He. left. split; reflexivity. }
  rewrite (handler_validated _ _ _ _ _ _ Hv).
  destruct (validated_row _ _ _ _ _ _ Hv) as (r0 & Hr0 & Hvideo).
  destruct Hv as (Hid & _ & Hauth & _ & _ & _ & Hown & _).
  unfold outcome.
  destruct (probe_verdict _ _) as [|prefix]; [left; split; reflexivity|].
  destruct (remux_verdict _ _) as [|out]; [left; split; reflexivity|].
  destruct (fsRemuxed _ _ _ !! _) as [bytes|]; [|left; split; reflexivity].
  right. exists (id video), r0,
    (row_of_video (set_videoURL video (Some (storageKey w prefix)))).
  cbn [snd afterUpload s3 db].
  split; [exact Hid|]. split.
  { rewrite Hauth, <- Hown, Hvideo. reflexivity. }
  split; [exact Hr0|]. split.
  { rewrite Hvideo. reflexivity. }
  split; [reflexivity|]. right. eauto.
Qed.

Lemma inline_frame (cfg : ApiConfig) (req : BunRequest) (w : World) :
  Api.frame_of cfg req w (Thumbnails.handlerUploadThumbnail cfg req w).2.
Proof.
  destruct (inline_cases cfg req w)
    as [[e' He]|(videoId & actor & fd & f & row
                 & Hid & _ & Hauth & _ & _ & _ & Hrow & Hown & Hrun)].
  { rewrite He. left. split; reflexivity. }
  cbv zeta in Hrun. rewrite Hrun. right.
  eexists videoId, row, _. cbn [snd with_db db s3].
  split; [exact Hid|]. split; [now rewrite Hown|]. split; [exact Hrow|].
  split; [|split; [reflexivity|left; split; reflexivity]]. reflexivity.
Qed.

Lemma asset_frame (cfg : ApiConfig) (req : BunRequest) (w : World) :
  Api.frame_of cfg req w (AssetThumbnails.handlerUploadThumbnail cfg req w).2.
Proof.
  destruct (asset_cases cfg req w)
    as [[e' He]|(videoId & actor & fd & f & row & ext
                 & Hid & _ & Hauth & _ & _ & _ & Hrow & Hown & _ & Hrun)].
  { rewrite He. left. split; reflexivity. }
  cbv zeta in Hrun. rewrite Hrun. right.
  eexists videoId, row, _. cbn [snd db s3].
  split; [exact Hid|]. split; [now rewrite Hown|]. split; [exact Hrow|].
  split; [|split; [reflexivity|left; split; reflexivity]]. reflexivity.
Qed.

Lemma step_frame (c : Api.Call) (cfg : ApiConfig) (req : BunRequest) (w : World) :
  In c [Api.UploadVideo cfg req; Api.UploadThumbnail cfg req;
        Api.UploadThumbnailAsset cfg req; Api.GetThumbnail cfg req] ->
  Api.frame_of cfg req w (Api.step c w).
Proof.
  intros [<- | [<- | [<- | [<- | []]]]]; cbn [Api.step].
  - apply upload_frame.
  - apply inline_frame.
  - apply asset_frame.
  - rewrite reader_world. left. split; reflexivity.
Qed.

Lemma call_shape (c : Api.Call) :
  exists cfg req,
    In c [Api.UploadVideo cfg req; Api.UploadThumbnail cfg req;
          Api.UploadThumbnailAsset cfg req; Api.GetThumbnail cfg req].
Proof. destruct c as [cfg req|cfg req|cfg req|cfg req]; exists cfg, req; simpl; auto. Qed.

(** Whatever the call, a record changes only when the request names it and
    the token in the request authenticates its owner. *)
Theorem only_the_owner_changes_a_record
    (c : Api.Call) (cfg : ApiConfig) (req : BunRequest) (w : World) (i : string) :
  In c [Api.UploadVideo cfg req; Api.UploadThumbnail cfg req;
        Api.UploadThumbnailAsset cfg req; Api.GetThumbnail cfg req] ->
  db (Api.step c w) !! i <> db w !! i ->
  exists row,
    db w !! i = Some row /\
    params_videoId req = Some i /\
    authenticate cfg req = inr (row_userID row).
Proof.
  intros Hc Hne.
  destruct (step_frame c cfg req w Hc)
    as [[Hdb _]|(videoId & row & row' & Hid & Hauth & Hrow & _ & Hdb & _)].
  { now rewrite Hdb in Hne. }
  rewrite Hdb in Hne.
  destruct (decide (videoId = i)) as [<-|Hi].
  - exists row. auto.
  - now rewrite lookup_insert_ne in Hne.
Qed.

(** Across any sequence of calls to the four handlers, no object leaves
    durable storage, no record is created or deleted, and no record changes
    owner. *)
Theorem traffic_keeps_objects_records_and_owners
    (calls : list Api.Call) (w : World) :
  let w' := Api.serve_all calls w in
  (forall k, is_Some (s3 w !! k) -> is_Some (s3 w' !! k)) /\
  (forall i, is_Some (db w' !! i) <-> is_Some (db w !! i)) /\
  (forall i r r', db w !! i = Some r -> db w' !! i = Some r' ->
     row_userID r' = row_userID r).
Proof.
  cbv zeta. unfold Api.serve_all. revert w.
  induction calls as [|c calls IH]; intros w; cbn [fold_left].
  { repeat split; auto; congruence. }
  destruct (IH (Api.step c w)) as (IHs & IHd & IHo).
  destruct (call_shape c) as (cfg & req & Hc).
  destruct (step_frame c cfg req w Hc)
    as [[Hdb Hs3]|(videoId & row & row' & _ & _ & Hrow & Hown & Hdb & Hs3)].
  { rewrite Hdb, Hs3 in *. auto. }
  assert (Hobj : forall k, is_Some (s3 w !! k) ->
                           is_Some (s3 (Api.step c w) !! k)).
  { intros k Hk. destruct Hs3 as [[-> _]|(key & bytes & ->)]; [exact Hk|].
    destruct (decide (key = k)) as [->|Hne].
    - rewrite lookup_insert_eq. eauto.
    - now rewrite lookup_insert_ne. }
  split; [auto|]. split.
  - intros i. rewrite IHd, Hdb.
    destruct (decide (videoId = i)) as [<-|Hne].
    + rewrite lookup_insert_eq, Hrow. split; eauto.
    + now rewrite lookup_insert_ne.
  - intros i r r' Hi Hi'.
    destruct (decide (videoId = i)) as [<-|Hne].
    + rewrite (IHo videoId row' r'); [congruence| |exact Hi'].
      rewrite Hdb. apply lookup_insert_eq.
    + apply (IHo i r r'); [|exact Hi'].
      rewrite Hdb, lookup_insert_ne; auto.
Qed.




End ApiFacts.

(** * The data URL of an inline thumbnail *)

Section DataURL.

Lemma pad_is_no_digit (n k : N) : "="%char <> sextet_std n k.
Proof.
  intros H. symmetry in H. revert H. apply std_code_not_pad, sextet_index_bound.
Qed.

Ltac pad_clash :=
  match goal with
  | H : "="%char = sextet_std _ _ |- _ => now apply pad_is_no_digit in H
  | H : sextet_std _ _ = "="%char |- _ => symmetry in H; now apply pad_is_no_digit in H
  end.

Lemma base64_inj (l1 l2 : list byte) : base64 l1 = base64 l2 -> l1 = l2.
Proof.
  revert l2. induction l1 as [|a|a b|a b c l IH] using list_ind3;
    intros [|a' [|b' [|c' l']]] H; cbn [base64] in H;
    try discriminate H; try reflexivity;
    try (injection H; intros; pad_clash).
  - injection H as H3 H2. apply sextet_std_inj in H3, H2.
    now rewrite (group1_inj a a' H3 H2).
  - injection H as H3 H2 H1. apply sextet_std_inj in H3, H2, H1.
    destruct (group2_inj a b a' b' H3 H2 H1) as [-> ->]. reflexivity.
  - injection H as H3 H2 H1 H0 Hrest. apply sextet_std_inj in H3, H2, H1, H0.
    destruct (group3_inj a b c a' b' c' H3 H2 H1 H0) as (-> & -> & ->).
    now rewrite (IH l' Hrest).
Qed.

(** The link the inline handler stores loses nothing of the upload: for one
    declared media type, two links are equal exactly when the uploaded bytes
    are, so the bytes can be read back from the record. *)
Theorem inline_link_determines_the_bytes (mediaType : string) (data1 data2 : list byte) :
  "data:" +:+ mediaType +:+ ";base64," +:+ base64 data1 =
  "data:" +:+ mediaType +:+ ";base64," +:+ base64 data2 <->
  data1 = data2.
Proof.
  split; [|now intros ->].
  intros H.
  apply append_inj_same_length in H as [_ H]; [|reflexivity].
  apply append_inj_same_length in H as [_ H]; [|reflexivity].
  apply append_inj_same_length in H as [_ H]; [|reflexivity].
  now apply base64_inj.
Qed.

End DataURL.

(** * Concrete runs of the further properties *)

(** The example upload leaves neither temporary file behind. *)
Lemma example_upload_cleans_up :
  fs (@handlerUploadVideo Demo.healthy Demo.cfg Demo.upload Demo.world).2
    !! @stagedPath Demo.healthy Demo.cfg Demo.world = None /\
  fs (@handlerUploadVideo Demo.healthy Demo.cfg Demo.upload Demo.world).2
    !! (@stagedPath Demo.healthy Demo.cfg Demo.world +:+ ".processed") = None.
Proof.
  destruct (@handlerUploadVideo Demo.healthy Demo.cfg Demo.upload Demo.world)
    as [[e|resp] w'] eqn:Hrun.
  - vm_compute in Hrun. discriminate Hrun.
  - destruct (@success_leaves_no_temporaries Demo.healthy Demo.cfg Demo.upload
                Demo.world w' resp Hrun) as (f & Hstaged & Hprocessed & _).
    exact (conj Hstaged Hprocessed).
Defined.

(** The probe exits with status 1: the run stops there, the staged file
    stays, storage and records are untouched. *)
Lemma failed_probe_example :
  is_Some (fs (@handlerUploadVideo (Demo.env 1 "" 0) Demo.cfg Demo.upload Demo.world).2
             !! @stagedPath (Demo.env 1 "" 0) Demo.cfg Demo.world) /\
  s3 (@handlerUploadVideo (Demo.env 1 "" 0) Demo.cfg Demo.upload Demo.world).2
  = s3 Demo.world /\
  db (@handlerUploadVideo (Demo.env 1 "" 0) Demo.cfg Demo.upload Demo.world).2
  = db Demo.world.
Proof.
  destruct (@probe_verdict (Demo.env 1 "" 0)
              (@stagedPath (Demo.env 1 "" 0) Demo.cfg Demo.world)
              (@probeRun (Demo.env 1 "" 0) Demo.cfg Demo.world (file_bytes Demo.clip)))
    as [e|class] eqn:Hprobe.
  - destruct (@probe_failure_stops_the_pipeline (Demo.env 1 "" 0) Demo.cfg Demo.upload
                Demo.world "alice" Demo.clip Demo.record e (demo_validated 1 "" 0) Hprobe)
      as (_ & _ & Hfile & Hs3 & Hdb & _).
    exact (conj Hfile (conj Hs3 Hdb)).
  - vm_compute in Hprobe. discriminate Hprobe.
Defined.

(** A request without a token is refused with the error of the token
    reader. *)
Lemma anonymous_upload_is_refused :
  @handlerUploadVideo Demo.healthy Demo.cfg Samples.anonymous Demo.world
  = (inl (BadRequestError "Malformed authorization header"), Demo.world).
Proof.
  exact (@unauthenticated_request_changes_nothing Demo.healthy Demo.cfg Samples.anonymous
           Demo.world (BadRequestError "Malformed authorization header") eq_refl).
Defined.

(** A foreign actor sending an oversized payload is told about the size. *)
Lemma foreign_oversized_upload :
  @handlerUploadVideo Demo.healthy Demo.cfg
     (Demo.request (Some "v1") "mallory" (FormFile Demo.oversized)) Demo.world
  = (inl (BadRequestError "Video is larger than 1GB"), Demo.world).
Proof.
  apply (@ownership_checked_after_size_before_type Demo.healthy Demo.cfg
           (Demo.request (Some "v1") "mallory" (FormFile Demo.oversized)) Demo.world
           "mallory" "v1" [("video", FormFile Demo.oversized)] Demo.oversized
           (mkRow "alice" None None));
    first [reflexivity | discriminate].
Defined.

(** The example upload consumes 32 bytes of entropy. *)
Lemma example_upload_advances_entropy :
  entropy (@handlerUploadVideo Demo.healthy Demo.cfg Demo.upload Demo.world).2 = 32%nat.
Proof.
  exact (proj1 (@successive_uploads_read_fresh_entropy Demo.healthy Demo.cfg Demo.upload
                  Demo.world "alice" Demo.clip Demo.record "video/mp4"
                  (demo_validated 0 Demo.probe_720p 0))).
Defined.

(** The key stored by the example upload has two segments. *)
Lemma example_key_has_two_segments :
  exists video key prefix,
    params_videoId Demo.upload = Some (id video) /\
    row_videoURL <$>
      db (@handlerUploadVideo Demo.healthy Demo.cfg Demo.upload Demo.world).2 !! id video
    = Some (Some key) /\
    (prefix = "landscape" \/ prefix = "portrait" \/ prefix = "other") /\
    js_split "/" key = [prefix; @stagedName Demo.healthy Demo.world "video/mp4"].
Proof.
  destruct (@handlerUploadVideo Demo.healthy Demo.cfg Demo.upload Demo.world)
    as [[e|resp] w'] eqn:Hrun.
  - vm_compute in Hrun. discriminate Hrun.
  - exact (@storage_key_splits_into_class_and_name Demo.healthy Demo.cfg Demo.upload
             Demo.world w' resp Hrun).
Defined.

(** Signing a signed record asks for a link to the link. *)
Lemma resigning_example :
  log (@dbVideoToSignedVideo Demo.healthy
         (mkVideo "v1" "alice" (Some (Demo.sign 1000 "landscape/a.mp4" 3600)) None)
         (with_log Demo.world (Presign "landscape/a.mp4" 3600))).2
  = [Presign (Demo.sign 1000 "landscape/a.mp4" 3600) 3600;
     Presign "landscape/a.mp4" 3600].
Proof.
  apply (@resigning_signs_the_link Demo.healthy
           (mkVideo "v1" "alice" (Some "landscape/a.mp4") None)
           (mkVideo "v1" "alice" (Some (Demo.sign 1000 "landscape/a.mp4" 3600)) None)
           "landscape/a.mp4" Demo.world
           (with_log Demo.world (Presign "landscape/a.mp4" 3600)));
    first [reflexivity | discriminate | (vm_compute; discriminate)].
Defined.

(** A stream reported with height 0. *)
Lemma zero_height_is_other : classify 1920 0 = "other".
Proof.
  apply degenerate_dimensions_are_other. right. reflexivity.
Defined.

(** A stream reported with a negative width. *)
Lemma negative_width_is_other : classify (-1920) 1080 = "other".
Proof.
  apply opposite_signs_are_other. vm_compute. discriminate.
Defined.

(** A foreign actor's thumbnail is refused and nothing changes. *)
Lemma foreign_inline_thumbnail :
  (@Thumbnails.handlerUploadThumbnail Demo.healthy Demo.cfg
     (Samples.thumbnail_request (Some "v1") "mallory" (FormFile Samples.cover))
     Demo.world).2 = Demo.world.
Proof.
  apply (@refused_inline_thumbnail_changes_nothing Demo.healthy Demo.cfg
           (Samples.thumbnail_request (Some "v1") "mallory" (FormFile Samples.cover))
           Demo.world (UserForbiddenError "Wrong user")).
  vm_compute. reflexivity.
Defined.

(** A GIF is refused by the assets handler and nothing changes. *)
Lemma gif_asset_thumbnail :
  (@AssetThumbnails.handlerUploadThumbnail Demo.healthy Demo.cfg
     (Samples.thumbnail_request (Some "v1") "alice" (FormFile Samples.animation))
     Demo.world).2 = Demo.world.
Proof.
  apply (@refused_asset_thumbnail_changes_nothing Demo.healthy Demo.cfg
           (Samples.thumbnail_request (Some "v1") "alice" (FormFile Samples.animation))
           Demo.world (BadRequestError "Unsupported thumbnail format")).
  vm_compute. reflexivity.
Defined.

(** The owner sets a cover inline. *)
Lemma inline_cover_example :
  exists videoId fd f row,
    params_videoId Samples.set_cover = Some videoId /\
    formData Samples.set_cover = inr fd /\
    formData_get fd "thumbnail" = Some (FormFile f) /\
    db Demo.world !! videoId = Some row /\
    db (@Thumbnails.handlerUploadThumbnail Demo.healthy Demo.cfg Samples.set_cover
          Demo.world).2
    = <[videoId := mkRow (row_userID row) (row_videoURL row)
                     (Some ("data:" +:+ file_type f +:+ ";base64,"
                              +:+ base64 (file_bytes f)))]> (db Demo.world).
Proof.
  destruct (@Thumbnails.handlerUploadThumbnail Demo.healthy Demo.cfg Samples.set_cover
              Demo.world) as [[e|resp] w'] eqn:Hrun.
  - vm_compute in Hrun. discriminate Hrun.
  - pose proof (@inline_thumbnail_changes_one_field Demo.healthy Demo.cfg Samples.set_cover
                  Demo.world resp) as H.
    rewrite Hrun in H. cbv zeta in H.
    destruct (H eq_refl)
      as (videoId & fd & f & row & Hid & Hfd & Hpart & Hrow & _ & _ & Hdb & _).
    exists videoId, fd, f, row. auto.
Defined.

(** The owner sets a cover through the assets handler. *)
Lemma asset_cover_example :
  exists fileName,
    fs (@AssetThumbnails.handlerUploadThumbnail Demo.healthy Demo.cfg Samples.set_cover
          Demo.world).2 !! Demo.join "/var/assets" fileName
    = Some (file_bytes Samples.cover) /\
    row_thumbnailURL <$>
      db (@AssetThumbnails.handlerUploadThumbnail Demo.healthy Demo.cfg Samples.set_cover
            Demo.world).2 !! "v1"
    = Some (Some ("http://localhost:8091/assets/" +:+ fileName)).
Proof.
  destruct (@AssetThumbnails.handlerUploadThumbnail Demo.healthy Demo.cfg Samples.set_cover
              Demo.world) as [[e|resp] w'] eqn:Hrun.
  - vm_compute in Hrun. discriminate Hrun.
  - pose proof (@asset_thumbnail_link_names_the_written_file Demo.healthy Demo.cfg
                  Samples.set_cover Demo.world resp) as H.
    rewrite Hrun in H. cbv zeta in H.
    destruct (H eq_refl)
      as (videoId & fd & f & ext & Hid & Hfd & Hpart & Hext
          & Hfile & _ & _ & _ & Hdb & _).
    injection Hid as <-. injection Hfd as <-. injection Hpart as <-.
    eexists. split; [exact Hfile|]. exact Hdb.
Defined.

(** A cover declared one byte above the ceiling is refused by both
    handlers. *)
Lemma oversized_cover_is_refused :
  ((@Thumbnails.handlerUploadThumbnail Demo.healthy Demo.cfg
      (Samples.thumbnail_request (Some "v1") "alice" (FormFile Samples.poster))
      Demo.world).1 = inl (BadRequestError "Thumbnail is larger than 10MB")
   <-> 10485760 < 10485761) /\
  ((@AssetThumbnails.handlerUploadThumbnail Demo.healthy Demo.cfg
      (Samples.thumbnail_request (Some "v1") "alice" (FormFile Samples.poster))
      Demo.world).1 = inl (BadRequestError "Thumbnail is larger than 10MB")
   <-> 10485760 < 10485761).
Proof.
  apply (@thumbnail_ceiling Demo.healthy Demo.cfg
           (Samples.thumbnail_request (Some "v1") "alice" (FormFile Samples.poster))
           Demo.world "v1" "alice" [("thumbnail", FormFile Samples.poster)]
           Samples.poster);
    first [reflexivity | discriminate].
Defined.

(** The cover changes record [v1], and the caller is its owner. *)
Lemma cover_changes_own_record :
  exists row,
    db Demo.world !! "v1" = Some row /\
    params_videoId Samples.set_cover = Some "v1" /\
    @authenticate Demo.healthy Demo.cfg Samples.set_cover = inr (row_userID row).
Proof.
  apply (@only_the_owner_changes_a_record Demo.healthy
           (Api.UploadThumbnail Demo.cfg Samples.set_cover) Demo.cfg Samples.set_cover
           Demo.world "v1").
  - right. left. reflexivity.
  - vm_compute. discriminate.
Defined.

(** * Requests in flight *)

Section AsyncFacts.
Context {C : Collaborators}.

Lemma Task_induction {A} (P : Async.Task A -> Prop) :
  (forall r, P (Async.Finished r)) ->
  (forall resume, (forall w, P (resume w).1) -> P (Async.Await resume)) ->
  forall t, P t.
Proof.
  intros Hf Ha.
  refine (fix IH (t : Async.Task A) : P t :=
            match t with
            | Async.Finished r => Hf r
            | Async.Await resume => Ha resume (fun w => IH (resume w).1)
            end).
Qed.

(** Running without interruption. *)
Lemma complete_next {A B} (t : Async.Task A) (k : A -> Async.Code B) (w : World) :
  Async.run (Async.next t k) w =
  match Async.complete t w with
  | (inl e, w') => (inl e, w')
  | (inr a, w') => Async.run (k a) w'
  end.
Proof.
  revert w. induction t as [[e|a]|resume IH] using Task_induction; intros w.
  - reflexivity.
  - reflexivity.
  - unfold Async.run. cbn [Async.next Async.complete].
    pose proof (IH w) as IHw. destruct (resume w) as [t' w']. exact (IHw w').
Qed.

Lemma run_bind {A B} (c : Async.Code A) (k : A -> Async.Code B) (w : World) :
  Async.run (Async.bind c k) w =
  match Async.run c w with
  | (inl e, w') => (inl e, w')
  | (inr a, w') => Async.run (k a) w'
  end.
Proof.
  unfold Async.bind. unfold Async.run at 1 2.
  destruct (c w) as [t w']. apply complete_next.
Qed.

Lemma run_sync {A} (m : M A) (w : World) : Async.run (Async.sync m) w = m w.
Proof. unfold Async.run, Async.sync. now destruct (m w). Qed.

Lemma run_pause (w : World) : Async.run Async.pause w = (inr tt, w).
Proof. reflexivity. Qed.

Lemma run_done {A} (a : A) (w : World) : Async.run (Async.done a) w = (inr a, w).
Proof. reflexivity. Qed.

Lemma run_fail {A} (e : Error) (w : World) :
  Async.run (@Async.fail A e) w = (inl e, w).
Proof. reflexivity. Qed.

Lemma run_await {A} (op : M A) (w : World) : Async.run (Async.await op) w = op w.
Proof.
  unfold Async.await. rewrite run_bind, run_pause, run_bind, run_sync.
  destruct (op w) as [[e|a] w']; [reflexivity|].
  now rewrite run_bind, run_pause, run_done.
Qed.

Lemma run_called {A} (body : Async.Code A) (w : World) :
  Async.run (Async.called body) w = Async.run body w.
Proof.
  unfold Async.called. rewrite run_bind.
  destruct (Async.run body w) as [[e|a] w']; [reflexivity|].
  now rewrite run_bind, run_pause, run_done.
Qed.

(** Composition: code that agrees with a computation of [M] when it runs
    without interruption. *)
Lemma run_bind_as {A B} (c : Async.Code A) (k : A -> Async.Code B)
    (m : M A) (k' : A -> M B) (w : World) :
  (forall w, Async.run c w = m w) ->
  (forall a w, Async.run (k a) w = k' a w) ->
  Async.run (Async.bind c k) w = bind m k' w.
Proof.
  intros Hc Hk. rewrite run_bind, Hc. unfold bind.
  destruct (m w) as [[e|a] w']; [reflexivity|apply Hk].
Qed.

Lemma run_pause_then {B} (k : Async.Code B) (w : World) :
  Async.run (Async.bind Async.pause (fun _ => k)) w = Async.run k w.
Proof. now rewrite run_bind, run_pause. Qed.

Ltac sync_step :=
  apply run_bind_as; [intros; first [apply run_sync | apply run_await]|]; intros.

(** Run without interruption, the handlers with their suspensions are the
    handlers of the first part. *)
Lemma probe_uninterrupted (filePath : string) (w : World) :
  Async.run (Async.getVideoAspectRatio filePath) w = getVideoAspectRatio filePath w.
Proof.
  unfold Async.getVideoAspectRatio, getVideoAspectRatio.
  sync_step. rewrite !run_pause_then.
  destruct (negb _); [now rewrite run_pause_then|].
  do 7 sync_step. reflexivity.
Qed.

Lemma remux_uninterrupted (filePath : string) (w : World) :
  Async.run (Async.processVideoForFastStart filePath) w
  = processVideoForFastStart filePath w.
Proof.
  unfold Async.processVideoForFastStart, processVideoForFastStart. cbv zeta.
  sync_step. rewrite !run_pause_then.
  destruct (negb _); [now rewrite run_pause_then|reflexivity].
Qed.

Lemma upload_uninterrupted (cfg : ApiConfig) (req : BunRequest) (w : World) :
  Async.run (Async.handlerUploadVideo cfg req) w = handlerUploadVideo cfg req w.
Proof.
  unfold Async.handlerUploadVideo, handlerUploadVideo.
  apply run_bind_as; [intros; now destruct (js_not _)|]. intros videoId w1.
  do 2 sync_step. rewrite run_pause_then. sync_step.
  destruct (formData_get _ _) as [[s|videoData]|]; try reflexivity.
  destruct (_ >? _)%Z; [reflexivity|].
  sync_step. destruct a2 as [video|]; [|reflexivity].
  destruct (negb _); [reflexivity|].
  destruct (negb _); [reflexivity|].
  cbv zeta. rewrite run_pause_then. do 2 sync_step.
  apply run_bind_as; [intros; rewrite run_called; apply probe_uninterrupted|]. intros.
  apply run_bind_as; [intros; rewrite run_called; apply remux_uninterrupted|]. intros.
  do 5 sync_step. reflexivity.
Qed.

Lemma asset_uninterrupted (cfg : ApiConfig) (req : BunRequest) (w : World) :
  Async.run (Async.handlerUploadThumbnail cfg req) w
  = AssetThumbnails.handlerUploadThumbnail cfg req w.
Proof.
  unfold Async.handlerUploadThumbnail, AssetThumbnails.handlerUploadThumbnail.
  apply run_bind_as; [intros; now destruct (js_not _)|]. intros videoId w1.
  do 2 sync_step. rewrite run_pause_then. sync_step.
  destruct (formData_get _ _) as [[s|thumbnail]|]; try reflexivity.
  destruct (_ >? _)%Z; [reflexivity|].
  sync_step. destruct a2 as [video|]; [|reflexivity].
  destruct (negb _); [reflexivity|].
  destruct (_ && _); [reflexivity|].
  cbv zeta. rewrite run_pause_then. do 3 sync_step. reflexivity.
Qed.

(** Running among other requests. *)
Lemma among_next {A B} (t : Async.Task A) (k : A -> Async.Code B)
    (others : nat -> World -> World) (n : nat) (w : World) :
  Async.run_among (Async.next t k) others n w =
  match Async.resume_among t others n w with
  | (inl e, w', n') => (inl e, w', n')
  | (inr a, w', n') => Async.run_among (k a) others n' w'
  end.
Proof.
  revert n w. induction t as [[e|a]|resume IH] using Task_induction; intros n w.
  - reflexivity.
  - reflexivity.
  - unfold Async.run_among. cbn [Async.next Async.resume_among].
    pose proof (IH (others n w)) as IHw.
    destruct (resume (others n w)) as [t' w']. exact (IHw (S n) w').
Qed.

Lemma among_bind {A B} (c : Async.Code A) (k : A -> Async.Code B)
    (others : nat -> World -> World) (n : nat) (w : World) :
  Async.run_among (Async.bind c k) others n w =
  match Async.run_among c others n w with
  | (inl e, w', n') => (inl e, w', n')
  | (inr a, w', n') => Async.run_among (k a) others n' w'
  end.
Proof.
  unfold Async.bind. unfold Async.run_among at 1 2.
  destruct (c w) as [t w']. apply among_next.
Qed.

Lemma among_bind_inr {A B} (c : Async.Code A) (k : A -> Async.Code B)
    (others : nat -> World -> World) (n n' : nat) (w w' : World) (b : B) :
  Async.run_among (Async.bind c k) others n w = (inr b, w', n') ->
  exists a w1 n1,
    Async.run_among c others n w = (inr a, w1, n1) /\
    Async.run_among (k a) others n1 w1 = (inr b, w', n').
Proof.
  rewrite among_bind.
  destruct (Async.run_among c others n w) as [[[e|a] w1] n1]; [discriminate|].
  intros H. eauto.
Qed.

Lemma among_sync {A} (m : M A) (others : nat -> World -> World) (n : nat) (w : World) :
  Async.run_among (Async.sync m) others n w = (m w, n).
Proof. unfold Async.run_among, Async.sync. now destruct (m w). Qed.

Lemma among_pause (others : nat -> World -> World) (n : nat) (w : World) :
  Async.run_among Async.pause others n w = (inr tt, others n w, S n).
Proof. reflexivity. Qed.

Lemma among_pause_then {B} (k : Async.Code B)
    (others : nat -> World -> World) (n : nat) (w : World) :
  Async.run_among (Async.bind Async.pause (fun _ => k)) others n w
  = Async.run_among k others (S n) (others n w).
Proof. now rewrite among_bind, among_pause. Qed.

(** The last stretch of [handlerUploadVideo]: the record is written back as
    it was read, with the location replaced. *)
Lemma upload_write_back (video : Video) (key : string)
    (others : nat -> World -> World) (n n' : nat) (w w' : World) (resp : Response) :
  Async.run_among
    (Async.bind (Async.sync (updateVideo (set_videoURL video (Some key))))
       (fun _ => Async.bind (Async.sync (dbVideoToSignedVideo (set_videoURL video (Some key))))
                   (fun signedVideo => Async.done (respondWithJSON 200 signedVideo))))
    others n w = (inr resp, w', n') ->
  db w' !! id video = Some (mkRow (userID video) (Some key) (thumbnailURL video)) /\
  id (payload resp) = id video /\
  userID (payload resp) = userID video /\
  thumbnailURL (payload resp) = thumbnailURL video.
Proof.
  rewrite among_bind, among_sync. cbn [updateVideo].
  rewrite among_bind, among_sync.
  unfold dbVideoToSignedVideo, generatePresignedURL, s3_presign.
  cbn [videoURL set_videoURL].
  destruct (js_not (Some key)); cbv beta iota delta [ret bind];
    cbn [Async.run_among Async.done Async.resume_among];
    intros H; injection H as <- <- _; cbn [db with_db with_log id set_videoURL];
    rewrite lookup_insert_eq; repeat split; reflexivity.
Qed.

Lemma among_done {A} (a : A) (others : nat -> World -> World) (n : nat) (w : World) :
  Async.run_among (Async.done a) others n w = (inr a, w, n).
Proof. reflexivity. Qed.

Lemma among_fail {A} (e : Error) (others : nat -> World -> World) (n : nat) (w : World) :
  Async.run_among (@Async.fail A e) others n w = (inl e, w, n).
Proof. reflexivity. Qed.

(** The video upload writes back the record it read. The record is read in
    the world [others 0 w], in which the handler is resumed after its first
    suspension, [await req.formData()]. Whatever the other requests do
    during the later suspensions, a successful run leaves under the
    identifier of the request that record with the location replaced: owner
    and thumbnail link are those read, in the stored record and in the
    answer; a thumbnail link stored in the meantime is gone. *)
Theorem upload_writes_back_the_record_it_read
    (others : nat -> World -> World) (cfg : ApiConfig) (req : BunRequest)
    (w w' : World) (resp : Response) (n' : nat) :
  Async.run_among (Async.handlerUploadVideo cfg req) others 0%nat w = (inr resp, w', n') ->
  exists videoId row key,
    params_videoId req = Some videoId /\
    db (others 0%nat w) !! videoId = Some row /\
    db w' !! videoId = Some (mkRow (row_userID row) (Some key) (row_thumbnailURL row)) /\
    id (payload resp) = videoId /\
    userID (payload resp) = row_userID row /\
    thumbnailURL (payload resp) = row_thumbnailURL row.
Proof.
  intros H. unfold Async.handlerUploadVideo in H.
  rewrite among_bind in H.
  destruct (params_videoId req) as [videoId|] eqn:Hid; cbn [js_not] in H;
    [|discriminate H].
  destruct (String.eqb videoId ""); [discriminate H|].
  rewrite among_done in H. change (default "" (Some videoId)) with videoId in H.
  rewrite among_bind, among_sync in H.
  destruct (getBearerToken (headers req)) as [e|token]; [discriminate H|].
  cbn [lift ret] in H.
  rewrite among_bind, among_sync in H.
  destruct (validateJWT token (jwtSecret cfg)) as [e|actor]; [discriminate H|].
  cbn [lift ret] in H.
  rewrite among_pause_then in H.
  rewrite among_bind, among_sync in H.
  destruct (formData req) as [e|fd]; [discriminate H|].
  cbn [lift ret] in H.
  destruct (formData_get fd "video") as [[s|videoData]|]; try discriminate H.
  destruct (file_size videoData >? MAX_UPLOAD_SIZE)%Z; [discriminate H|].
  rewrite among_bind, among_sync in H. unfold getVideo in H.
  destruct (db (others 0%nat w) !! videoId) as [row|] eqn:Hrow;
    cbn [fmap option_fmap option_map] in H; [|discriminate H].
  destruct (negb _); [discriminate H|].
  destruct (negb _); [discriminate H|].
  cbv zeta in H. rewrite among_pause_then in H.
  apply among_bind_inr in H as (rnd & w1 & n1 & _ & H).
  apply among_bind_inr in H as (? & w2 & n2 & _ & H).
  apply among_bind_inr in H as (prefix & w3 & n3 & _ & H).
  apply among_bind_inr in H as (processedFilePath & w4 & n4 & _ & H).
  apply among_bind_inr in H as (? & w5 & n5 & _ & H).
  apply among_bind_inr in H as (? & w6 & n6 & _ & H).
  apply among_bind_inr in H as (? & w7 & n7 & _ & H).
  apply upload_write_back in H as (Hdb & Hi & Hu & Ht).
  exists videoId, row, (prefix +:+ "/" +:+ base64url rnd +:+ "."
                          +:+ js_template (js_at_last (js_split "/" (file_type videoData)))).
  split; [reflexivity|]. split; [exact Hrow|].
  split; [exact Hdb|]. split; [exact Hi|]. split; [exact Hu|exact Ht].
Qed.

(** The same for the assets handler: the record it writes back is the one
    it read in the world [others 0 w], before [await thumbnail.arrayBuffer()]
    and [await Bun.write(targetPath, data)], with the thumbnail link
    replaced. A storage location set while the handler was suspended there
    is overwritten by the one read before, which may be unset. *)
Theorem asset_thumbnail_writes_back_the_record_it_read
    (others : nat -> World -> World) (cfg : ApiConfig) (req : BunRequest)
    (w w' : World) (resp : Response) (n' : nat) :
  Async.run_among (Async.handlerUploadThumbnail cfg req) others 0%nat w = (inr resp, w', n') ->
  exists videoId row link,
    params_videoId req = Some videoId /\
    db (others 0%nat w) !! videoId = Some row /\
    db w' !! videoId = Some (mkRow (row_userID row) (row_videoURL row) (Some link)) /\
    payload resp = mkVideo videoId (row_userID row) (row_videoURL row) (Some link).
Proof.
  intros H. unfold Async.handlerUploadThumbnail in H.
  rewrite among_bind in H.
  destruct (params_videoId req) as [videoId|] eqn:Hid; cbn [js_not] in H;
    [|discriminate H].
  destruct (String.eqb videoId ""); [discriminate H|].
  rewrite among_done in H. change (default "" (Some videoId)) with videoId in H.
  rewrite among_bind, among_sync in H.
  destruct (getBearerToken (headers req)) as [e|token]; [discriminate H|].
  cbn [lift ret] in H.
  rewrite among_bind, among_sync in H.
  destruct (validateJWT token (jwtSecret cfg)) as [e|actor]; [discriminate H|].
  cbn [lift ret] in H.
  rewrite among_pause_then in H.
  rewrite among_bind, among_sync in H.
  destruct (formData req) as [e|fd]; [discriminate H|].
  cbn [lift ret] in H.
  destruct (formData_get fd "thumbnail") as [[s|thumbnail]|]; try discriminate H.
  destruct (file_size thumbnail >? AssetThumbnails.MAX_UPLOAD_SIZE)%Z; [discriminate H|].
  rewrite among_bind, among_sync in H. unfold getVideo in H.
  destruct (db (others 0%nat w) !! videoId) as [row|] eqn:Hrow;
    cbn [fmap option_fmap option_map] in H; [|discriminate H].
  destruct (negb _); [discriminate H|].
  destruct (_ && _); [discriminate H|].
  cbv zeta in H. rewrite among_pause_then in H.
  rewrite among_bind, among_sync in H. cbn [randomBytes] in H.
  unfold Async.await in H.
  rewrite among_bind, among_pause_then, among_bind, among_sync in H.
  cbn [Bun_write] in H.
  rewrite among_pause_then, among_done in H.
  rewrite among_bind, among_sync in H. cbn [updateVideo] in H.
  rewrite among_done in H. injection H as <- <- <-.
  eexists videoId, row, _.
  split; [reflexivity|]. split; [exact Hrow|].
  cbn [db with_db id set_thumbnailURL video_of_row]. rewrite lookup_insert_eq.
  repeat split; reflexivity.
Qed.

End AsyncFacts.

(** * Concrete runs of requests in flight *)



(** A cover stored while the video upload waits for the probe is lost when
    the upload writes the record back. *)
Lemma cover_set_meanwhile_is_lost :
  let upload := @Async.handlerUploadVideo Demo.healthy Demo.cfg Demo.upload in
  let others := @Samples.cover_meanwhile Demo.healthy in
  (exists before covered link,
     Async.suspensions upload others Demo.world !! 5%nat = Some (before, covered) /\
     row_thumbnailURL <$> db covered !! "v1" = Some (Some link)) /\
  row_thumbnailURL <$> db (Async.run_among upload others 0 Demo.world).1.2 !! "v1"
  = Some None.
Proof.
  cbv zeta. split.
  { eexists _, _, _. split; vm_compute; reflexivity. }
  destruct (Async.run_among (@Async.handlerUploadVideo Demo.healthy Demo.cfg Demo.upload)
              (@Samples.cover_meanwhile Demo.healthy) 0 Demo.world)
    as [[[e|resp] w'] n'] eqn:Hrun.
  - vm_compute in Hrun. discriminate Hrun.
  - destruct (@upload_writes_back_the_record_it_read Demo.healthy
                (@Samples.cover_meanwhile Demo.healthy) Demo.cfg Demo.upload Demo.world
                w' resp n' Hrun)
      as (videoId & row & key & Hid & Hrow & Hdb & _).
    injection Hid as <-. vm_compute in Hrow. injection Hrow as <-.
    cbn [fst snd]. rewrite Hdb. reflexivity.
Defined.

(** A location set while the assets handler waits for its file to be
    written is unset when the handler writes the record back. *)
Lemma location_set_meanwhile_is_lost :
  let thumbnail := @Async.handlerUploadThumbnail Demo.healthy Demo.cfg Samples.set_cover in
  let others := @Samples.upload_meanwhile Demo.healthy in
  (exists before uploaded key,
     Async.suspensions thumbnail others Demo.world !! 3%nat = Some (before, uploaded) /\
     row_videoURL <$> db uploaded !! "v1" = Some (Some key)) /\
  row_videoURL <$> db (Async.run_among thumbnail others 0 Demo.world).1.2 !! "v1"
  = Some None.
Proof.
  cbv zeta. split.
  { eexists _, _, _. split; vm_compute; reflexivity. }
  destruct (Async.run_among
              (@Async.handlerUploadThumbnail Demo.healthy Demo.cfg Samples.set_cover)
              (@Samples.upload_meanwhile Demo.healthy) 0 Demo.world)
    as [[[e|resp] w'] n'] eqn:Hrun.
  - vm_compute in Hrun. discriminate Hrun.
  - destruct (@asset_thumbnail_writes_back_the_record_it_read Demo.healthy
                (@Samples.upload_meanwhile Demo.healthy) Demo.cfg Samples.set_cover
                Demo.world w' resp n' Hrun)
      as (videoId & row & link & Hid & Hrow & Hdb & _).
    injection Hid as <-. vm_compute in Hrow. injection Hrow as <-.
    cbn [fst snd]. rewrite Hdb. reflexivity.
Defined.
